(** * Remindiary: the chat controller (Backend/controllers/chatController.js)

    A shallow embedding of the two revisions of the controller that the
    repository carries -- the Gemini-backed one and the Groq-backed one --
    together with the JavaScript built-ins they lean on (regular
    expressions, [JSON.parse], [Date]), and the properties of the
    classification and diary pipelines proved about them. *)

From Stdlib Require Import Ascii String.
From Stdlib Require Import List ZArith NArith Bool Lia Arith.
Import ListNotations.

Set Warnings "-register-all".

Set Implicit Arguments.

(* ================================================================== *)
(** * JavaScript strings *)
(* ================================================================== *)

(** A JavaScript string is a sequence of UTF-16 code units. *)
Definition jsstring := list N.

(** Code units of an ASCII literal. *)
Definition lit (s : string) : jsstring :=
  map N_of_ascii (list_ascii_of_string s).

Module Ch.
Definition tab : N := 9.
Definition lf : N := 10.
Definition cr : N := 13.
Definition space : N := 32.
Definition dquote : N := 34.
Definition plus : N := 43.
Definition comma : N := 44.
Definition minus : N := 45.
Definition dot : N := 46.
Definition slash : N := 47.
Definition zero : N := 48.
Definition colon : N := 58.
Definition lbracket : N := 91.
Definition backslash : N := 92.
Definition rbracket : N := 93.
Definition underscore : N := 95.
Definition lbrace : N := 123.
Definition rbrace : N := 125.
End Ch.

Fixpoint str_eqb (a b : jsstring) : bool :=
  match a, b with
  | [], [] => true
  | x :: a', y :: b' => (x =? y)%N && str_eqb a' b'
  | _, _ => false
  end.

Definition is_digit (c : N) : bool := ((48 <=? c) && (c <=? 57))%N.
Definition is_upper (c : N) : bool := ((65 <=? c) && (c <=? 90))%N.
Definition is_lower (c : N) : bool := ((97 <=? c) && (c <=? 122))%N.

(** [\w] : ASCII letters, digits and the underscore. *)
Definition is_word (c : N) : bool :=
  is_upper c || is_lower c || is_digit c || (c =? Ch.underscore)%N.

(** [\s] : WhiteSpace and LineTerminator code units of ECMA-262; also what
    [String.prototype.trim] strips. *)
Definition is_space (c : N) : bool :=
  ((c =? 9) || (c =? 10) || (c =? 11) || (c =? 12) || (c =? 13) || (c =? 32)
   || (c =? 160) || (c =? 5760) || ((8192 <=? c) && (c <=? 8202))
   || (c =? 8232) || (c =? 8233) || (c =? 8239) || (c =? 8287)
   || (c =? 12288) || (c =? 65279))%N.

(** Upper- and lower-casing restricted to ASCII letters.  The controller only
    compares against ASCII letters (the regular expression literals [am] and
    [pm] under the [i] flag, and the token [null] after [toLowerCase]); no
    code unit outside ASCII canonicalizes or lower-cases to one of those
    letters, so the restriction loses nothing there. *)
Definition ascii_upper (c : N) : N := if is_lower c then (c - 32)%N else c.
Definition ascii_lower (c : N) : N := if is_upper c then (c + 32)%N else c.

Fixpoint drop_space (s : jsstring) : jsstring :=
  match s with
  | c :: r => if is_space c then drop_space r else s
  | [] => []
  end.

(** [String.prototype.trim] *)
Definition trim (s : jsstring) : jsstring :=
  rev (drop_space (rev (drop_space s))).

(* ================================================================== *)
(** * JavaScript values *)
(* ================================================================== *)

(** The values the controller handles.  A number is kept as the literal it
    was read from: binary64 arithmetic is not modelled, and what depends on
    it is asked of the [platform] below.  A [Date] carries its time value in
    milliseconds since the epoch, [None] for an Invalid Date. *)
Inductive value : Type :=
| JUndefined
| JNull
| JBool (b : bool)
| JNumber (literal : jsstring)
| JString (s : jsstring)
| JArray (items : list value)
| JObject (props : list (jsstring * value))
| JDate (t : option Z).

(** [Array.isArray] *)
Definition Array_isArray (v : value) : bool :=
  match v with JArray _ => true | _ => false end.

Definition is_object (v : value) : bool :=
  match v with JObject _ => true | _ => false end.

(** Own property lookup in the property list of an object. *)
Fixpoint lookup (ps : list (jsstring * value)) (k : jsstring) : option value :=
  match ps with
  | [] => None
  | (k', v) :: r => if str_eqb k' k then Some v else lookup r k
  end.

(** Defining a property on an object under construction: an existing key
    keeps its place and takes the new value, a new key goes last. *)
Fixpoint obj_set (ps : list (jsstring * value)) (k : jsstring) (v : value)
  : list (jsstring * value) :=
  match ps with
  | [] => [(k, v)]
  | (k', v') :: r =>
      if str_eqb k' k then (k', v) :: r else (k', v') :: obj_set r k v
  end.

(* ================================================================== *)
(** * JSON.parse *)
(* ================================================================== *)

Module Json.

Definition is_ws (c : N) : bool :=
  ((c =? Ch.space) || (c =? Ch.tab) || (c =? Ch.lf) || (c =? Ch.cr))%N.

Fixpoint skip_ws (s : jsstring) : jsstring :=
  match s with
  | c :: r => if is_ws c then skip_ws r else s
  | [] => []
  end.

Definition hex_digit (c : N) : option N :=
  if is_digit c then Some (c - 48)%N
  else if ((97 <=? c) && (c <=? 102))%N then Some (c - 87)%N
  else if ((65 <=? c) && (c <=? 70))%N then Some (c - 55)%N
  else None.

Definition hex4 (a b c d : N) : option N :=
  match hex_digit a, hex_digit b, hex_digit c, hex_digit d with
  | Some x, Some y, Some z, Some w => Some (((x * 16 + y) * 16 + z) * 16 + w)%N
  | _, _, _, _ => None
  end.

(** The character a single-letter escape stands for. *)
Definition simple_escape (e : N) : option N :=
  if (e =? Ch.dquote)%N then Some Ch.dquote
  else if (e =? Ch.backslash)%N then Some Ch.backslash
  else if (e =? Ch.slash)%N then Some Ch.slash
  else if (e =? 98)%N then Some 8%N        (* \b *)
  else if (e =? 102)%N then Some 12%N      (* \f *)
  else if (e =? 110)%N then Some 10%N      (* \n *)
  else if (e =? 114)%N then Some 13%N      (* \r *)
  else if (e =? 116)%N then Some 9%N       (* \t *)
  else None.

(** The characters of a string literal after its opening quote, up to and
    including the closing quote. *)
Fixpoint lex_string (s : jsstring) (acc : jsstring)
  : option (jsstring * jsstring) :=
  match s with
  | [] => None
  | c :: r =>
      if (c =? Ch.dquote)%N then Some (rev acc, r)
      else if (c =? Ch.backslash)%N then
        match r with
        | [] => None
        | e :: r' =>
            if (e =? 117)%N then           (* \uXXXX *)
              match r' with
              | h1 :: h2 :: h3 :: h4 :: r'' =>
                  match hex4 h1 h2 h3 h4 with
                  | Some u => lex_string r'' (u :: acc)
                  | None => None
                  end
              | _ => None
              end
            else
              match simple_escape e with
              | Some x => lex_string r' (x :: acc)
              | None => None
              end
        end
      else if (c <? 32)%N then None
      else lex_string r (c :: acc)
  end.

Fixpoint take_digits (s : jsstring) : jsstring * jsstring :=
  match s with
  | c :: r =>
      if is_digit c then let (ds, r') := take_digits r in (c :: ds, r')
      else ([], s)
  | [] => ([], [])
  end.

(** Integer part: [0], or a non-zero digit followed by digits. *)
Definition lex_int (s : jsstring) : option (jsstring * jsstring) :=
  match s with
  | c :: r =>
      if (c =? Ch.zero)%N then Some ([c], r)
      else if is_digit c then let (ds, r') := take_digits r in Some (c :: ds, r')
      else None
  | [] => None
  end.

(** Optional fraction: a dot and at least one digit. *)
Definition lex_frac (s : jsstring) : option (jsstring * jsstring) :=
  match s with
  | c :: r =>
      if (c =? Ch.dot)%N then
        match take_digits r with
        | ([], _) => None
        | (ds, r') => Some (c :: ds, r')
        end
      else Some ([], s)
  | [] => Some ([], [])
  end.

(** Optional exponent: [e] or [E], an optional sign, at least one digit. *)
Definition lex_exp (s : jsstring) : option (jsstring * jsstring) :=
  match s with
  | c :: r =>
      if ((c =? 101) || (c =? 69))%N then
        let (sg, r1) :=
          match r with
          | x :: r0 =>
              if ((x =? Ch.plus) || (x =? Ch.minus))%N then ([x], r0) else ([], r)
          | [] => ([], [])
          end in
        match take_digits r1 with
        | ([], _) => None
        | (ds, r') => Some (c :: sg ++ ds, r')
        end
      else Some ([], s)
  | [] => Some ([], [])
  end.

Definition lex_number (s : jsstring) : option (jsstring * jsstring) :=
  let (sg, s1) :=
    match s with
    | c :: r => if (c =? Ch.minus)%N then ([c], r) else ([], s)
    | [] => ([], [])
    end in
  match lex_int s1 with
  | None => None
  | Some (i, s2) =>
      match lex_frac s2 with
      | None => None
      | Some (f, s3) =>
          match lex_exp s3 with
          | None => None
          | Some (e, s4) => Some (sg ++ i ++ f ++ e, s4)
          end
      end
  end.

(** [strip_prefix p s] is the rest of [s] after its prefix [p]. *)
Fixpoint strip_prefix (p s : jsstring) : option jsstring :=
  match p, s with
  | [], _ => Some s
  | x :: p', y :: s' => if (x =? y)%N then strip_prefix p' s' else None
  | _ :: _, [] => None
  end.

(** Recursive descent over the JSON grammar.  Every call spends one unit
    of fuel; [parse] below hands out two units per code unit of the
    text, which [parse_value_fuel] shows is always enough. *)
Fixpoint parse_value (fuel : nat) (s : jsstring) {struct fuel}
  : option (value * jsstring) :=
  match fuel with
  | O => None
  | S fuel' =>
      match skip_ws s with
      | [] => None
      | c :: r =>
          if (c =? Ch.lbrace)%N then
            match skip_ws r with
            | c' :: r' =>
                if (c' =? Ch.rbrace)%N then Some (JObject [], r')
                else parse_members fuel' [] (c' :: r')
            | [] => None
            end
          else if (c =? Ch.lbracket)%N then
            match skip_ws r with
            | c' :: r' =>
                if (c' =? Ch.rbracket)%N then Some (JArray [], r')
                else parse_elements fuel' [] (c' :: r')
            | [] => None
            end
          else if (c =? Ch.dquote)%N then
            match lex_string r [] with
            | Some (str, r') => Some (JString str, r')
            | None => None
            end
          else if (c =? Ch.minus)%N || is_digit c then
            match lex_number (c :: r) with
            | Some (n, r') => Some (JNumber n, r')
            | None => None
            end
          else
            match strip_prefix (lit "true") (c :: r) with
            | Some r' => Some (JBool true, r')
            | None =>
                match strip_prefix (lit "false") (c :: r) with
                | Some r' => Some (JBool false, r')
                | None =>
                    match strip_prefix (lit "null") (c :: r) with
                    | Some r' => Some (JNull, r')
                    | None => None
                    end
                end
            end
      end
  end

(** Elements of an array after [[]: a value, then [,] and more, or []]. *)
with parse_elements (fuel : nat) (acc : list value) (s : jsstring)
       {struct fuel} : option (value * jsstring) :=
  match fuel with
  | O => None
  | S fuel' =>
      match parse_value fuel' s with
      | None => None
      | Some (v, r) =>
          match skip_ws r with
          | c :: r' =>
              if (c =? Ch.comma)%N then parse_elements fuel' (v :: acc) r'
              else if (c =? Ch.rbracket)%N then Some (JArray (rev (v :: acc)), r')
              else None
          | [] => None
          end
      end
  end

(** Members of an object after [{]: a string key, [:], a value, then [,]
    and more, or [}]. *)
with parse_members (fuel : nat) (acc : list (jsstring * value)) (s : jsstring)
       {struct fuel} : option (value * jsstring) :=
  match fuel with
  | O => None
  | S fuel' =>
      match skip_ws s with
      | q :: r0 =>
          if (q =? Ch.dquote)%N then
            match lex_string r0 [] with
            | None => None
            | Some (k, r1) =>
                match skip_ws r1 with
                | c1 :: r2 =>
                    if (c1 =? Ch.colon)%N then
                      match parse_value fuel' r2 with
                      | None => None
                      | Some (v, r3) =>
                          match skip_ws r3 with
                          | c :: r' =>
                              if (c =? Ch.comma)%N
                              then parse_members fuel' (obj_set acc k v) r'
                              else if (c =? Ch.rbrace)%N
                              then Some (JObject (obj_set acc k v), r')
                              else None
                          | [] => None
                          end
                      end
                    else None
                | [] => None
                end
            end
          else None
      | [] => None
      end
  end.

Definition fuel_for (s : jsstring) : nat := 2 * length s + 2.

(** [JSON.parse(text)]: [None] stands for the SyntaxError it throws. *)
Definition parse (s : jsstring) : option value :=
  match parse_value (fuel_for s) s with
  | Some (v, r) =>
      match skip_ws r with
      | [] => Some v
      | _ :: _ => None
      end
  | None => None
  end.

End Json.

Definition dq : jsstring := [Ch.dquote].
Definition nl : jsstring := [Ch.lf].

(* ================================================================== *)
(** * Regular expressions *)
(* ================================================================== *)

(** The backtracking matcher of ECMA-262, for the fragment the controller
    writes: literals, classes, [\b], sequence, alternation, greedy
    quantifiers and groups.  Only [match(...)[0]] and [test] are used, so
    groups record nothing. *)
Module Regex.

Inductive regex : Type :=
| Eps
| Lit (c : N)
| Class (p : N -> bool)
| WordB
| Seq (r1 r2 : regex)
| Alt (r1 r2 : regex)
| Quant (r : regex) (min : nat) (max : option nat)
| Group (r : regex).

(** A continuation receives the code unit before the current position
    and the text from it on, and answers with the text left after the
    whole match. *)
Definition cont := option N -> jsstring -> option jsstring.

(** Literal comparison; under the [i] flag both sides are canonicalized. *)
Definition char_eq (icase : bool) (x c : N) : bool :=
  if icase then (ascii_upper x =? ascii_upper c)%N else (x =? c)%N.

Definition word_before (prev : option N) : bool :=
  match prev with Some c => is_word c | None => false end.

Definition word_after (s : jsstring) : bool :=
  match s with c :: _ => is_word c | [] => false end.

(** [\b] holds where exactly one side is a word character. *)
Definition at_boundary (prev : option N) (s : jsstring) : bool :=
  xorb (word_before prev) (word_after s).

Definition dec_max (max : option nat) : option nat := option_map pred max.

(** RepeatMatcher, greedy: an iteration that may be skipped ([min = 0])
    and consumes nothing is rejected. *)
Fixpoint rep (mr : cont -> cont) (fuel min : nat) (max : option nat)
         (k : cont) (prev : option N) (s : jsstring) {struct fuel}
  : option jsstring :=
  match fuel with
  | O => None
  | S fuel' =>
      match max with
      | Some O => k prev s
      | _ =>
          let d : cont := fun prev' s' =>
            if (min =? 0)%nat && (length s' =? length s)%nat then None
            else rep mr fuel' (pred min) (dec_max max) k prev' s' in
          match min with
          | O => match mr d prev s with
                 | Some z => Some z
                 | None => k prev s
                 end
          | S _ => mr d prev s
          end
      end
  end.

(** The classes used here ([\d], [\s], [[\s\S]]) hold no cased letters, so
    the [i] flag leaves them as they are. *)
Fixpoint run (icase : bool) (r : regex) (k : cont) (prev : option N)
         (s : jsstring) {struct r} : option jsstring :=
  match r with
  | Eps => k prev s
  | Lit c =>
      match s with
      | x :: s' => if char_eq icase x c then k (Some x) s' else None
      | [] => None
      end
  | Class p =>
      match s with
      | x :: s' => if p x then k (Some x) s' else None
      | [] => None
      end
  | WordB => if at_boundary prev s then k prev s else None
  | Seq r1 r2 => run icase r1 (run icase r2 k) prev s
  | Alt r1 r2 =>
      match run icase r1 k prev s with
      | Some z => Some z
      | None => run icase r2 k prev s
      end
  | Quant r1 min max =>
      rep (run icase r1) (min + length s + 1) min max k prev s
  | Group r1 => run icase r1 k prev s
  end.

Definition accept : cont := fun _ s => Some s.

(** Leftmost match: try every start position in turn; the answer is the
    matched text. *)
Fixpoint exec_from (icase : bool) (r : regex) (prev : option N)
         (s : jsstring) {struct s} : option jsstring :=
  match run icase r accept prev s with
  | Some rest => Some (firstn (length s - length rest) s)
  | None =>
      match s with
      | [] => None
      | x :: s' => exec_from icase r (Some x) s'
      end
  end.

(** [text.match(re)] for a regular expression without the [g] flag:
    [Some m] is the array whose element [0] is [m], [None] is [null]. *)
Definition exec (icase : bool) (r : regex) (s : jsstring) : option jsstring :=
  exec_from icase r None s.

(** [re.test(text)] *)
Definition test (icase : bool) (r : regex) (s : jsstring) : bool :=
  match exec icase r s with Some _ => true | None => false end.

(** The code unit before the position reached by reading [pre] from a
    position that had [p] before it. *)
Definition prev_of (p : option N) (pre : jsstring) : option N :=
  fold_left (fun _ x => Some x) pre p.

(** ** What a match is *)

(** [Matches icase r prev s prev' s']: [r] matches from the position
    with [prev] before it and [s] after it, up to the position with
    [prev'] before it and [s'] after it. *)
Inductive Matches (icase : bool)
  : regex -> option N -> jsstring -> option N -> jsstring -> Prop :=
| MEps p s : Matches icase Eps p s p s
| MLit c x p s :
    char_eq icase x c = true -> Matches icase (Lit c) p (x :: s) (Some x) s
| MClass (f : N -> bool) x p s :
    f x = true -> Matches icase (Class f) p (x :: s) (Some x) s
| MWordB p s :
    at_boundary p s = true -> Matches icase WordB p s p s
| MSeq r1 r2 p s p1 s1 p2 s2 :
    Matches icase r1 p s p1 s1 -> Matches icase r2 p1 s1 p2 s2 ->
    Matches icase (Seq r1 r2) p s p2 s2
| MAltL r1 r2 p s p' s' :
    Matches icase r1 p s p' s' -> Matches icase (Alt r1 r2) p s p' s'
| MAltR r1 r2 p s p' s' :
    Matches icase r2 p s p' s' -> Matches icase (Alt r1 r2) p s p' s'
| MQmax r min p s : Matches icase (Quant r min (Some 0)) p s p s
| MQskip r max p s : Matches icase (Quant r 0 max) p s p s
| MQiter r min max p s p1 s1 p2 s2 :
    max <> Some 0 ->
    Matches icase r p s p1 s1 ->
    (min = 0 -> length s1 <> length s) ->
    Matches icase (Quant r (pred min) (dec_max max)) p1 s1 p2 s2 ->
    Matches icase (Quant r min max) p s p2 s2
| MGroup r p s p' s' :
    Matches icase r p s p' s' -> Matches icase (Group r) p s p' s'.

End Regex.

Import Regex.

Infix "#" := Seq (at level 41, right associativity).

Definition any_char : regex := Class (fun c => is_space c || negb (is_space c)).
Definition digit : regex := Class is_digit.
Definition space : regex := Class is_space.
Definition star (r : regex) : regex := Quant r 0 None.
Definition opt (r : regex) : regex := Quant r 0 (Some 1).

(** [/\{[\s\S]*\}/] *)
Definition re_json_span : regex :=
  Lit Ch.lbrace # star any_char # Lit Ch.rbrace.

(** [/\b(\d{1,2})(:\d{2})?\s?(am|pm)?\b/i] (the [i] flag is given where the
    expression is run) *)
Definition re_time_of_day : regex :=
  WordB
  # Group (Quant digit 1 (Some 2))
  # opt (Group (Lit Ch.colon # Quant digit 2 (Some 2)))
  # opt space
  # opt (Group (Alt (Lit 97 # Lit 109) (Lit 112 # Lit 109)))
  # WordB.


(* ================================================================== *)
(** * Dates *)
(* ================================================================== *)

Module JsDate.

Definition ms_per_minute : Z := 60000.
Definition ms_per_day : Z := 86400000.

Definition is_leap (y : Z) : bool :=
  (((y mod 4 =? 0) && negb (y mod 100 =? 0)) || (y mod 400 =? 0))%Z.

Definition days_in_month (y m : Z) : Z :=
  if (m =? 2)%Z then (if is_leap y then 29 else 28)
  else if ((m =? 4) || (m =? 6) || (m =? 9) || (m =? 11))%Z then 30
  else 31.

(** Days from 1970-01-01 to the civil date [y]-[m]-[d] (proleptic
    Gregorian calendar). *)
Definition days_from_civil (y m d : Z) : Z :=
  let y' := if (m <=? 2)%Z then (y - 1)%Z else y in
  let era := (y' / 400)%Z in
  let yoe := (y' - era * 400)%Z in
  let mp := ((m + 9) mod 12)%Z in
  let doy := ((153 * mp + 2) / 5 + d - 1)%Z in
  let doe := (yoe * 365 + yoe / 4 - yoe / 100 + doy)%Z in
  (era * 146097 + doe - 719468)%Z.

Definition digit_val (c : N) : option Z :=
  if is_digit c then Some (Z.of_N c - 48)%Z else None.

Definition two_digits (a b : N) : option Z :=
  match digit_val a, digit_val b with
  | Some x, Some y => Some (x * 10 + y)%Z
  | _, _ => None
  end.

(** [YYYY-MM-DD], as a day number. *)
Definition iso_date (s : jsstring) : option Z :=
  match s with
  | [y1; y2; y3; y4; h1; m1; m2; h2; d1; d2] =>
      match two_digits y1 y2, two_digits y3 y4, two_digits m1 m2, two_digits d1 d2 with
      | Some yh, Some yl, Some m, Some d =>
          let y := (yh * 100 + yl)%Z in
          if ((h1 =? Ch.minus)%N && (h2 =? Ch.minus)%N
              && (1 <=? m)%Z && (m <=? 12)%Z && (1 <=? d)%Z && (d <=? days_in_month y m)%Z)
          then Some (days_from_civil y m d)
          else None
      | _, _, _, _ => None
      end
  | _ => None
  end.

(** [HH:mm:ss] with an optional [Z]: milliseconds into the day, and whether
    the time is given in UTC. *)
Definition iso_time (s : jsstring) : option (Z * bool) :=
  match s with
  | h1 :: h2 :: c1 :: m1 :: m2 :: c2 :: s1 :: s2 :: z =>
      match two_digits h1 h2, two_digits m1 m2, two_digits s1 s2 with
      | Some h, Some m, Some sec =>
          if ((c1 =? Ch.colon)%N && (c2 =? Ch.colon)%N
              && (h <=? 23)%Z && (m <=? 59)%Z && (sec <=? 59)%Z)
          then
            let ms := (((h * 60 + m) * 60 + sec) * 1000)%Z in
            match z with
            | [] => Some (ms, false)
            | [u] => if (u =? 90)%N then Some (ms, true) else None
            | _ => None
            end
          else None
      | _, _, _ => None
      end
  | _ => None
  end.

(** The forms of the ECMA-262 date-time string format read here: a date
    alone is UTC midnight; a date and a time without [Z] are local time.
    [offset] is the local zone, in minutes east of UTC. *)
Definition iso_parse (offset : Z) (s : jsstring) : option Z :=
  match iso_date (firstn 10 s) with
  | None => None
  | Some day =>
      match skipn 10 s with
      | [] => Some (day * ms_per_day)%Z
      | t :: rest =>
          if (t =? 84)%N then
            match iso_time rest with
            | Some (ms, utc) =>
                Some (day * ms_per_day + ms
                      - (if utc then 0 else offset * ms_per_minute))%Z
            | None => None
            end
          else None
      end
  end.

End JsDate.

(* ================================================================== *)
(** * The Entry collection and the platform *)
(* ================================================================== *)

(** The fields handed to [Entry.create]; a key the object literal does not
    write is [JUndefined]. *)
Record Entry : Type := mkEntry {
  userId : value;
  Username : value;
  username : value;
  content : value;
  summary : value;
  type : value;
  tasks : value;
  tags : value;
  scheduledFor : value;
  mood : value;
  userInput : value
}.

(** What the controller takes from its surroundings and this development
    does not compute: the host's time zone (a fixed offset, in minutes east
    of UTC) and clock, the parts of [Date] and of number handling left to
    the engine, the libraries sanitize-html, mongoose and chrono-node, and
    whether the store takes a document. *)
Record platform : Type := mkPlatform {
  tz_offset : Z;
  now : Z;
  today : jsstring;
  legacy_date_parse : jsstring -> option Z;
  date_of_value : value -> option Z;
  date_toDateString : Z -> jsstring;
  date_toString : Z -> jsstring;
  number_truthy : jsstring -> bool;
  number_toString : jsstring -> jsstring;
  sanitizeHtml : jsstring -> jsstring;
  ObjectId_isValid : value -> bool;
  chrono_parseDate : jsstring -> option Z;
  store_accepts : Entry -> bool
}.

Section Builtins.

Variable p : platform.

(** [Date.parse]: the standard format where this development reads it,
    the engine's own fallback otherwise. *)
Definition Date_parse (s : jsstring) : option Z :=
  match JsDate.iso_parse (tz_offset p) s with
  | Some t => Some t
  | None => legacy_date_parse p s
  end.

(** [new Date(v)] *)
Definition new_Date (v : value) : option Z :=
  match v with
  | JString s => Date_parse s
  | JDate t => t
  | _ => date_of_value p v
  end.

(** [d.setHours(h, m, s, ms)]: the same local calendar day, at the given
    local time.  The date object is updated to the result, which is also
    the value returned.  Local time is UTC shifted by the one offset of the
    host: a host whose offset changes in the course of a day (daylight
    saving) is outside this model, and nothing below speaks for the length
    of its days. *)
Definition setHours (d : option Z) (h m s ms : Z) : option Z :=
  match d with
  | None => None
  | Some t =>
      let shift := (tz_offset p * JsDate.ms_per_minute)%Z in
      let day := ((t + shift) / JsDate.ms_per_day)%Z in
      Some (day * JsDate.ms_per_day + (((h * 60 + m) * 60 + s) * 1000 + ms) - shift)%Z
  end.

(** [d.toDateString()] *)
Definition toDateString (d : option Z) : jsstring :=
  match d with
  | Some t => date_toDateString p t
  | None => lit "Invalid Date"
  end.

(** ToBoolean *)
Definition truthy (v : value) : bool :=
  match v with
  | JUndefined | JNull => false
  | JBool b => b
  | JNumber l => number_truthy p l
  | JString s => match s with [] => false | _ :: _ => true end
  | JArray _ | JObject _ | JDate _ => true
  end.

(** [a || b] *)
Definition or_else (a b : value) : value := if truthy a then a else b.

Fixpoint join (sep : jsstring) (l : list jsstring) : jsstring :=
  match l with
  | [] => []
  | [x] => x
  | x :: r => x ++ sep ++ join sep r
  end.

(** ToString, as a template literal applies it to [${v}]. *)
Fixpoint to_string (v : value) : jsstring :=
  match v with
  | JUndefined => lit "undefined"
  | JNull => lit "null"
  | JBool true => lit "true"
  | JBool false => lit "false"
  | JNumber l => number_toString p l
  | JString s => s
  | JArray xs =>
      join [Ch.comma]
           (map (fun x => match x with
                          | JUndefined | JNull => []
                          | _ => to_string x
                          end) xs)
  | JObject _ => lit "[object Object]"
  | JDate (Some t) => date_toString p t
  | JDate None => lit "Invalid Date"
  end.

End Builtins.

(** Whether [raw.toLowerCase()] is ["null"]. *)
Definition is_null_token (raw : jsstring) : bool :=
  str_eqb (map ascii_lower raw) (lit "null").

(* ================================================================== *)
(** * State, exceptions and the collaborators *)
(* ================================================================== *)

(** What the text-completion provider answers to one call. *)
Inductive reply : Type :=
| Reply (content : jsstring)
| Unavailable.

(** The world a handler runs in: the replies the provider will give, in
    the order of the calls; the prompts sent so far; the Entry collection;
    the labels written with [console.error]. *)
Record state : Type := mkState {
  backend : list reply;
  sent : list jsstring;
  docs : list Entry;
  errlog : list jsstring
}.

Inductive exn : Type := TypeError | SyntaxError | ModelError | StoreError.

Inductive outcome (A : Type) : Type :=
| Ok (a : A)
| Throw (e : exn).

Arguments Throw {A} e.

(** A computation may change the world and either returns or throws; what
    it changed before throwing stays changed. *)
Definition M (A : Type) : Type := state -> outcome A * state.

Definition ret {A} (a : A) : M A := fun st => (Ok a, st).

Definition throw {A} (e : exn) : M A := fun st => (Throw e, st).

Definition bind {A B} (c : M A) (k : A -> M B) : M B :=
  fun st =>
    match c st with
    | (Ok a, st') => k a st'
    | (Throw e, st') => (Throw e, st')
    end.

(** [try { c } catch (e) { h e }] *)
Definition try_catch {A} (c : M A) (h : exn -> M A) : M A :=
  fun st =>
    match c st with
    | (Ok a, st') => (Ok a, st')
    | (Throw e, st') => h e st'
    end.

Notation "x <- c ;; k" := (bind c (fun x => k))
  (at level 61, c at next level, right associativity).

(** [await model.invoke(prompt)] and [groq.chat.completions.create]: the
    prompt goes out, the next reply comes back; a provider that fails, or
    has nothing more to say, rejects. *)
Definition invoke (prompt : jsstring) : M jsstring :=
  fun st =>
    let out := sent st ++ [prompt] in
    match backend st with
    | Reply c :: rest => (Ok c, mkState rest out (docs st) (errlog st))
    | Unavailable :: rest => (Throw ModelError, mkState rest out (docs st) (errlog st))
    | [] => (Throw ModelError, mkState [] out (docs st) (errlog st))
    end.

(** [console.error(label, ...)] *)
Definition console_error (label : jsstring) : M unit :=
  fun st => (Ok tt, mkState (backend st) (sent st) (docs st) (errlog st ++ [label])).

(** [JSON.parse(text)] *)
Definition JSON_parse (text : jsstring) : M value :=
  match Json.parse text with
  | Some v => ret v
  | None => throw SyntaxError
  end.

(** [jsonMatch[0]]: reading an index of [null] is a TypeError. *)
Definition index0 (jsonMatch : option jsstring) : M jsstring :=
  match jsonMatch with
  | Some m => ret m
  | None => throw TypeError
  end.

(** [v.k] for a key that no prototype defines (the controller reads
    [summary], [type], [tasks], [diaryText] and [mood]): the own property
    of an object, [undefined] on any other value, a TypeError on [null] and
    [undefined]. *)
Definition get_prop (v : value) (k : string) : M value :=
  match v with
  | JUndefined | JNull => throw TypeError
  | JObject ps =>
      match lookup ps (lit k) with
      | Some x => ret x
      | None => ret JUndefined
      end
  | _ => ret JUndefined
  end.

(** Identities are compared as strings. *)
Definition same_id (a b : value) : bool :=
  match a, b with
  | JString x, JString y => str_eqb x y
  | _, _ => false
  end.

(** [{ $gte: lo, $lte: hi }] on a date field. *)
Definition in_range (lo hi : option Z) (v : value) : bool :=
  match lo, hi, v with
  | Some a, Some b, JDate (Some t) => ((a <=? t) && (t <=? b))%Z
  | _, _, _ => false
  end.

(** Modelled from the spec: the Entry model ([models/Entry.js]) and the
    document store behind it are not part of the sources.  [Entry.create]
    either appends the document as it was handed over and returns it, or
    rejects and leaves the collection as it was. *)
Definition Entry_create (p : platform) (e : Entry) : M Entry :=
  fun st =>
    if store_accepts p e
    then (Ok e, mkState (backend st) (sent st) (docs st ++ [e]) (errlog st))
    else (Throw StoreError, st).

(** Modelled from the spec: [Entry.find] with equality on [userId] and a
    range on [scheduledFor]; the store itself is not part of the sources. *)
Definition Entry_find (uid : value) (lo hi : option Z) : M (list Entry) :=
  fun st =>
    (Ok (filter (fun e => same_id (userId e) uid && in_range lo hi (scheduledFor e))
                (docs st)),
     st).

(** ** Requests and responses *)

Record user : Type := mkUser { id : value; name : value }.

(** [POST] of a text to classify: whether [validationResult(req)] is empty,
    [req.body.input], [req.user]. *)
Record prompt_request : Type := mkPromptRequest {
  errors_empty : bool;
  body_input : jsstring;
  prompt_user : user
}.

(** [req.query.date] and [req.user]. *)
Record date_request : Type := mkDateRequest {
  query_date : value;
  query_user : user
}.

(** [req.body.date], [req.body.extraText] and [req.user]. *)
Record diary_request : Type := mkDiaryRequest {
  diary_date : value;
  extraText : value;
  diary_user : user
}.

Inductive body : Type :=
| ValidationErrors                               (* success: false, errors *)
| Failure (error : jsstring)                     (* success: false, error *)
| Data (entry : Entry)                           (* success: true, data *)
| DataList (entries : list Entry)                (* success: true, data *)
| Diary (diaryEntry : value) (saved : Entry).    (* success: true, diaryEntry, saved *)

Record response : Type := mkResponse { status : nat; payload : body }.

(** ** Text of the prompts *)

Definition q (s : string) : jsstring := dq ++ lit s ++ dq.

Definition unlines (ls : list jsstring) : jsstring :=
  concat (map (fun l => l ++ nl) ls).

(* ================================================================== *)
(** * The Gemini-backed controller *)
(* ================================================================== *)

Module Gemini.

Section Handlers.

Variable p : platform.

(** The prompt of [handlePrompt] (lines 40-53). *)
Definition classify_prompt (input : jsstring) : jsstring :=
  nl ++ unlines
    [ lit "You are a helpful assistant. Analyze this input:";
      dq ++ input ++ dq;
      [];
      lit "1. Classify the type as one of: " ++ q "diary" ++ lit ", " ++ q "task"
        ++ lit ", " ++ q "note" ++ lit ", or " ++ q "reminder" ++ lit ".";
      lit "2. Extract a short summary of the content.";
      lit "3. If there are any action items, list them.";
      lit "4. Return a JSON like:";
      lit "{";
      lit "  " ++ q "type" ++ lit ": " ++ q "..." ++ lit ",";
      lit "  " ++ q "summary" ++ lit ": " ++ q "..." ++ lit ",";
      lit "  " ++ q "tasks" ++ lit ": [" ++ q "..." ++ lit "]";
      lit "}" ].

(** The template of [extractDateFromInput] (lines 81-86), filled in. *)
Definition date_prompt (text : jsstring) : jsstring :=
  nl ++ unlines
    [ lit "Today is: " ++ today p;
      lit "Input: " ++ dq ++ text ++ dq;
      lit "Extract a specific date in the format YYYY-MM-DD. If no clear date, return "
        ++ q "null" ++ lit ".";
      lit "Output:" ].

(** The two statements both handlers run on the reply (lines 56-57 and
    177-178),
    [const jsonMatch = response.content.match(/\{[\s\S]*\}/)] and
    [const parsed = JSON.parse(jsonMatch[0])]. *)
Definition extract_json (content : jsstring) : M value :=
  let jsonMatch := exec false re_json_span content in
  matched <- index0 jsonMatch ;;
  JSON_parse matched.

(** [extractDateFromInput(text)] (lines 80-105): a [Date], or [null]. *)
Definition extractDateFromInput (text : jsstring) : M value :=
  try_catch
    (result <- invoke (date_prompt text) ;;
     let raw := trim result in
     let parsedDate := Date_parse p raw in
     match (if negb (is_null_token raw) then parsedDate else None) with
     | Some t => ret (JDate (Some t))
     | None =>
         let hasTime := test true re_time_of_day text in
         ret (if hasTime then JDate (Some (now p)) else JNull)
     end)
    (fun err =>
       _ <- console_error (lit "Date Extraction Error:") ;;
       ret JNull).

(** [handlePrompt] (lines 28-78). *)
Definition handlePrompt (req : prompt_request) : M response :=
  if negb (errors_empty req) then ret (mkResponse 400 ValidationErrors)
  else
    let input := sanitizeHtml p (body_input req) in
    if negb (ObjectId_isValid p (id (prompt_user req)))
    then ret (mkResponse 400 (Failure (lit "Invalid user ID")))
    else
      try_catch
        (let prompt := classify_prompt input in
         response <- invoke prompt ;;
         parsed <- extract_json response ;;
         scheduledDate <- extractDateFromInput input ;;
         parsed_summary <- get_prop parsed "summary" ;;
         parsed_type <- get_prop parsed "type" ;;
         parsed_tasks <- get_prop parsed "tasks" ;;
         entry <- Entry_create p
           {| userId := id (prompt_user req);
              Username := name (prompt_user req);
              username := JUndefined;
              content := JString input;
              summary := parsed_summary;
              type := or_else p parsed_type (JString (lit "note"));
              tasks := if Array_isArray parsed_tasks then parsed_tasks else JArray [];
              tags := JArray [];
              scheduledFor := scheduledDate;
              mood := JUndefined;
              userInput := JUndefined |} ;;
         ret (mkResponse 200 (Data entry)))
        (fun error =>
           _ <- console_error (lit "Gemini Error:") ;;
           ret (mkResponse 500 (Failure (lit "Failed to process prompt")))).

(** The day bucket (lines 114-116, 140-142): [selectedDate] is moved to the
    start of its day, then to the end of it. *)
Definition day_bucket (date : value) : option Z * option Z :=
  let selectedDate := new_Date p date in
  let start := setHours p selectedDate 0 0 0 0 in
  let end_ := setHours p start 23 59 59 999 in
  (start, end_).

(** [getEntriesByDate] (lines 107-127). *)
Definition getEntriesByDate (req : date_request) : M response :=
  let date := query_date req in
  let userId := id (query_user req) in
  if negb (truthy p date) then ret (mkResponse 400 (Failure (lit "Missing 'date'")))
  else
    try_catch
      (let (start, end_) := day_bucket date in
       entries <- Entry_find userId start end_ ;;
       ret (mkResponse 200 (DataList entries)))
      (fun error => ret (mkResponse 500 (Failure (lit "Failed to fetch entries")))).

(** The bullet of line 149, U+2022. *)
Definition bullet : jsstring := [8226%N].

Definition entry_line (e : Entry) : jsstring :=
  bullet ++ lit " " ++ to_string p (type e) ++ lit ": " ++ to_string p (summary e).

(** The lines of the prompt of [generateDiaryEntry] (lines 156-174). *)
Definition diary_lines (date : value) (entrySummaries : jsstring) (extra : value)
  : list jsstring :=
    [ lit "You are a diary writing assistant.";
      [];
      lit "Date: " ++ toDateString p (new_Date p date);
      [];
      lit "Here are the notes, tasks, and reminders saved for the day:";
      entrySummaries;
      [];
      lit "The user also added:";
      dq ++ to_string p extra ++ dq;
      [];
      lit "Write a personal diary entry summarizing the day. Be reflective, warm, and concise.";
      lit "Also extract the user's overall mood from the context using one word (e.g., happy, sad, tired, excited, relaxed).";
      lit "Return JSON like:";
      lit "{";
      lit "  " ++ q "diaryText" ++ lit ": " ++ q "..." ++ lit ",";
      lit "  " ++ q "mood" ++ lit ": " ++ q "...";
      lit "}" ].

Definition diary_prompt (date : value) (entrySummaries : jsstring) (extra : value)
  : jsstring :=
  nl ++ unlines (diary_lines date entrySummaries extra).

(** [generateDiaryEntry] (lines 129-197). *)
Definition generateDiaryEntry (req : diary_request) : M response :=
  let date := diary_date req in
  let extraText := extraText req in
  let userid := id (diary_user req) in
  if negb (truthy p userid) then ret (mkResponse 401 (Failure (lit "Unauthorized")))
  else
    let username := name (diary_user req) in
    if negb (truthy p date) then ret (mkResponse 400 (Failure (lit "Missing 'date'")))
    else
      try_catch
        (let (start, end_) := day_bucket date in
         entries <- Entry_find userid start end_ ;;
         let joined := join nl (map entry_line entries) in
         let entrySummaries :=
           match joined with [] => lit "No entries." | _ :: _ => joined end in
         let prompt := diary_prompt date entrySummaries extraText in
         response <- invoke prompt ;;
         parsed <- extract_json response ;;
         parsed_diaryText <- get_prop parsed "diaryText" ;;
         parsed_mood <- get_prop parsed "mood" ;;
         savedEntry <- Entry_create p
           {| userId := userid;
              Username := JUndefined;
              username := username;
              content := parsed_diaryText;
              summary := parsed_diaryText;
              type := JString (lit "diary");
              scheduledFor := JDate (new_Date p date);
              tags := JArray [JString (lit "auto-generated"); JString (lit "diary")];
              mood := parsed_mood;
              userInput := extraText;
              tasks := JUndefined |} ;;
         ret (mkResponse 200 (Diary parsed_diaryText savedEntry)))
        (fun error =>
           _ <- console_error (lit "Diary Generation Error:") ;;
           ret (mkResponse 500 (Failure (lit "Failed to generate diary entry")))).

End Handlers.

End Gemini.

(* ================================================================== *)
(** * The Groq-backed controller *)
(* ================================================================== *)

Module Groq.

Section Handlers.

Variable p : platform.

(** [extractDate(text)] (lines 255-257): [parseDate(text) || null] *)
Definition extractDate (text : jsstring) : value :=
  match chrono_parseDate p text with
  | Some t => JDate (Some t)
  | None => JNull
  end.

(** [callGroq(prompt)] (lines 259-267): the request asks the provider for a JSON object
    ([response_format]); the content of the reply is parsed whole. *)
Definition callGroq (prompt : jsstring) : M value :=
  content <- invoke prompt ;;
  JSON_parse content.

(** The prompt of [handlePrompt] (lines 294-308). *)
Definition classify_prompt (input : jsstring) : jsstring :=
  nl ++ unlines
    [ lit "Analyze this user input:";
      [];
      dq ++ input ++ dq;
      [];
      lit "Classify the content and extract tasks.";
      [];
      lit "Return JSON:";
      [];
      lit "{";
      q "type" ++ lit ":" ++ q "diary | task | note | reminder" ++ lit ",";
      q "summary" ++ lit ":" ++ q "short summary" ++ lit ",";
      q "tasks" ++ lit ":[" ++ q "task1" ++ lit "," ++ q "task2" ++ lit "]";
      lit "}" ].

(** [handlePrompt] (lines 269-336). *)
Definition handlePrompt (req : prompt_request) : M response :=
  if negb (errors_empty req) then ret (mkResponse 400 ValidationErrors)
  else
    let input := sanitizeHtml p (body_input req) in
    if negb (ObjectId_isValid p (id (prompt_user req)))
    then ret (mkResponse 400 (Failure (lit "Invalid user ID")))
    else
      try_catch
        (let scheduledDate := extractDate input in
         let prompt := classify_prompt input in
         parsed <- callGroq prompt ;;
         parsed_summary <- get_prop parsed "summary" ;;
         parsed_type <- get_prop parsed "type" ;;
         parsed_tasks <- get_prop parsed "tasks" ;;
         entry <- Entry_create p
           {| userId := id (prompt_user req);
              Username := JUndefined;
              username := name (prompt_user req);
              content := JString input;
              summary := or_else p parsed_summary (JString []);
              type := or_else p parsed_type (JString (lit "note"));
              tasks := if Array_isArray parsed_tasks then parsed_tasks else JArray [];
              tags := JArray [];
              scheduledFor := scheduledDate;
              mood := JUndefined;
              userInput := JUndefined |} ;;
         ret (mkResponse 200 (Data entry)))
        (fun error =>
           _ <- console_error (lit "Groq Error:") ;;
           ret (mkResponse 500 (Failure (lit "Failed to process prompt")))).

(** The day bucket (lines 350-354, 395-399): two dates made from the same
    argument, one moved to the start of its day and one to the end. *)
Definition day_bucket (date : value) : option Z * option Z :=
  let start := setHours p (new_Date p date) 0 0 0 0 in
  let end_ := setHours p (new_Date p date) 23 59 59 999 in
  (start, end_).

(** [getEntriesByDate] (lines 338-372). *)
Definition getEntriesByDate (req : date_request) : M response :=
  let date := query_date req in
  let userId := id (query_user req) in
  if negb (truthy p date) then ret (mkResponse 400 (Failure (lit "Missing 'date'")))
  else
    try_catch
      (let (start, end_) := day_bucket date in
       entries <- Entry_find userId start end_ ;;
       ret (mkResponse 200 (DataList entries)))
      (fun error => ret (mkResponse 500 (Failure (lit "Failed to fetch entries")))).

(** The bullet of line 407 as the file has it: three code units. *)
Definition bullet : jsstring := [226%N; 8364%N; 162%N].

Definition entry_line (e : Entry) : jsstring :=
  bullet ++ lit " " ++ to_string p (type e) ++ lit ": " ++ to_string p (summary e).

(** The lines of the prompt of [generateDiaryEntry] (lines 410-427). *)
Definition diary_lines (date : value) (entrySummaries : jsstring) (extra : value)
  : list jsstring :=
    [ lit "You are a diary writing assistant.";
      [];
      lit "Date: " ++ toDateString p (new_Date p date);
      [];
      lit "User notes and tasks:";
      entrySummaries;
      [];
      lit "Extra context:";
      dq ++ to_string p extra ++ dq;
      [];
      lit "Return JSON:";
      [];
      lit "{";
      q "diaryText" ++ lit ":" ++ q "A short reflective diary entry" ++ lit ",";
      q "mood" ++ lit ":" ++ q "one word mood";
      lit "}" ].

Definition diary_prompt (date : value) (entrySummaries : jsstring) (extra : value)
  : jsstring :=
  nl ++ unlines (diary_lines date entrySummaries extra).

(** [generateDiaryEntry] (lines 374-457). *)
Definition generateDiaryEntry (req : diary_request) : M response :=
  let date := diary_date req in
  let extraText := extraText req in
  let userId := id (diary_user req) in
  let username := name (diary_user req) in
  if negb (truthy p userId) then ret (mkResponse 401 (Failure (lit "Unauthorized")))
  else
    if negb (truthy p date) then ret (mkResponse 400 (Failure (lit "Missing 'date'")))
    else
      try_catch
        (let (start, end_) := day_bucket date in
         entries <- Entry_find userId start end_ ;;
         let joined := join nl (map entry_line entries) in
         let entrySummaries :=
           match joined with [] => lit "No entries." | _ :: _ => joined end in
         let prompt := diary_prompt date entrySummaries extraText in
         parsed <- callGroq prompt ;;
         parsed_diaryText <- get_prop parsed "diaryText" ;;
         parsed_mood <- get_prop parsed "mood" ;;
         savedEntry <- Entry_create p
           {| userId := userId;
              Username := JUndefined;
              username := username;
              content := parsed_diaryText;
              summary := parsed_diaryText;
              type := JString (lit "diary");
              scheduledFor := JDate (new_Date p date);
              tags := JArray [JString (lit "auto-generated"); JString (lit "diary")];
              mood := parsed_mood;
              userInput := extraText;
              tasks := JUndefined |} ;;
         ret (mkResponse 200 (Diary parsed_diaryText savedEntry)))
        (fun error =>
           _ <- console_error (lit "Diary Generation Error:") ;;
           ret (mkResponse 500 (Failure (lit "Failed to generate diary entry")))).

End Handlers.

End Groq.

(* ================================================================== *)
(** * Predicates the statements use *)
(* ================================================================== *)

(** The part of [re_time_of_day] behind the digits. *)
Definition time_tail : regex :=
  opt (Group (Lit Ch.colon # Quant digit 2 (Some 2)))
  # opt space
  # opt (Group (Alt (Lit 97 # Lit 109) (Lit 112 # Lit 109)))
  # WordB.

(** What [re_time_of_day] finds, said without the expression: one or two
    decimal digits that no word character precedes, and after them either
    no word character, or [am] or [pm] (in any case) with no word character
    behind it.  The number is not looked at, and minutes or a blank after
    the digits change nothing. *)
Definition time_token (text : jsstring) : Prop :=
  exists pre ds post,
    text = pre ++ ds ++ post
    /\ (length ds = 1 \/ length ds = 2)
    /\ forallb is_digit ds = true
    /\ word_before (prev_of None pre) = false
    /\ (word_after post = false
        \/ exists a m post',
             post = a :: m :: post'
             /\ (char_eq true a 97 || char_eq true a 112) = true
             /\ char_eq true m 109 = true
             /\ word_after post' = false).

(** The time-of-day pattern as the specification words it: somewhere in
    the text an hour from 1 to 12 begins, written with one or two digits.
    Minutes and the am/pm marker are optional there, so they ask for
    nothing more. *)
Definition spec_hour_at (s : jsstring) : bool :=
  match s with
  | d1 :: r =>
      match JsDate.digit_val d1 with
      | Some h1 =>
          ((1 <=? h1) && (h1 <=? 9))%Z
          || match r with
             | d2 :: _ =>
                 match JsDate.digit_val d2 with
                 | Some h2 => ((1 <=? h1 * 10 + h2) && (h1 * 10 + h2 <=? 12))%Z
                 | None => false
                 end
             | [] => false
             end
      | None => false
      end
  | [] => false
  end.

Fixpoint spec_contains_time (s : jsstring) : bool :=
  spec_hour_at s
  || match s with
     | _ :: r => spec_contains_time r
     | [] => false
     end.

(** The reply the next call to the provider gets. *)
Definition head_reply (st : state) : reply :=
  match backend st with
  | r :: _ => r
  | [] => Unavailable
  end.

(** What [Gemini.extract_json] hands on when it does not throw. *)
Definition gemini_parsed (content : jsstring) : option value :=
  match exec false re_json_span content with
  | Some matched => Json.parse matched
  | None => None
  end.

(** The value [get_prop] returns where it returns. *)
Definition prop_of (v : value) (k : string) : value :=
  match v with
  | JObject ps =>
      match lookup ps (lit k) with
      | Some x => x
      | None => JUndefined
      end
  | _ => JUndefined
  end.


(** The world after one call to the provider, after a [console.error], and
    after a document was stored. *)
Definition after_call (prompt : jsstring) (st : state) : state :=
  mkState (tl (backend st)) (sent st ++ [prompt]) (docs st) (errlog st).

Definition after_log (label : string) (st : state) : state :=
  mkState (backend st) (sent st) (docs st) (errlog st ++ [lit label]).

Definition after_store (e : Entry) (st : state) : state :=
  mkState (backend st) (sent st) (docs st ++ [e]) (errlog st).

(** The response of a [catch] block. *)
Definition failed (message : string) : response :=
  mkResponse 500 (Failure (lit message)).

(** The date [Gemini.extractDateFromInput] settles on, given the reply to
    its prompt. *)
Definition gemini_resolved (p : platform) (text result : jsstring) : value :=
  match (if negb (is_null_token (trim result)) then Date_parse p (trim result) else None) with
  | Some t => JDate (Some t)
  | None => if test true re_time_of_day text then JDate (Some (now p)) else JNull
  end.

(** The documents the two [handlePrompt] hand to the store, given what was
    parsed from the reply and the date that was resolved. *)
Definition gemini_entry (p : platform) (req : prompt_request) (parsed scheduled : value)
  : Entry :=
  {| userId := id (prompt_user req);
     Username := name (prompt_user req);
     username := JUndefined;
     content := JString (sanitizeHtml p (body_input req));
     summary := prop_of parsed "summary";
     type := or_else p (prop_of parsed "type") (JString (lit "note"));
     tasks := if Array_isArray (prop_of parsed "tasks")
              then prop_of parsed "tasks" else JArray [];
     tags := JArray [];
     scheduledFor := scheduled;
     mood := JUndefined;
     userInput := JUndefined |}.

Definition groq_entry (p : platform) (req : prompt_request) (parsed scheduled : value)
  : Entry :=
  {| userId := id (prompt_user req);
     Username := JUndefined;
     username := name (prompt_user req);
     content := JString (sanitizeHtml p (body_input req));
     summary := or_else p (prop_of parsed "summary") (JString []);
     type := or_else p (prop_of parsed "type") (JString (lit "note"));
     tasks := if Array_isArray (prop_of parsed "tasks")
              then prop_of parsed "tasks" else JArray [];
     tags := JArray [];
     scheduledFor := scheduled;
     mood := JUndefined;
     userInput := JUndefined |}.

(** The document both [generateDiaryEntry] hand to the store. *)
Definition diary_entry (p : platform) (req : diary_request) (parsed : value) : Entry :=
  {| userId := id (diary_user req);
     Username := JUndefined;
     username := name (diary_user req);
     content := prop_of parsed "diaryText";
     summary := prop_of parsed "diaryText";
     type := JString (lit "diary");
     tasks := JUndefined;
     tags := JArray [JString (lit "auto-generated"); JString (lit "diary")];
     scheduledFor := JDate (new_Date p (diary_date req));
     mood := prop_of parsed "mood";
     userInput := extraText req |}.

(** The prompt a [generateDiaryEntry] builds from the request and the
    collection: the entries of the user in the day bucket, one line each, or
    the placeholder. *)
Definition day_entries (bucket : option Z * option Z) (uid : value) (st : state)
  : list Entry :=
  filter (fun e => same_id (userId e) uid
                   && in_range (fst bucket) (snd bucket) (scheduledFor e))
         (docs st).

Definition summaries (line : Entry -> jsstring) (entries : list Entry) : jsstring :=
  let joined := join nl (map line entries) in
  match joined with
  | [] => lit "No entries."
  | _ :: _ => joined
  end.

Definition gemini_diary_prompt (p : platform) (req : diary_request) (st : state)
  : jsstring :=
  Gemini.diary_prompt p (diary_date req)
    (summaries (Gemini.entry_line p)
       (day_entries (Gemini.day_bucket p (diary_date req)) (id (diary_user req)) st))
    (extraText req).

Definition groq_diary_prompt (p : platform) (req : diary_request) (st : state)
  : jsstring :=
  Groq.diary_prompt p (diary_date req)
    (summaries (Groq.entry_line p)
       (day_entries (Groq.day_bucket p (diary_date req)) (id (diary_user req)) st))
    (extraText req).

(** What is asked of the record a diary synthesis stores and of the text
    it answers with, given the object parsed from the reply. *)
Definition is_diary_record (p : platform) (req : diary_request) (parsed : value)
           (diaryText : value) (saved : Entry) : Prop :=
  type saved = JString (lit "diary")
  /\ content saved = prop_of parsed "diaryText"
  /\ summary saved = prop_of parsed "diaryText"
  /\ tags saved = JArray [JString (lit "auto-generated"); JString (lit "diary")]
  /\ scheduledFor saved = JDate (new_Date p (diary_date req))
  /\ mood saved = prop_of parsed "mood"
  /\ userInput saved = extraText req
  /\ diaryText = prop_of parsed "diaryText".

(** The prompt of a diary synthesis around the place of the user's extra
    text: the lines before that line, and the lines after it. *)
Definition before_extra (lines : list jsstring) : jsstring :=
  nl ++ unlines (firstn 8 lines).

Definition after_extra (lines : list jsstring) : jsstring :=
  nl ++ unlines (skipn 9 lines).

(** Whether [get_prop] throws on a value. *)
Definition nullish (v : value) : bool :=
  match v with JUndefined | JNull => true | _ => false end.

(** [t] is empty or opens with JSON white space. *)
Definition ws_headed (t : jsstring) : bool :=
  match t with
  | [] => true
  | c :: _ => Json.is_ws c
  end.

(** All of [s] is JSON white space. *)
Definition all_ws (s : jsstring) : bool := forallb Json.is_ws s.

(** The local calendar day a time value falls on, as a day number. *)
Definition local_day (p : platform) (t : Z) : Z :=
  ((t + tz_offset p * JsDate.ms_per_minute) / JsDate.ms_per_day)%Z.

(* ================================================================== *)
(** * A sample world for the worked examples *)
(* ================================================================== *)

(** A host [offset] minutes east of UTC, at 2024-05-10T14:00:00Z, with a
    store that takes every document. *)
Definition sample_platform (offset : Z) : platform :=
  {| tz_offset := offset;
     now := 1715349600000%Z;
     today := lit "2024-05-10";
     legacy_date_parse := fun _ => None;
     date_of_value := fun _ => None;
     date_toDateString := fun _ => lit "Fri May 10 2024";
     date_toString := fun _ => lit "Fri May 10 2024 14:00:00 GMT+0000";
     number_truthy := fun _ => true;
     number_toString := fun l => l;
     sanitizeHtml := fun s => s;
     ObjectId_isValid :=
       fun v => match v with JString s => (length s =? 24)%nat | _ => false end;
     chrono_parseDate := fun _ => None;
     store_accepts := fun _ => true |}.

Definition sample_user : user :=
  {| id := JString (lit "64b7f0c2a1d3e4f5a6b7c8d9"); name := JString (lit "Asha") |}.

Definition sample_state (replies : list reply) (entries : list Entry) : state :=
  {| backend := replies; sent := []; docs := entries; errlog := [] |}.

Definition sample_prompt_request (input : string) : prompt_request :=
  {| errors_empty := true; body_input := lit input; prompt_user := sample_user |}.

(** A reply of the provider: [{"type":"task","tasks":["buy milk"]}], with no
    summary. *)
Definition reply_without_summary : jsstring :=
  lit "{" ++ q "type" ++ lit ":" ++ q "task" ++ lit "," ++ q "tasks" ++ lit ":["
  ++ q "buy milk" ++ lit "]}".

(** A reply of the provider:
    [{"type":"task","summary":"Buy milk","tasks":["buy milk"]}]. *)
Definition reply_full : jsstring :=
  lit "{" ++ q "type" ++ lit ":" ++ q "task" ++ lit "," ++ q "summary" ++ lit ":"
  ++ q "Buy milk" ++ lit "," ++ q "tasks" ++ lit ":[" ++ q "buy milk" ++ lit "]}".

(** The text of [reply_full] between its braces. *)
Definition reply_full_inner : jsstring :=
  q "type" ++ lit ":" ++ q "task" ++ lit "," ++ q "summary" ++ lit ":"
  ++ q "Buy milk" ++ lit "," ++ q "tasks" ++ lit ":[" ++ q "buy milk" ++ lit "]".

(** The object [reply_full] stands for. *)
Definition reply_full_fields : list (jsstring * value) :=
  [ (lit "type", JString (lit "task"));
    (lit "summary", JString (lit "Buy milk"));
    (lit "tasks", JArray [JString (lit "buy milk")]) ].

(** A reply of the provider: [{"diaryText":"A calm day.","mood":"relaxed"}]. *)
Definition reply_diary : jsstring :=
  lit "{" ++ q "diaryText" ++ lit ":" ++ q "A calm day." ++ lit "," ++ q "mood"
  ++ lit ":" ++ q "relaxed" ++ lit "}".

(** A stored entry scheduled for 2024-05-10T14:00:00, local time of the
    host. *)
Definition entry_at_14h (p : platform) : Entry :=
  {| userId := id sample_user;
     Username := JUndefined;
     username := name sample_user;
     content := JString (lit "dentist");
     summary := JString (lit "dentist");
     type := JString (lit "reminder");
     tasks := JArray [];
     tags := JArray [];
     scheduledFor := JDate (Date_parse p (lit "2024-05-10T14:00:00"));
     mood := JUndefined;
     userInput := JUndefined |}.

Definition sample_date_request (date : string) : date_request :=
  {| query_date := JString (lit date); query_user := sample_user |}.

Definition sample_diary_request (date : string) (extra : value) : diary_request :=
  {| diary_date := JString (lit date); extraText := extra; diary_user := sample_user |}.

(* ================================================================== *)
(** * The handlers that only read *)
(* ================================================================== *)

(** [req.user] alone. *)
Record user_request : Type := mkUserRequest { request_user : user }.

(** What [getDiaryByDate] answers with: the 404 answer carries a [message]
    where the failures carry an [error]. *)
Inductive lookup_body : Type :=
| LookupMessage (message : jsstring)      (* success: false, message *)
| LookupFailure (error : jsstring)        (* success: false, error *)
| LookupData (entry : Entry).             (* success: true, data *)

Record lookup_response : Type :=
  mkLookup { lookup_status : nat; lookup_payload : lookup_body }.

(** [type: "diary"] in a query. *)
Definition type_is (v : value) (name : string) : bool :=
  match v with
  | JString s => str_eqb s (lit name)
  | _ => false
  end.

(** Modelled from the spec: [Entry.findOne] with equality on [type] and
    [userId] and a range on [scheduledFor] answers with a document that
    matches, here the first of the collection, or with [null]; [Entry.find]
    with equality on [userId] alone answers with the documents of the user.
    The store itself is not part of the sources. *)
Definition Entry_findOne (type_name : string) (uid : value) (lo hi : option Z)
  : M (option Entry) :=
  fun st =>
    (Ok (find (fun e => type_is (type e) type_name
                        && same_id (userId e) uid
                        && in_range lo hi (scheduledFor e))
              (docs st)),
     st).

Definition Entry_find_user (uid : value) : M (list Entry) :=
  fun st => (Ok (filter (fun e => same_id (userId e) uid) (docs st)), st).

Module GeminiQueries.

Section Handlers.

Variable p : platform.

(** [getDiaryByDate] (lines 199-222). *)
Definition getDiaryByDate (req : date_request) : M lookup_response :=
  let date := query_date req in
  let userId := id (query_user req) in
  if negb (truthy p date) then ret (mkLookup 400 (LookupFailure (lit "Missing 'date'")))
  else
    try_catch
      (let (start, end_) := Gemini.day_bucket p date in
       diary <- Entry_findOne "diary" userId start end_ ;;
       match diary with
       | None => ret (mkLookup 404 (LookupMessage (lit "No diary found")))
       | Some found => ret (mkLookup 200 (LookupData found))
       end)
      (fun error => ret (mkLookup 500 (LookupFailure (lit "Failed to fetch diary")))).

(** [getEntriesWithTaskTag] (lines 224-234). *)
Definition getEntriesWithTaskTag (req : user_request) : M response :=
  let userId := id (request_user req) in
  try_catch
    (entries <- Entry_find_user userId ;;
     ret (mkResponse 200 (DataList entries)))
    (fun error =>
       _ <- console_error (lit "Get Tasks Error:") ;;
       ret (mkResponse 500 (Failure (lit "Failed to fetch task-tagged entries")))).

End Handlers.

End GeminiQueries.

Module GroqQueries.

Section Handlers.

Variable p : platform.

(** [getDiaryByDate] (lines 459-501). *)
Definition getDiaryByDate (req : date_request) : M lookup_response :=
  let date := query_date req in
  let userId := id (query_user req) in
  if negb (truthy p date) then ret (mkLookup 400 (LookupFailure (lit "Missing 'date'")))
  else
    try_catch
      (let (start, end_) := Groq.day_bucket p date in
       diary <- Entry_findOne "diary" userId start end_ ;;
       match diary with
       | None => ret (mkLookup 404 (LookupMessage (lit "No diary found")))
       | Some found => ret (mkLookup 200 (LookupData found))
       end)
      (fun error => ret (mkLookup 500 (LookupFailure (lit "Failed to fetch diary")))).

(** [getEntriesWithTaskTag] (lines 503-522). *)
Definition getEntriesWithTaskTag (req : user_request) : M response :=
  let userId := id (request_user req) in
  try_catch
    (entries <- Entry_find_user userId ;;
     ret (mkResponse 200 (DataList entries)))
    (fun error =>
       _ <- console_error (lit "Get Tasks Error:") ;;
       ret (mkResponse 500 (Failure (lit "Failed to fetch entries")))).

End Handlers.

End GroqQueries.

(* ================================================================== *)
(** * More predicates for the statements *)
(* ================================================================== *)

(** All of [s] is white space as [trim] sees it. *)
Definition all_space (s : jsstring) : bool := forallb is_space s.

(** [null], or a [Date] that is not an Invalid Date. *)
Definition null_or_valid_date (v : value) : bool :=
  match v with
  | JNull => true
  | JDate (Some _) => true
  | _ => false
  end.

(** The text has an opening brace and, somewhere after it, a closing
    brace. *)
Definition has_span (c : jsstring) : Prop :=
  exists pre mid post, c = pre ++ [Ch.lbrace] ++ mid ++ [Ch.rbrace] ++ post.

(** How a classification call can end, seen from its caller: rejected with
    400 and nothing touched; failed with 500, the collection as it was and
    the handler's label last in the log; or answered with 200 and the one
    document it added to the collection. *)
Definition classification_outcome (label : string) (st : state) (r : response)
           (st' : state) : Prop :=
  (status r = 400 /\ st' = st)
  \/ (r = failed "Failed to process prompt"
      /\ docs st' = docs st
      /\ exists l, errlog st' = errlog st ++ l ++ [lit label])
  \/ (exists e, r = mkResponse 200 (Data e) /\ docs st' = docs st ++ [e]).

(** The same for a diary synthesis, which rejects with 401 or 400. *)
Definition synthesis_outcome (st : state) (r : response) (st' : state) : Prop :=
  ((status r = 401 \/ status r = 400) /\ st' = st)
  \/ (r = failed "Failed to generate diary entry"
      /\ docs st' = docs st
      /\ errlog st' = errlog st ++ [lit "Diary Generation Error:"])
  \/ (exists d e, r = mkResponse 200 (Diary d e) /\ docs st' = docs st ++ [e]).

(** The documents of a user that a date query picks. *)
Definition picked (uid : value) (bucket : option Z * option Z) (e : Entry) : bool :=
  same_id (userId e) uid && in_range (fst bucket) (snd bucket) (scheduledFor e).

(** A text that is not empty and neither opens nor closes with white
    space: what [trim] leaves as it is. *)
Definition tight (s : jsstring) : bool :=
  match s, rev s with
  | c :: _, d :: _ => negb (is_space c) && negb (is_space d)
  | _, _ => false
  end.

(** The prompt of a diary synthesis around the line of the day's entries:
    the lines before that line, and the lines after it. *)
Definition before_summaries (lines : list jsstring) : jsstring :=
  nl ++ unlines (firstn 5 lines).

Definition after_summaries (lines : list jsstring) : jsstring :=
  nl ++ unlines (skipn 6 lines).

(** Whether the next reply of the provider is one the Gemini extraction
    gets a value from. *)
Definition gemini_classifies (st : state) : bool :=
  match head_reply st with
  | Reply c => match gemini_parsed c with Some _ => true | None => false end
  | Unavailable => false
  end.

(* ================================================================== *)
(** * Sanity checks of the built-ins *)
(* ================================================================== *)

Example parse_ex1 :
  Json.parse (lit "{" ++ dq ++ lit "type" ++ dq ++ lit ": " ++ dq ++ lit "task" ++ dq
              ++ lit ", " ++ dq ++ lit "tasks" ++ dq ++ lit ":[1, [true, null], {}]}")
  = Some (JObject [(lit "type", JString (lit "task"));
                   (lit "tasks", JArray [JNumber (lit "1");
                                         JArray [JBool true; JNull];
                                         JObject []])]).
Proof. vm_compute. reflexivity. Qed.

Example parse_ex2 : Json.parse (lit "{} x") = None.
Proof. vm_compute. reflexivity. Qed.

Example parse_ex3 : Json.parse (lit " -12.50e+3 ") = Some (JNumber (lit "-12.50e+3")).
Proof. vm_compute. reflexivity. Qed.

Example parse_ex4 : Json.parse (lit "[1,]") = None.
Proof. vm_compute. reflexivity. Qed.

(** A key written twice keeps its place and its last value; escapes are
    read as the characters they stand for. *)
Example parse_ex5 :
  Json.parse (lit "{" ++ q "a" ++ lit ":1, " ++ q "b" ++ lit ":[], " ++ q "a" ++ lit ":2,"
              ++ dq ++ lit "k\u0041\n" ++ dq ++ lit " : null}")
  = Some (JObject [(lit "a", JNumber (lit "2"));
                   (lit "b", JArray []);
                   ([107; 65; 10]%N, JNull)]).
Proof. vm_compute. reflexivity. Qed.

Example parse_ex6 :
  Json.parse (lit "{" ++ q "a" ++ lit ":01}") = None
  /\ Json.parse (lit "{" ++ q "a" ++ lit ":1,}") = None
  /\ Json.parse (lit "{a:1}") = None
  /\ Json.parse (lit "") = None
  /\ Json.parse (lit "nul") = None
  /\ Json.parse (lit "[[[[]]]]") = Some (JArray [JArray [JArray [JArray []]]]).
Proof. vm_compute. repeat split; reflexivity. Qed.

Example json_span_ex1 :
  exec false re_json_span (lit "Sure: {a{b}c} and } more")
  = Some (lit "{a{b}c} and }").
Proof. vm_compute. reflexivity. Qed.

Example json_span_ex2 : exec false re_json_span (lit "} nothing {") = None.
Proof. vm_compute. reflexivity. Qed.

Example time_ex1 : test true re_time_of_day (lit "meet at 3PM") = true.
Proof. vm_compute. reflexivity. Qed.

Example time_ex2 : test true re_time_of_day (lit "just a thought") = false.
Proof. vm_compute. reflexivity. Qed.

Example time_ex3 : test true re_time_of_day (lit "room 123") = false.
Proof. vm_compute. reflexivity. Qed.

Example time_ex4 : test true re_time_of_day (lit "take 45 units") = true.
Proof. vm_compute. reflexivity. Qed.

(* ================================================================== *)
(** * The parser and its fuel *)
(* ================================================================== *)

(** Boolean tests on code units, read as arithmetic. *)
Ltac unbool H :=
  repeat first
    [ rewrite orb_true_iff in H
    | rewrite andb_true_iff in H
    | rewrite N.eqb_eq in H
    | rewrite N.leb_le in H ].

Ltac split_match H :=
  repeat match type of H with
         | match ?e with _ => _ end = _ => destruct e eqn:?; try discriminate H
         | (if ?b then _ else _) = _ => destruct b eqn:?; try discriminate H
         | (let (_, _) := ?e in _) = _ => destruct e eqn:?; try discriminate H
         end.

(** More fuel never changes an answer. *)
Lemma parse_fuel_mono n :
  (forall s x, Json.parse_value n s = Some x ->
     forall m, n <= m -> Json.parse_value m s = Some x)
  /\ (forall acc s x, Json.parse_elements n acc s = Some x ->
        forall m, n <= m -> Json.parse_elements m acc s = Some x)
  /\ (forall acc s x, Json.parse_members n acc s = Some x ->
        forall m, n <= m -> Json.parse_members m acc s = Some x).
Proof.
  induction n as [|n (IHv & IHe & IHm)]; [repeat split; intros; discriminate|].
  repeat split; intros until x; intros H m Hle;
    (destruct m as [|m]; [lia|]); apply le_S_n in Hle;
    cbn [Json.parse_value Json.parse_elements Json.parse_members] in H |- *;
    repeat match type of H with
      | match Json.parse_value n ?s with _ => _ end = _ =>
          let E := fresh "E" in
          destruct (Json.parse_value n s) as [[? ?]|] eqn:E; [|discriminate H];
          rewrite (IHv _ _ E _ Hle)
      | match ?e with _ => _ end = _ => destruct e eqn:?; try discriminate H
      | (if ?b then _ else _) = _ => destruct b eqn:?; try discriminate H
      end;
    auto.
Qed.

(** ** The fuel [Json.parse] hands out is enough *)

Lemma skip_ws_length s : length (Json.skip_ws s) <= length s.
Proof.
  induction s as [|x s IH]; simpl; [lia|].
  destruct (Json.is_ws x); simpl; lia.
Qed.

Lemma lex_string_length :
  forall n s, length s <= n ->
    forall acc x r, Json.lex_string s acc = Some (x, r) -> length r < length s.
Proof.
  induction n as [|n IH]; intros s Hn acc x r H.
  - destruct s; [discriminate | simpl in Hn; lia].
  - destruct s as [|c s]; [discriminate|]. simpl in Hn.
    cbn [Json.lex_string] in H. cbn [length].
    destruct (c =? Ch.dquote)%N; [inversion H; subst; lia|].
    destruct (c =? Ch.backslash)%N.
    + destruct s as [|e s]; [discriminate|]. simpl in Hn. cbn [length].
      destruct (e =? 117)%N.
      * destruct s as [|h1 [|h2 [|h3 [|h4 s]]]]; try discriminate.
        destruct (Json.hex4 h1 h2 h3 h4); [|discriminate].
        apply IH in H; [|simpl in Hn; lia]. cbn [length]. lia.
      * destruct (Json.simple_escape e); [|discriminate].
        apply IH in H; lia.
    + destruct (c <? 32)%N; [discriminate|].
      apply IH in H; lia.
Qed.

Lemma take_digits_length s ds r : Json.take_digits s = (ds, r) -> length r <= length s.
Proof.
  revert ds r. induction s as [|c s IH]; intros ds r H; simpl in H.
  - inversion H. simpl. lia.
  - destruct (is_digit c).
    + destruct (Json.take_digits s) as [ds' r'] eqn:E. inversion H; subst.
      specialize (IH _ _ eq_refl). simpl. lia.
    + inversion H. lia.
Qed.

Lemma lex_int_length s x r : Json.lex_int s = Some (x, r) -> length r < length s.
Proof.
  unfold Json.lex_int. destruct s as [|c s]; [discriminate|]. cbn [length].
  destruct (c =? Ch.zero)%N; [intros H; inversion H; subst; lia|].
  destruct (is_digit c); [|discriminate].
  destruct (Json.take_digits s) as [ds r'] eqn:E. apply take_digits_length in E.
  intros H; inversion H; subst; lia.
Qed.

Lemma lex_frac_length s x r : Json.lex_frac s = Some (x, r) -> length r <= length s.
Proof.
  unfold Json.lex_frac. destruct s as [|c s]; [intros H; inversion H; subst; lia|].
  cbn [length]. destruct (c =? Ch.dot)%N; [|intros H; inversion H; subst; simpl; lia].
  destruct (Json.take_digits s) as [ds r'] eqn:E. apply take_digits_length in E.
  destruct ds; [discriminate|]. intros H; inversion H; subst; lia.
Qed.

Lemma lex_exp_length s x r : Json.lex_exp s = Some (x, r) -> length r <= length s.
Proof.
  unfold Json.lex_exp. destruct s as [|c s]; [intros H; inversion H; subst; lia|].
  cbn [length].
  destruct ((c =? 101) || (c =? 69))%N; [|intros H; inversion H; subst; simpl; lia].
  destruct s as [|y s]; [simpl; discriminate|].
  destruct ((y =? Ch.plus) || (y =? Ch.minus))%N.
  - destruct (Json.take_digits s) as [ds r'] eqn:E. apply take_digits_length in E.
    destruct ds; [discriminate|]. intros H; inversion H; subst. cbn [length]. lia.
  - destruct (Json.take_digits (y :: s)) as [ds r'] eqn:E. apply take_digits_length in E.
    destruct ds; [discriminate|]. intros H; inversion H; subst. lia.
Qed.

Lemma lex_number_length s x r :
  Json.lex_number s = Some (x, r) -> length r < length s.
Proof.
  unfold Json.lex_number.
  assert (G : forall sg s1,
             match Json.lex_int s1 with
             | None => None
             | Some (i, s2) =>
                 match Json.lex_frac s2 with
                 | None => None
                 | Some (f, s3) =>
                     match Json.lex_exp s3 with
                     | None => None
                     | Some (e, s4) => Some (sg ++ i ++ f ++ e, s4)
                     end
                 end
             end = Some (x, r) -> length r < length s1).
  { intros sg s1 H.
    destruct (Json.lex_int s1) as [[i s2]|] eqn:E1; [|discriminate].
    destruct (Json.lex_frac s2) as [[f s3]|] eqn:E2; [|discriminate].
    destruct (Json.lex_exp s3) as [[e s4]|] eqn:E3; [|discriminate].
    apply lex_int_length in E1. apply lex_frac_length in E2. apply lex_exp_length in E3.
    inversion H; subst. lia. }
  destruct s as [|c s]; [intros H; apply G in H; simpl in H; lia|].
  destruct (c =? Ch.minus)%N; intros H; apply G in H; cbn [length] in *; lia.
Qed.

Lemma strip_prefix_length p s r :
  Json.strip_prefix p s = Some r -> length s = length p + length r.
Proof.
  revert s. induction p as [|x p IH]; intros s H; simpl in H.
  - inversion H. reflexivity.
  - destruct s as [|y s]; [discriminate|].
    destruct (x =? y)%N; [|discriminate]. apply IH in H. simpl. lia.
Qed.

(** Carry an answer over to any fuel that is large enough. *)
Ltac replay :=
  cbn [Json.parse_value Json.parse_elements Json.parse_members];
  repeat (cbv beta iota;
          match goal with
          | E : ?e = _ |- context [?e] => rewrite E
          end);
  try reflexivity.

Lemma parse_fuel_bound n :
  (forall s v r, Json.parse_value n s = Some (v, r) ->
     length r < length s
     /\ Json.parse_value (2 * (length s - length r)) s = Some (v, r))
  /\ (forall acc s v r, Json.parse_elements n acc s = Some (v, r) ->
        length r < length s
        /\ Json.parse_elements (2 * (length s - length r)) acc s = Some (v, r))
  /\ (forall acc s v r, Json.parse_members n acc s = Some (v, r) ->
        length r < length s
        /\ Json.parse_members (2 * (length s - length r)) acc s = Some (v, r)).
Proof.
  induction n as [|n (IHv & IHe & IHm)]; [repeat split; intros; discriminate|].
  pose proof (parse_fuel_mono) as Mono.
  assert (Up : forall (s : jsstring) (v : value) (r : jsstring)
                      (P : nat -> option (value * jsstring)),
             (forall a b x, P a = Some x -> a <= b -> P b = Some x) ->
             length r < length s ->
             (exists m, S m <= 2 * (length s - length r) /\ P (S m) = Some (v, r)) ->
             length r < length s /\ P (2 * (length s - length r)) = Some (v, r)).
  { intros s v r P HP Hlen (m & Hm & Hrun). split; [exact Hlen|].
    exact (HP _ _ _ Hrun Hm). }
  split; [|split].
  - (* a value *)
    intros s v r H. cbn [Json.parse_value] in H.
    destruct (Json.skip_ws s) as [|c s1] eqn:Es; [discriminate|].
    pose proof (skip_ws_length s) as Ls. rewrite Es in Ls. cbn [length] in Ls.
    assert (Goal1 : length r < length s
                    /\ exists m, S m <= 2 * (length s - length r)
                                 /\ Json.parse_value (S m) s = Some (v, r)).
    { destruct (c =? Ch.lbrace)%N eqn:B1.
      { destruct (Json.skip_ws s1) as [|c' s2] eqn:E1; [discriminate|].
        pose proof (skip_ws_length s1) as L1. rewrite E1 in L1. cbn [length] in L1.
        destruct (c' =? Ch.rbrace)%N eqn:B2.
        - inversion H; subst. split; [lia|]. exists 0. split; [lia|]. replay.
        - destruct (IHm _ _ _ _ H) as [Lm Hm]. cbn [length] in Lm, Hm.
          split; [lia|]. exists (2 * (S (length s2) - length r)).
          split; [lia|]. replay. }
      destruct (c =? Ch.lbracket)%N eqn:B2.
      { destruct (Json.skip_ws s1) as [|c' s2] eqn:E1; [discriminate|].
        pose proof (skip_ws_length s1) as L1. rewrite E1 in L1. cbn [length] in L1.
        destruct (c' =? Ch.rbracket)%N eqn:B3.
        - inversion H; subst. split; [lia|]. exists 0. split; [lia|]. replay.
        - destruct (IHe _ _ _ _ H) as [Le He]. cbn [length] in Le, He.
          split; [lia|]. exists (2 * (S (length s2) - length r)).
          split; [lia|]. replay. }
      destruct (c =? Ch.dquote)%N eqn:B3.
      { destruct (Json.lex_string s1 []) as [[str s2]|] eqn:E1; [|discriminate].
        pose proof (@lex_string_length _ _ (le_n _) _ _ _ E1) as L1.
        inversion H; subst. split; [lia|]. exists 0. split; [lia|]. replay. }
      destruct ((c =? Ch.minus)%N || is_digit c) eqn:B4.
      { destruct (Json.lex_number (c :: s1)) as [[num s2]|] eqn:E1; [|discriminate].
        pose proof (lex_number_length _ E1) as L1. cbn [length] in L1.
        inversion H; subst. split; [lia|]. exists 0. split; [lia|]. replay. }
      destruct (Json.strip_prefix (lit "true") (c :: s1)) as [s2|] eqn:E1.
      { pose proof (strip_prefix_length _ _ E1) as L1. cbn in L1.
        inversion H; subst. split; [lia|]. exists 0. split; [lia|]. replay. }
      destruct (Json.strip_prefix (lit "false") (c :: s1)) as [s2|] eqn:E2.
      { pose proof (strip_prefix_length _ _ E2) as L1. cbn in L1.
        inversion H; subst. split; [lia|]. exists 0. split; [lia|]. replay. }
      destruct (Json.strip_prefix (lit "null") (c :: s1)) as [s2|] eqn:E3; [|discriminate].
      pose proof (strip_prefix_length _ _ E3) as L1. cbn in L1.
      inversion H; subst. split; [lia|]. exists 0. split; [lia|]. replay. }
    destruct Goal1 as [Hlen Hex].
    apply (Up s v r (fun k => Json.parse_value k s)); auto.
    intros a b x Ha Hab. exact (proj1 (Mono a) _ _ Ha _ Hab).
  - (* the elements of an array *)
    intros acc s v r H. cbn [Json.parse_elements] in H.
    destruct (Json.parse_value n s) as [[v1 s1]|] eqn:E; [|discriminate].
    destruct (IHv _ _ _ E) as [Lv Hv].
    destruct (Json.skip_ws s1) as [|c s2] eqn:E1; [discriminate|].
    pose proof (skip_ws_length s1) as L1. rewrite E1 in L1. cbn [length] in L1.
    assert (Goal1 : length r < length s
                    /\ exists m, S m <= 2 * (length s - length r)
                                 /\ Json.parse_elements (S m) acc s = Some (v, r)).
    { destruct (c =? Ch.comma)%N eqn:B1.
      - destruct (IHe _ _ _ _ H) as [Le He].
        split; [lia|].
        exists (Nat.max (2 * (length s - length s1)) (2 * (length s2 - length r))).
        split; [lia|].
        apply (proj1 (Mono _)) with
          (m := Nat.max (2 * (length s - length s1)) (2 * (length s2 - length r))) in Hv;
          [|lia].
        apply (proj1 (proj2 (Mono _))) with
          (m := Nat.max (2 * (length s - length s1)) (2 * (length s2 - length r))) in He;
          [|lia].
        replay.
      - destruct (c =? Ch.rbracket)%N eqn:B2; [|discriminate].
        inversion H; subst. split; [lia|].
        exists (2 * (length s - length s1)). split; [lia|]. replay. }
    destruct Goal1 as [Hlen Hex].
    apply (Up s v r (fun k => Json.parse_elements k acc s)); auto.
    intros a b x Ha Hab. exact (proj1 (proj2 (Mono a)) _ _ _ Ha _ Hab).
  - (* the members of an object *)
    intros acc s v r H. cbn [Json.parse_members] in H.
    destruct (Json.skip_ws s) as [|k0 s0] eqn:E0; [discriminate|].
    pose proof (skip_ws_length s) as L0. rewrite E0 in L0. cbn [length] in L0.
    destruct (k0 =? Ch.dquote)%N eqn:B0; [|discriminate].
    destruct (Json.lex_string s0 []) as [[k s1]|] eqn:E1; [|discriminate].
    pose proof (@lex_string_length _ _ (le_n _) _ _ _ E1) as L1.
    destruct (Json.skip_ws s1) as [|c1 s2] eqn:E2; [discriminate|].
    pose proof (skip_ws_length s1) as L2. rewrite E2 in L2. cbn [length] in L2.
    destruct (c1 =? Ch.colon)%N eqn:B1; [|discriminate].
    destruct (Json.parse_value n s2) as [[v1 s3]|] eqn:E3; [|discriminate].
    destruct (IHv _ _ _ E3) as [Lv Hv].
    destruct (Json.skip_ws s3) as [|c s4] eqn:E4; [discriminate|].
    pose proof (skip_ws_length s3) as L4. rewrite E4 in L4. cbn [length] in L4.
    assert (Goal1 : length r < length s
                    /\ exists m, S m <= 2 * (length s - length r)
                                 /\ Json.parse_members (S m) acc s = Some (v, r)).
    { destruct (c =? Ch.comma)%N eqn:B2.
      - destruct (IHm _ _ _ _ H) as [Lm Hm].
        split; [lia|].
        exists (Nat.max (2 * (length s2 - length s3)) (2 * (length s4 - length r))).
        split; [lia|].
        apply (proj1 (Mono _)) with
          (m := Nat.max (2 * (length s2 - length s3)) (2 * (length s4 - length r))) in Hv;
          [|lia].
        apply (proj2 (proj2 (Mono _))) with
          (m := Nat.max (2 * (length s2 - length s3)) (2 * (length s4 - length r))) in Hm;
          [|lia].
        replay.
      - destruct (c =? Ch.rbrace)%N eqn:B3; [|discriminate].
        inversion H; subst. split; [lia|].
        exists (2 * (length s2 - length s3)). split; [lia|]. replay. }
    destruct Goal1 as [Hlen Hex].
    apply (Up s v r (fun k => Json.parse_members k acc s)); auto.
    intros a b x Ha Hab. exact (proj2 (proj2 (Mono a)) _ _ _ Ha _ Hab).
Qed.

(** If any amount of fuel reads a value off a text, the fuel of
    [Json.parse] reads the same. *)
Lemma parse_value_fuel n s v r :
  Json.parse_value n s = Some (v, r) ->
  Json.parse_value (Json.fuel_for s) s = Some (v, r).
Proof.
  intros H. destruct (proj1 (parse_fuel_bound n) _ _ _ H) as [Hlen Hrun].
  apply (proj1 (parse_fuel_mono _) _ _ Hrun). unfold Json.fuel_for. lia.
Qed.

(** ** White space around a text *)

Lemma skip_ws_app_cons s t c r :
  Json.skip_ws s = c :: r -> Json.skip_ws (s ++ t) = c :: r ++ t.
Proof.
  induction s as [|x s IH]; simpl; [discriminate|].
  destruct (Json.is_ws x); [exact IH|].
  intros H; inversion H; reflexivity.
Qed.

Lemma skip_ws_all_ws w s : all_ws w = true -> Json.skip_ws (w ++ s) = Json.skip_ws s.
Proof.
  induction w as [|x w IH]; simpl; [reflexivity|].
  intros H. apply andb_true_iff in H. destruct H as [Hx Hw].
  rewrite Hx. now apply IH.
Qed.

Lemma skip_ws_nil_all_ws r : Json.skip_ws r = [] -> all_ws r = true.
Proof.
  induction r as [|x r IH]; simpl; [reflexivity|].
  destruct (Json.is_ws x); [exact IH | discriminate].
Qed.

Lemma all_ws_headed w : all_ws w = true -> ws_headed w = true.
Proof.
  destruct w as [|x w]; simpl; [reflexivity|].
  intros H. now apply andb_true_iff in H.
Qed.

Lemma strip_prefix_app p s t r :
  Json.strip_prefix p s = Some r -> Json.strip_prefix p (s ++ t) = Some (r ++ t).
Proof.
  revert s. induction p as [|x p IH]; intros s H; simpl in *.
  - now inversion H.
  - destruct s as [|y s]; [discriminate|]. simpl.
    destruct (x =? y)%N; [now apply IH | discriminate].
Qed.

Lemma strip_prefix_app_none p s t :
  forallb (fun c => negb (Json.is_ws c)) p = true ->
  ws_headed t = true ->
  Json.strip_prefix p s = None -> Json.strip_prefix p (s ++ t) = None.
Proof.
  intros Hp Ht. revert s. induction p as [|x p IH]; intros s H; simpl in *.
  - discriminate.
  - apply andb_true_iff in Hp. destruct Hp as [Hx Hp].
    destruct s as [|y s]; simpl.
    + destruct t as [|c t]; [reflexivity|]. simpl in Ht.
      destruct (N.eqb_spec x c) as [->|]; [|reflexivity].
      rewrite Ht in Hx. discriminate.
    + destruct (x =? y)%N; [now apply IH | reflexivity].
Qed.

Lemma lex_string_app t :
  forall n s, length s <= n ->
    forall acc x r, Json.lex_string s acc = Some (x, r) ->
      Json.lex_string (s ++ t) acc = Some (x, r ++ t).
Proof.
  induction n as [|n IH]; intros s Hn acc x r H.
  - destruct s; [discriminate | simpl in Hn; lia].
  - destruct s as [|c s]; [discriminate|]. simpl in Hn.
    cbn [Json.lex_string app] in H |- *.
    destruct (c =? Ch.dquote)%N; [now inversion H|].
    destruct (c =? Ch.backslash)%N.
    + destruct s as [|e s]; [discriminate|]. simpl in Hn. cbn [app].
      destruct (e =? 117)%N.
      * destruct s as [|h1 [|h2 [|h3 [|h4 s]]]]; try discriminate. cbn [app].
        destruct (Json.hex4 h1 h2 h3 h4); [|discriminate].
        apply IH; [simpl in Hn; lia | exact H].
      * destruct (Json.simple_escape e); [|discriminate].
        apply IH; [lia | exact H].
    + destruct (c <? 32)%N; [discriminate|].
      apply IH; [lia | exact H].
Qed.

Lemma ws_is_not c :
  Json.is_ws c = true ->
  is_digit c = false /\ (c =? Ch.dot)%N = false /\ (c =? Ch.minus)%N = false
  /\ (c =? Ch.plus)%N = false /\ ((c =? 101) || (c =? 69))%N = false.
Proof.
  unfold Json.is_ws, is_digit, Ch.space, Ch.tab, Ch.lf, Ch.cr, Ch.dot, Ch.minus, Ch.plus.
  intros H. unbool H.
  repeat split; apply not_true_is_false; intros W; unbool W; lia.
Qed.

Section Extend.

Variable t : jsstring.
Hypothesis Ht : ws_headed t = true.

Lemma take_digits_app s ds r :
  Json.take_digits s = (ds, r) -> Json.take_digits (s ++ t) = (ds, r ++ t).
Proof.
  revert ds r. induction s as [|c s IH]; intros ds r H; simpl in *.
  - inversion H; subst. destruct t as [|c t']; [reflexivity|].
    simpl in *. destruct (ws_is_not _ Ht) as (-> & _). reflexivity.
  - destruct (is_digit c).
    + destruct (Json.take_digits s) as [ds' r'] eqn:E.
      rewrite (IH _ _ eq_refl). now inversion H.
    + now inversion H.
Qed.

Lemma lex_int_app s x r :
  Json.lex_int s = Some (x, r) -> Json.lex_int (s ++ t) = Some (x, r ++ t).
Proof.
  unfold Json.lex_int. destruct s as [|c s]; [discriminate|]. cbn [app].
  destruct (c =? Ch.zero)%N; [intros H; now inversion H|].
  destruct (is_digit c); [|discriminate].
  destruct (Json.take_digits s) as [ds r'] eqn:E.
  rewrite (take_digits_app _ E). intros H; now inversion H.
Qed.

Lemma lex_frac_app s x r :
  Json.lex_frac s = Some (x, r) -> Json.lex_frac (s ++ t) = Some (x, r ++ t).
Proof.
  unfold Json.lex_frac. destruct s as [|c s].
  - intros H; inversion H; subst. destruct t as [|c t']; [reflexivity|].
    simpl in *. destruct (ws_is_not _ Ht) as (_ & -> & _). reflexivity.
  - cbn [app]. destruct (c =? Ch.dot)%N.
    + destruct (Json.take_digits s) as [ds r'] eqn:E.
      rewrite (take_digits_app _ E).
      destruct ds; [discriminate|]. intros H; now inversion H.
    + intros H; now inversion H.
Qed.

Lemma lex_exp_app s x r :
  Json.lex_exp s = Some (x, r) -> Json.lex_exp (s ++ t) = Some (x, r ++ t).
Proof.
  unfold Json.lex_exp. destruct s as [|c s].
  - intros H; inversion H; subst. destruct t as [|c t']; [reflexivity|].
    simpl in *. destruct (ws_is_not _ Ht) as (_ & _ & _ & _ & ->). reflexivity.
  - cbn [app]. destruct ((c =? 101) || (c =? 69))%N.
    + destruct s as [|y s].
      * simpl. discriminate.
      * cbn [app]. destruct ((y =? Ch.plus) || (y =? Ch.minus))%N.
        -- destruct (Json.take_digits s) as [ds r'] eqn:E.
           rewrite (take_digits_app _ E).
           destruct ds; [discriminate|]. intros H; now inversion H.
        -- destruct (Json.take_digits (y :: s)) as [ds r'] eqn:E.
           change (y :: s ++ t) with ((y :: s) ++ t).
           rewrite (take_digits_app _ E).
           destruct ds; [discriminate|]. intros H; now inversion H.
    + intros H; now inversion H.
Qed.

Lemma lex_number_app s x r :
  s <> [] ->
  Json.lex_number s = Some (x, r) -> Json.lex_number (s ++ t) = Some (x, r ++ t).
Proof.
  unfold Json.lex_number. destruct s as [|c s]; [congruence|]. intros _.
  cbn [app].
  assert (G : forall sg s1,
             match Json.lex_int s1 with
             | None => None
             | Some (i, s2) =>
                 match Json.lex_frac s2 with
                 | None => None
                 | Some (f, s3) =>
                     match Json.lex_exp s3 with
                     | None => None
                     | Some (e, s4) => Some (sg ++ i ++ f ++ e, s4)
                     end
                 end
             end = Some (x, r) ->
             match Json.lex_int (s1 ++ t) with
             | None => None
             | Some (i, s2) =>
                 match Json.lex_frac s2 with
                 | None => None
                 | Some (f, s3) =>
                     match Json.lex_exp s3 with
                     | None => None
                     | Some (e, s4) => Some (sg ++ i ++ f ++ e, s4)
                     end
                 end
             end = Some (x, r ++ t)).
  { intros sg s1 H.
    destruct (Json.lex_int s1) as [[i s2]|] eqn:E1; [|discriminate].
    rewrite (lex_int_app _ E1).
    destruct (Json.lex_frac s2) as [[f s3]|] eqn:E2; [|discriminate].
    rewrite (lex_frac_app _ E2).
    destruct (Json.lex_exp s3) as [[e s4]|] eqn:E3; [|discriminate].
    rewrite (lex_exp_app _ E3). now inversion H. }
  destruct (c =? Ch.minus)%N.
  - apply G.
  - apply (G [] (c :: s)).
Qed.

(** A value read from [s] is read the same from [s ++ t], and [t] is left
    behind it. *)
Lemma parse_app n :
  (forall s v r, Json.parse_value n s = Some (v, r) ->
     Json.parse_value n (s ++ t) = Some (v, r ++ t))
  /\ (forall acc s v r, Json.parse_elements n acc s = Some (v, r) ->
        Json.parse_elements n acc (s ++ t) = Some (v, r ++ t))
  /\ (forall acc s v r, Json.parse_members n acc s = Some (v, r) ->
        Json.parse_members n acc (s ++ t) = Some (v, r ++ t)).
Proof.
  induction n as [|n (IHv & IHe & IHm)]; [repeat split; intros; discriminate|].
  repeat split.
  - intros s v r H. cbn [Json.parse_value] in H |- *.
    destruct (Json.skip_ws s) as [|c s1] eqn:Es; [discriminate|].
    rewrite (skip_ws_app_cons _ t Es).
    destruct (c =? Ch.lbrace)%N.
    { destruct (Json.skip_ws s1) as [|c' s2] eqn:E1; [discriminate|].
      rewrite (skip_ws_app_cons _ t E1).
      destruct (c' =? Ch.rbrace)%N; [now inversion H|].
      apply (IHm _ _ _ _ H). }
    destruct (c =? Ch.lbracket)%N.
    { destruct (Json.skip_ws s1) as [|c' s2] eqn:E1; [discriminate|].
      rewrite (skip_ws_app_cons _ t E1).
      destruct (c' =? Ch.rbracket)%N; [now inversion H|].
      apply (IHe _ _ _ _ H). }
    destruct (c =? Ch.dquote)%N.
    { destruct (Json.lex_string s1 []) as [[str s2]|] eqn:E1; [|discriminate].
      rewrite (@lex_string_app t _ _ (le_n _) _ _ _ E1). now inversion H. }
    destruct ((c =? Ch.minus)%N || is_digit c).
    { destruct (Json.lex_number (c :: s1)) as [[num s2]|] eqn:E1; [|discriminate].
      change (c :: s1 ++ t) with ((c :: s1) ++ t).
      rewrite (lex_number_app (s := c :: s1) ltac:(discriminate) E1). now inversion H. }
    change (c :: s1 ++ t) with ((c :: s1) ++ t).
    destruct (Json.strip_prefix (lit "true") (c :: s1)) as [s2|] eqn:E1.
    { rewrite (@strip_prefix_app _ _ t _ E1). now inversion H. }
    rewrite (@strip_prefix_app_none (lit "true") _ _ eq_refl Ht E1).
    destruct (Json.strip_prefix (lit "false") (c :: s1)) as [s2|] eqn:E2.
    { rewrite (@strip_prefix_app _ _ t _ E2). now inversion H. }
    rewrite (@strip_prefix_app_none (lit "false") _ _ eq_refl Ht E2).
    destruct (Json.strip_prefix (lit "null") (c :: s1)) as [s2|] eqn:E3; [|discriminate].
    rewrite (@strip_prefix_app _ _ t _ E3). now inversion H.
  - intros acc s v r H. cbn [Json.parse_elements] in H |- *.
    destruct (Json.parse_value n s) as [[v1 s1]|] eqn:E; [|discriminate].
    rewrite (IHv _ _ _ E).
    destruct (Json.skip_ws s1) as [|c s2] eqn:E1; [discriminate|].
    rewrite (skip_ws_app_cons _ t E1).
    destruct (c =? Ch.comma)%N; [apply (IHe _ _ _ _ H)|].
    destruct (c =? Ch.rbracket)%N; [now inversion H | discriminate].
  - intros acc s v r H. cbn [Json.parse_members] in H |- *.
    destruct (Json.skip_ws s) as [|k0 s0] eqn:E0; [discriminate|].
    rewrite (skip_ws_app_cons _ t E0).
    destruct (k0 =? Ch.dquote)%N; [|discriminate].
    destruct (Json.lex_string s0 []) as [[k s1]|] eqn:E1; [|discriminate].
    rewrite (@lex_string_app t _ _ (le_n _) _ _ _ E1).
    destruct (Json.skip_ws s1) as [|c1 s2] eqn:E2; [discriminate|].
    rewrite (skip_ws_app_cons _ t E2).
    destruct (c1 =? Ch.colon)%N; [|discriminate].
    destruct (Json.parse_value n s2) as [[v1 s3]|] eqn:E3; [|discriminate].
    rewrite (IHv _ _ _ E3).
    destruct (Json.skip_ws s3) as [|c s4] eqn:E4; [discriminate|].
    rewrite (skip_ws_app_cons _ t E4).
    destruct (c =? Ch.comma)%N; [apply (IHm _ _ _ _ H)|].
    destruct (c =? Ch.rbrace)%N; [now inversion H | discriminate].
Qed.

End Extend.

(** [JSON.parse] does not mind white space around the text. *)
Lemma parse_padded w1 s w2 v :
  all_ws w1 = true -> all_ws w2 = true ->
  Json.parse s = Some v -> Json.parse (w1 ++ s ++ w2) = Some v.
Proof.
  intros H1 H2. unfold Json.parse.
  destruct (Json.parse_value (Json.fuel_for s) s) as [[v' r]|] eqn:E; [|discriminate].
  destruct (Json.skip_ws r) eqn:Er; [|discriminate]. intros H; inversion H; subst v'.
  assert (Hle : Json.fuel_for s <= Json.fuel_for (w1 ++ s ++ w2)).
  { unfold Json.fuel_for. rewrite !length_app. lia. }
  apply (proj1 (parse_fuel_mono _)) with (m := Json.fuel_for (w1 ++ s ++ w2)) in E;
    [|exact Hle].
  apply (proj1 (@parse_app w2 (@all_ws_headed w2 H2) _)) in E.
  assert (Hlead : Json.parse_value (Json.fuel_for (w1 ++ s ++ w2)) (w1 ++ s ++ w2)
                  = Json.parse_value (Json.fuel_for (w1 ++ s ++ w2)) (s ++ w2)).
  { destruct (Json.fuel_for (w1 ++ s ++ w2)); [reflexivity|].
    cbn [Json.parse_value]. now rewrite skip_ws_all_ws. }
  rewrite Hlead, E.
  rewrite skip_ws_all_ws by now apply skip_ws_nil_all_ws.
  clear - H2. induction w2 as [|c w IH]; [reflexivity|].
  simpl in *. apply andb_true_iff in H2. destruct H2 as [-> Hw]. now apply IH.
Qed.

(* ================================================================== *)
(** * The matcher against what a match is *)
(* ================================================================== *)

Section MatcherTheory.

Variable icase : bool.

Lemma Matches_suffix r p s p' s' :
  Matches icase r p s p' s' -> exists m, s = m ++ s'.
Proof.
  induction 1.
  - exists []; reflexivity.
  - exists [x]; reflexivity.
  - exists [x]; reflexivity.
  - exists []; reflexivity.
  - destruct IHMatches1 as [m1 ->], IHMatches2 as [m2 ->].
    exists (m1 ++ m2). now rewrite app_assoc.
  - assumption.
  - assumption.
  - exists []; reflexivity.
  - exists []; reflexivity.
  - destruct IHMatches1 as [m1 ->], IHMatches2 as [m2 ->].
    exists (m1 ++ m2). now rewrite app_assoc.
  - assumption.
Qed.

Lemma Matches_length r p s p' s' :
  Matches icase r p s p' s' -> length s' <= length s.
Proof.
  intros H. destruct (Matches_suffix H) as [m ->].
  rewrite length_app. lia.
Qed.

(** Whatever the matcher finds is a match, and the continuation accepted
    where it ends. *)
Lemma rep_sound (mr : cont -> cont) (r : regex) :
  (forall k p s z, mr k p s = Some z ->
     exists p' s', Matches icase r p s p' s' /\ k p' s' = Some z) ->
  forall fuel min max k p s z,
    rep mr fuel min max k p s = Some z ->
    exists p' s', Matches icase (Quant r min max) p s p' s' /\ k p' s' = Some z.
Proof.
  intros Hmr. induction fuel as [|fuel IH]; intros min max k p s z H.
  - discriminate.
  - assert (Hstep : forall p1 s1,
               max <> Some 0 ->
               Matches icase r p s p1 s1 ->
               (if (min =? 0)%nat && (length s1 =? length s)%nat then None
                else rep mr fuel (pred min) (dec_max max) k p1 s1) = Some z ->
               exists p' s', Matches icase (Quant r min max) p s p' s' /\ k p' s' = Some z).
    { intros p1 s1 Hmax HM Hd.
      destruct ((min =? 0)%nat && (length s1 =? length s)%nat) eqn:E; [discriminate|].
      apply IH in Hd. destruct Hd as (p' & s' & HQ & Hk).
      exists p', s'. split; [|assumption].
      eapply MQiter; eauto.
      intros ->. simpl in E. now apply Nat.eqb_neq in E. }
    assert (Hgo : max <> Some 0 ->
               match min with
               | O => match mr (fun prev' s' =>
                                  if (min =? 0)%nat && (length s' =? length s)%nat then None
                                  else rep mr fuel (pred min) (dec_max max) k prev' s') p s with
                      | Some z0 => Some z0
                      | None => k p s
                      end
               | S _ => mr (fun prev' s' =>
                              if (min =? 0)%nat && (length s' =? length s)%nat then None
                              else rep mr fuel (pred min) (dec_max max) k prev' s') p s
               end = Some z ->
               exists p' s', Matches icase (Quant r min max) p s p' s' /\ k p' s' = Some z).
    { intros Hmax Hrun. destruct min as [|min'].
      - match type of Hrun with
        | match ?c with _ => _ end = _ => destruct c as [z0|] eqn:E
        end.
        + inversion Hrun; subst z0.
          apply Hmr in E. destruct E as (p1 & s1 & HM & Hd). eauto.
        + exists p, s. split; [apply MQskip | assumption].
      - apply Hmr in Hrun. destruct Hrun as (p1 & s1 & HM & Hd). eauto. }
    simpl in H. destruct max as [[|m]|].
    + exists p, s. split; [apply MQmax | assumption].
    + apply Hgo; [discriminate | exact H].
    + apply Hgo; [discriminate | exact H].
Qed.

Lemma run_sound r :
  forall k p s z,
    run icase r k p s = Some z ->
    exists p' s', Matches icase r p s p' s' /\ k p' s' = Some z.
Proof.
  induction r as [ | c | f | | r1 IH1 r2 IH2 | r1 IH1 r2 IH2 | r IH min max | r IH ];
    intros k p s z H; simpl in H.
  - exists p, s. split; [constructor | assumption].
  - destruct s as [|x s']; [discriminate|].
    destruct (char_eq icase x c) eqn:E; [|discriminate].
    exists (Some x), s'. split; [now constructor | assumption].
  - destruct s as [|x s']; [discriminate|].
    destruct (f x) eqn:E; [|discriminate].
    exists (Some x), s'. split; [now constructor | assumption].
  - destruct (at_boundary p s) eqn:E; [|discriminate].
    exists p, s. split; [now constructor | assumption].
  - apply IH1 in H. destruct H as (p1 & s1 & H1 & H).
    apply IH2 in H. destruct H as (p2 & s2 & H2 & H).
    exists p2, s2. split; [econstructor; eauto | assumption].
  - destruct (run icase r1 k p s) as [z0|] eqn:E.
    + inversion H; subst z0. apply IH1 in E. destruct E as (p' & s' & HM & Hk).
      exists p', s'. split; [now apply MAltL | assumption].
    + apply IH2 in H. destruct H as (p' & s' & HM & Hk).
      exists p', s'. split; [now apply MAltR | assumption].
  - eapply rep_sound; eauto.
  - apply IH in H. destruct H as (p' & s' & HM & Hk).
    exists p', s'. split; [now constructor | assumption].
Qed.

(** Whenever there is a match after which the continuation accepts, the
    matcher finds one. *)
Lemma run_complete r p s p' s' :
  Matches icase r p s p' s' ->
  forall k, k p' s' <> None ->
    run icase r k p s <> None
    /\ (forall r0 min max, r = Quant r0 min max ->
        forall fuel, min + length s + 1 <= fuel ->
          rep (run icase r0) fuel min max k p s <> None).
Proof.
  induction 1; intros k Hk.
  - split; [exact Hk | discriminate].
  - split; [simpl; now rewrite H | discriminate].
  - split; [simpl; now rewrite H | discriminate].
  - split; [simpl; now rewrite H | discriminate].
  - split; [|discriminate]. simpl.
    apply IHMatches1. now apply IHMatches2.
  - split; [|discriminate]. simpl.
    destruct (run icase r1 k p s) eqn:E; [discriminate|].
    exfalso. now apply (IHMatches k Hk).
  - split; [|discriminate]. simpl.
    destruct (run icase r1 k p s) eqn:E; [discriminate|].
    now apply IHMatches.
  - assert (G : forall fuel, min + length s + 1 <= fuel ->
                  rep (run icase r) fuel min (Some 0) k p s <> None).
    { intros [|fuel] Hf; [lia|]. exact Hk. }
    split.
    + simpl. apply G. lia.
    + intros r0 min0 max0 E. inversion E; subst. exact G.
  - assert (G : forall fuel, 0 + length s + 1 <= fuel ->
                  rep (run icase r) fuel 0 max k p s <> None).
    { intros [|fuel] Hf; [lia|]. simpl.
      destruct max as [[|m]|]; try exact Hk;
        match goal with
        | |- match ?c with _ => _ end <> None => destruct c; [discriminate | exact Hk]
        end. }
    split.
    + simpl. apply G. lia.
    + intros r0 min0 max0 E. inversion E; subst. exact G.
  - pose proof (Matches_length H0) as Hlen.
    assert (G : forall fuel, min + length s + 1 <= fuel ->
                  rep (run icase r) fuel min max k p s <> None).
    { intros [|fuel] Hf; [lia|].
      assert (Hd : (if (min =? 0)%nat && (length s1 =? length s)%nat then None
                    else rep (run icase r) fuel (pred min) (dec_max max) k p1 s1) <> None).
      { destruct ((min =? 0)%nat && (length s1 =? length s)%nat) eqn:E.
        - apply andb_true_iff in E. destruct E as [E1 E2].
          apply Nat.eqb_eq in E1, E2. now apply H1 in E1.
        - destruct (IHMatches2 k Hk) as [_ G2].
          apply (G2 r (pred min) (dec_max max) eq_refl).
          destruct min as [|min'].
          + simpl in E. apply Nat.eqb_neq in E. simpl. lia.
          + simpl. lia. }
      pose proof (proj1 (IHMatches1
                           (fun prev' s' =>
                              if (min =? 0)%nat && (length s' =? length s)%nat then None
                              else rep (run icase r) fuel (pred min) (dec_max max) k prev' s')
                           Hd)) as Hrun.
      simpl. destruct max as [[|m]|]; [now elim H | |];
        (destruct min as [|min'];
         [ match goal with
           | |- match ?c with _ => _ end <> None =>
               destruct c eqn:E; [discriminate | now elim Hrun]
           end
         | exact Hrun ]). }
    split.
    + simpl. apply G. lia.
    + intros r0 min0 max0 E. inversion E; subst. exact G.
  - split; [|discriminate]. simpl. now apply IHMatches.
Qed.

Lemma exec_from_eq r p s :
  exec_from icase r p s =
  match run icase r accept p s with
  | Some rest => Some (firstn (length s - length rest) s)
  | None =>
      match s with
      | [] => None
      | x :: s' => exec_from icase r (Some x) s'
      end
  end.
Proof. destruct s; reflexivity. Qed.

(** [exec_from] answers as soon as some start position has a match. *)
Lemma exec_from_found r pre s p :
  run icase r accept (prev_of p pre) s <> None ->
  exec_from icase r p (pre ++ s) <> None.
Proof.
  revert p. induction pre as [|x pre IH]; intros p H.
  - simpl in *. destruct s; simpl; destruct (run icase r accept p _); congruence.
  - change (exec_from icase r p (x :: pre ++ s) <> None).
    rewrite exec_from_eq.
    destruct (run icase r accept p (x :: pre ++ s)); [discriminate|].
    apply IH. exact H.
Qed.

(** What [exec_from] answers is the text of a match at some start
    position, the first one that has any. *)
Lemma exec_from_inv r p s m :
  exec_from icase r p s = Some m ->
  exists pre rest,
    s = pre ++ m ++ rest
    /\ run icase r accept (prev_of p pre) (m ++ rest) = Some rest.
Proof.
  assert (Hhere : forall p s rest,
             run icase r accept p s = Some rest ->
             s = firstn (length s - length rest) s ++ rest).
  { intros p0 s0 rest E.
    destruct (run_sound _ _ _ _ E) as (p' & s' & HM & Hk).
    inversion Hk; subst s'. destruct (Matches_suffix HM) as [m0 Hm0].
    rewrite Hm0 at 2 3.
    replace (length (m0 ++ rest) - length rest) with (length m0 + 0)
      by (rewrite length_app; lia).
    rewrite firstn_app_2. simpl. rewrite app_nil_r. exact Hm0. }
  revert p. induction s as [|x s IH]; intros p H.
  - rewrite exec_from_eq in H.
    destruct (run icase r accept p []) as [rest|] eqn:E; [|discriminate].
    inversion H; subst m; clear H.
    pose proof (Hhere _ _ _ E) as Hs. simpl in Hs. subst rest.
    exists [], []. split; [reflexivity | exact E].
  - rewrite exec_from_eq in H.
    destruct (run icase r accept p (x :: s)) as [rest|] eqn:E.
    + inversion H; subst m; clear H.
      exists [], rest. pose proof (Hhere _ _ _ E) as Hs.
      split; [exact Hs|].
      match goal with
      | |- run _ _ _ _ ?t = _ => replace t with (x :: s) by exact Hs
      end.
      exact E.
    + apply IH in H. destruct H as (pre & rest & -> & Hrun).
      exists (x :: pre), rest. split; [reflexivity | exact Hrun].
Qed.

(** ** Reading a match back, one constructor at a time *)

Lemma Matches_Seq_inv r1 r2 p s p' s' :
  Matches icase (Seq r1 r2) p s p' s' ->
  exists p1 s1, Matches icase r1 p s p1 s1 /\ Matches icase r2 p1 s1 p' s'.
Proof. inversion 1; subst; eauto. Qed.

Lemma Matches_Lit_inv c p s p' s' :
  Matches icase (Lit c) p s p' s' ->
  exists x, s = x :: s' /\ p' = Some x /\ char_eq icase x c = true.
Proof. inversion 1; subst; eauto. Qed.

Lemma Matches_Class_inv f p s p' s' :
  Matches icase (Class f) p s p' s' ->
  exists x, s = x :: s' /\ p' = Some x /\ f x = true.
Proof. inversion 1; subst; eauto. Qed.

Lemma Matches_WordB_inv p s p' s' :
  Matches icase WordB p s p' s' ->
  p' = p /\ s' = s /\ at_boundary p s = true.
Proof. inversion 1; subst; auto. Qed.

Lemma Matches_Alt_inv r1 r2 p s p' s' :
  Matches icase (Alt r1 r2) p s p' s' ->
  Matches icase r1 p s p' s' \/ Matches icase r2 p s p' s'.
Proof. inversion 1; subst; auto. Qed.

Lemma Matches_Group_inv r p s p' s' :
  Matches icase (Group r) p s p' s' -> Matches icase r p s p' s'.
Proof. inversion 1; subst; auto. Qed.

Lemma Matches_Quant_inv r min max p s p' s' :
  Matches icase (Quant r min max) p s p' s' ->
  (p' = p /\ s' = s /\ (max = Some 0 \/ min = 0))
  \/ (max <> Some 0
      /\ exists p1 s1,
           Matches icase r p s p1 s1
           /\ Matches icase (Quant r (pred min) (dec_max max)) p1 s1 p' s').
Proof. inversion 1; subst; eauto 8. Qed.

(** [r?]: nothing, or one [r]. *)
Lemma Matches_opt_inv r p s p' s' :
  Matches icase (Quant r 0 (Some 1)) p s p' s' ->
  (p' = p /\ s' = s) \/ Matches icase r p s p' s'.
Proof.
  intros H. apply Matches_Quant_inv in H.
  destruct H as [(-> & -> & _) | (_ & p1 & s1 & H1 & H2)]; [now left | right].
  apply Matches_Quant_inv in H2. simpl in H2.
  destruct H2 as [(-> & -> & _) | (Hne & _)]; [assumption | now elim Hne].
Qed.

End MatcherTheory.

(* ================================================================== *)
(** * The span [/\{[\s\S]*\}/] picks out *)
(* ================================================================== *)

Lemma any_char_true c : (is_space c || negb (is_space c)) = true.
Proof. apply orb_negb_r. Qed.

(** One step of [[\s\S]*] followed by [\}]: take a code unit and go on, or
    else stop here. *)
Lemma star_any_step fuel p x s :
  rep (run false any_char) (S fuel) 0 None (run false (Lit Ch.rbrace) accept) p (x :: s) =
  match rep (run false any_char) fuel 0 None (run false (Lit Ch.rbrace) accept) (Some x) s with
  | Some z => Some z
  | None => if (x =? Ch.rbrace)%N then Some s else None
  end.
Proof.
  simpl. rewrite any_char_true.
  replace (length s =? S (length s)) with false
    by (symmetry; apply Nat.eqb_neq; lia).
  reflexivity.
Qed.

Lemma star_any_none s :
  ~ In Ch.rbrace s ->
  forall fuel p, length s < fuel ->
    rep (run false any_char) fuel 0 None (run false (Lit Ch.rbrace) accept) p s = None.
Proof.
  induction s as [|x s IH]; intros Hno fuel p Hf;
    (destruct fuel as [|fuel]; [inversion Hf|]).
  - reflexivity.
  - rewrite star_any_step. rewrite IH.
    + destruct (N.eqb_spec x Ch.rbrace) as [->|]; [|reflexivity].
      exfalso. apply Hno. now left.
    + intros Hin. apply Hno. now right.
    + simpl in Hf. lia.
Qed.

(** Greedy: the span ends at the last closing brace. *)
Lemma star_any_last mid post :
  ~ In Ch.rbrace post ->
  forall fuel p, length (mid ++ Ch.rbrace :: post) < fuel ->
    rep (run false any_char) fuel 0 None (run false (Lit Ch.rbrace) accept) p
        (mid ++ Ch.rbrace :: post) = Some post.
Proof.
  intros Hno. induction mid as [|x mid IH]; intros fuel p Hf;
    (destruct fuel as [|fuel]; [inversion Hf|]).
  - simpl app. rewrite star_any_step.
    rewrite star_any_none by (simpl in Hf; auto; lia).
    reflexivity.
  - change ((x :: mid) ++ Ch.rbrace :: post) with (x :: mid ++ Ch.rbrace :: post).
    rewrite star_any_step. rewrite IH by (simpl in Hf; lia). reflexivity.
Qed.

(** The match starts at the first opening brace and runs to the last
    closing brace. *)
Lemma exec_json_span pre mid post :
  ~ In Ch.lbrace pre ->
  ~ In Ch.rbrace post ->
  exec false re_json_span (pre ++ [Ch.lbrace] ++ mid ++ [Ch.rbrace] ++ post)
  = Some ([Ch.lbrace] ++ mid ++ [Ch.rbrace]).
Proof.
  intros Hpre Hpost. unfold exec. generalize (@None N).
  induction pre as [|x pre IH]; intros p.
  - rewrite exec_from_eq.
    assert (E : run false re_json_span accept p
                    ([] ++ [Ch.lbrace] ++ mid ++ [Ch.rbrace] ++ post) = Some post).
    { simpl app. unfold re_json_span, star.
      change (run false (Lit Ch.lbrace # Quant any_char 0 None # Lit Ch.rbrace) accept p
                  (Ch.lbrace :: mid ++ Ch.rbrace :: post))
        with (rep (run false any_char) (0 + length (mid ++ Ch.rbrace :: post) + 1) 0 None
                  (run false (Lit Ch.rbrace) accept) (Some Ch.lbrace)
                  (mid ++ Ch.rbrace :: post)).
      apply star_any_last; [assumption | lia]. }
    rewrite E. f_equal. simpl app.
    replace (length (Ch.lbrace :: mid ++ Ch.rbrace :: post) - length post)
      with (length (Ch.lbrace :: mid ++ [Ch.rbrace]) + 0)
      by (cbn [length]; rewrite !length_app; cbn [length]; lia).
    change (Ch.lbrace :: mid ++ Ch.rbrace :: post)
      with ((Ch.lbrace :: mid) ++ [Ch.rbrace] ++ post).
    rewrite app_assoc.
    change (Ch.lbrace :: mid ++ [Ch.rbrace]) with ((Ch.lbrace :: mid) ++ [Ch.rbrace]).
    rewrite firstn_app_2. simpl. now rewrite app_nil_r.
  - rewrite exec_from_eq.
    assert (E : run false re_json_span accept p
                    ((x :: pre) ++ [Ch.lbrace] ++ mid ++ [Ch.rbrace] ++ post) = None).
    { simpl. destruct (N.eqb_spec x Ch.lbrace) as [->|]; [|reflexivity].
      exfalso. apply Hpre. now left. }
    rewrite E. simpl app. apply IH. intros Hin. apply Hpre. now right.
Qed.

(** Whatever the expression matches is a piece of the text that opens with
    a brace. *)
Lemma exec_json_span_inv s m :
  exec false re_json_span s = Some m ->
  exists pre m' post, s = pre ++ m ++ post /\ m = Ch.lbrace :: m'.
Proof.
  intros H. apply exec_from_inv in H. destruct H as (pre & rest & -> & Hrun).
  apply run_sound in Hrun. destruct Hrun as (p' & s' & HM & Hk).
  inversion Hk; subst s'; clear Hk.
  apply Matches_Seq_inv in HM. destruct HM as (p1 & s1 & HL & HR).
  apply Matches_Lit_inv in HL. destruct HL as (x & Hs & _ & Hx).
  unfold char_eq in Hx. apply N.eqb_eq in Hx. subst x.
  destruct m as [|c m'].
  - simpl in Hs. destruct (Matches_suffix HR) as [m0 Hm0].
    assert (L : length rest = length (Ch.lbrace :: m0 ++ rest)) by congruence.
    simpl in L. rewrite length_app in L. lia.
  - simpl in Hs. inversion Hs; subst.
    exists pre, m', rest. split; reflexivity.
Qed.

(* ================================================================== *)
(** * What the time-of-day expression finds *)
(* ================================================================== *)

Lemma is_digit_word c : is_digit c = true -> is_word c = true.
Proof.
  unfold is_word. intros ->. now rewrite orb_true_r.
Qed.

Lemma is_space_not_word c : is_space c = true -> is_word c = false.
Proof.
  unfold is_space, is_word, is_upper, is_lower, is_digit, Ch.underscore.
  intros H. apply not_true_is_false. intros W.
  unbool H. unbool W. lia.
Qed.

Lemma colon_ci x : char_eq true x Ch.colon = true -> x = Ch.colon.
Proof.
  unfold char_eq, ascii_upper, is_lower, Ch.colon. simpl.
  destruct ((97 <=? x) && (x <=? 122))%N eqn:E; intros H; apply N.eqb_eq in H.
  - apply andb_true_iff in E. rewrite !N.leb_le in E. lia.
  - assumption.
Qed.

Lemma letter_ci_word x c :
  is_lower c = true -> char_eq true x c = true -> is_word x = true.
Proof.
  unfold char_eq, ascii_upper, is_word, is_lower, is_upper. intros Hc. rewrite Hc.
  rewrite andb_true_iff, !N.leb_le in Hc.
  destruct ((97 <=? x) && (x <=? 122))%N eqn:E; intros H; apply N.eqb_eq in H.
  - now rewrite orb_true_r.
  - assert (U : ((65 <=? x) && (x <=? 90))%N = true).
    { rewrite andb_true_iff, !N.leb_le. lia. }
    now rewrite U.
Qed.

(** [\d{1,2}]: one digit or two. *)
Lemma Matches_digits_inv ic p s p' s' :
  Matches ic (Quant digit 1 (Some 2)) p s p' s' ->
  exists ds d,
    s = ds ++ s' /\ (length ds = 1 \/ length ds = 2)
    /\ forallb is_digit ds = true
    /\ p' = Some d /\ is_digit d = true.
Proof.
  intros H. apply Matches_Quant_inv in H.
  destruct H as [(_ & _ & [E|E]) | (_ & p1 & s1 & H1 & H2)]; try discriminate.
  apply Matches_Class_inv in H1. destruct H1 as (x & -> & -> & Hx).
  apply Matches_opt_inv in H2. destruct H2 as [(-> & ->) | H2].
  - exists [x], x. simpl. rewrite Hx. auto.
  - apply Matches_Class_inv in H2. destruct H2 as (y & -> & -> & Hy).
    exists [x; y], y. simpl. rewrite Hx, Hy. auto.
Qed.

Lemma Matches_digits ic p ds s :
  (length ds = 1 \/ length ds = 2) ->
  forallb is_digit ds = true ->
  Matches ic (Quant digit 1 (Some 2)) p (ds ++ s) (prev_of p ds) s.
Proof.
  intros Hlen Hd.
  destruct ds as [|x [|y [|z ds]]]; simpl in Hlen; try (destruct Hlen; discriminate);
    simpl in Hd; rewrite ?andb_true_iff in Hd.
  - destruct Hd as [Hx _].
    eapply MQiter with (p1 := Some x) (s1 := s); try discriminate.
    + now constructor.
    + apply MQskip.
  - destruct Hd as (Hx & Hy & _).
    eapply MQiter with (p1 := Some x) (s1 := y :: s); try discriminate.
    + now constructor.
    + simpl. eapply MQiter with (p1 := Some y) (s1 := s); try discriminate.
      * now constructor.
      * simpl. lia.
      * apply MQmax.
Qed.

(** Behind the digits: either the text goes on with no word character, or
    with [am] or [pm] and no word character after that. *)
Lemma time_tail_inv d s p' s' :
  is_word d = true ->
  Matches true time_tail (Some d) s p' s' ->
  word_after s = false
  \/ exists a m post',
       s = a :: m :: post'
       /\ (char_eq true a 97 || char_eq true a 112) = true
       /\ char_eq true m 109 = true
       /\ word_after post' = false.
Proof.
  intros Hd H. unfold time_tail in H.
  apply Matches_Seq_inv in H. destruct H as (p1 & s1 & Hcolon & H).
  apply Matches_opt_inv in Hcolon. destruct Hcolon as [(-> & ->) | Hcolon].
  2:{ left. apply Matches_Group_inv, Matches_Seq_inv in Hcolon.
      destruct Hcolon as (p2 & s2 & Hc & _).
      apply Matches_Lit_inv in Hc. destruct Hc as (x & -> & _ & Hx).
      apply colon_ci in Hx. subst x. reflexivity. }
  apply Matches_Seq_inv in H. destruct H as (p1 & s1 & Hsp & H).
  apply Matches_opt_inv in Hsp. destruct Hsp as [(-> & ->) | Hsp].
  2:{ left. apply Matches_Class_inv in Hsp. destruct Hsp as (x & -> & _ & Hx).
      simpl. now apply is_space_not_word. }
  apply Matches_Seq_inv in H. destruct H as (p1 & s1 & Hap & Hb).
  apply Matches_WordB_inv in Hb. destruct Hb as (-> & -> & Hb).
  apply Matches_opt_inv in Hap. destruct Hap as [(-> & ->) | Hap].
  - left. unfold at_boundary in Hb. simpl in Hb. rewrite Hd in Hb.
    now destruct (word_after s).
  - right. apply Matches_Group_inv, Matches_Alt_inv in Hap.
    assert (G : exists a m, s = a :: m :: s1 /\ p1 = Some m
                /\ (char_eq true a 97 || char_eq true a 112) = true
                /\ char_eq true m 109 = true).
    { destruct Hap as [Hap | Hap];
        apply Matches_Seq_inv in Hap; destruct Hap as (p2 & s2 & Ha & Hm);
        apply Matches_Lit_inv in Ha; destruct Ha as (a & -> & _ & Ha);
        apply Matches_Lit_inv in Hm; destruct Hm as (m & -> & -> & Hm);
        exists a, m; rewrite Ha, Hm, ?orb_true_r; auto. }
    destruct G as (a & m & -> & -> & Ha & Hm).
    exists a, m, s1. repeat split; auto.
    unfold at_boundary in Hb. simpl in Hb.
    rewrite (letter_ci_word m 109 eq_refl Hm) in Hb.
    now destruct (word_after s1).
Qed.

Lemma Matches_opt_skip ic r p s : Matches ic (opt r) p s p s.
Proof. apply MQskip. Qed.

Lemma Matches_opt_take ic r p s p' s' :
  Matches ic r p s p' s' -> length s' <> length s ->
  Matches ic (opt r) p s p' s'.
Proof.
  intros H L. unfold opt. eapply MQiter; eauto; try discriminate.
  simpl. apply MQmax.
Qed.

Lemma time_tail_plain d s :
  is_word d = true -> word_after s = false ->
  Matches true time_tail (Some d) s (Some d) s.
Proof.
  intros Hd Hs. unfold time_tail.
  repeat (eapply MSeq; [apply Matches_opt_skip|]).
  constructor. unfold at_boundary. simpl. now rewrite Hd, Hs.
Qed.

Lemma time_tail_ampm d a m s :
  (char_eq true a 97 || char_eq true a 112) = true ->
  char_eq true m 109 = true ->
  word_after s = false ->
  Matches true time_tail (Some d) (a :: m :: s) (Some m) s.
Proof.
  intros Ha Hm Hs. unfold time_tail.
  do 2 (eapply MSeq; [apply Matches_opt_skip|]).
  eapply MSeq with (p1 := Some m) (s1 := s).
  - apply Matches_opt_take; [|simpl; lia].
    constructor. apply orb_true_iff in Ha. destruct Ha as [Ha | Ha].
    + apply MAltL. eapply MSeq; constructor; eassumption.
    + apply MAltR. eapply MSeq; constructor; eassumption.
  - constructor. unfold at_boundary. simpl.
    now rewrite (letter_ci_word m 109 eq_refl Hm), Hs.
Qed.

Lemma prev_of_digits p ds :
  ds <> [] -> forallb is_digit ds = true ->
  exists d, prev_of p ds = Some d /\ is_word d = true.
Proof.
  revert p. induction ds as [|x ds IH]; intros p Hne Hd; [congruence|].
  simpl in Hd. apply andb_true_iff in Hd. destruct Hd as [Hx Hd].
  destruct ds as [|y ds'].
  - exists x. split; [reflexivity | now apply is_digit_word].
  - apply (IH (Some x)); [discriminate | assumption].
Qed.

(** The expression finds something exactly in the texts that hold a
    [time_token]. *)
Lemma test_time_of_day text :
  test true re_time_of_day text = true <-> time_token text.
Proof.
  unfold test, exec. split.
  - destruct (exec_from true re_time_of_day None text) as [m|] eqn:E; [intros _|discriminate].
    apply exec_from_inv in E. destruct E as (pre & rest & -> & Hrun).
    apply run_sound in Hrun. destruct Hrun as (p' & s' & HM & Hk).
    change re_time_of_day
      with (WordB # Group (Quant digit 1 (Some 2)) # time_tail) in HM.
    apply Matches_Seq_inv in HM. destruct HM as (p1 & s1 & Hb & HM).
    apply Matches_WordB_inv in Hb. destruct Hb as (-> & -> & Hb).
    apply Matches_Seq_inv in HM. destruct HM as (p1 & s1 & Hds & Htail).
    apply Matches_Group_inv, Matches_digits_inv in Hds.
    destruct Hds as (ds & d & Hs & Hlen & Hdig & -> & Hd).
    apply time_tail_inv in Htail; [|now apply is_digit_word].
    exists pre, ds, s1. rewrite Hs. repeat split; auto.
    unfold at_boundary in Hb. rewrite Hs in Hb.
    destruct ds as [|x ds']; [destruct Hlen; discriminate|].
    simpl in Hdig. apply andb_true_iff in Hdig. destruct Hdig as [Hx _].
    simpl in Hb. rewrite (is_digit_word _ Hx) in Hb.
    now destruct (word_before (prev_of None pre)).
  - intros (pre & ds & post & -> & Hlen & Hdig & Hpre & Htail).
    assert (Hne : ds <> []) by (destruct ds; [destruct Hlen; discriminate | discriminate]).
    destruct (prev_of_digits (prev_of None pre) Hne Hdig) as (d & Hlast & Hd).
    assert (HM : exists p' s',
               Matches true re_time_of_day (prev_of None pre) (ds ++ post) p' s').
    { change re_time_of_day
        with (WordB # Group (Quant digit 1 (Some 2)) # time_tail).
      assert (Hb : at_boundary (prev_of None pre) (ds ++ post) = true).
      { unfold at_boundary. rewrite Hpre.
        destruct ds as [|x ds']; [congruence|].
        simpl in Hdig. apply andb_true_iff in Hdig. destruct Hdig as [Hx _].
        simpl. now apply is_digit_word. }
      pose proof (Matches_digits true (prev_of None pre) ds post Hlen Hdig) as HD.
      rewrite Hlast in HD.
      destruct Htail as [Hw | (a & m & post' & -> & Ha & Hm & Hw)].
      - exists (Some d), post.
        eapply MSeq; [now constructor|].
        eapply MSeq; [constructor; exact HD|].
        now apply time_tail_plain.
      - exists (Some m), post'.
        eapply MSeq; [now constructor|].
        eapply MSeq; [constructor; exact HD|].
        now apply time_tail_ampm. }
    destruct HM as (p' & s' & HM).
    assert (Hrun : run true re_time_of_day accept (prev_of None pre) (ds ++ post) <> None).
    { apply (run_complete HM). discriminate. }
    apply exec_from_found in Hrun.
    destruct (exec_from true re_time_of_day None (pre ++ ds ++ post)); congruence.
Qed.

(* ================================================================== *)
(** * Running the handlers *)
(* ================================================================== *)

(** [M] is a monad, state by state, and [try_catch] lets a return through
    and hands a throw to the handler. *)
Lemma bind_ret_l {A B} (a : A) (k : A -> M B) st : bind (ret a) k st = k a st.
Proof. reflexivity. Qed.

Lemma bind_ret_r {A} (c : M A) st : bind c ret st = c st.
Proof. unfold bind, ret. destruct (c st) as [[a|e] st']; reflexivity. Qed.

Lemma bind_assoc {A B C} (c : M A) (f : A -> M B) (g : B -> M C) st :
  bind (bind c f) g st = bind c (fun a => bind (f a) g) st.
Proof. unfold bind. destruct (c st) as [[a|e] st']; reflexivity. Qed.

Lemma try_catch_ret {A} (a : A) (h : exn -> M A) st :
  try_catch (ret a) h st = (Ok a, st).
Proof. reflexivity. Qed.

Lemma try_catch_throw {A} (e : exn) (h : exn -> M A) st :
  try_catch (throw e) h st = h e st.
Proof. reflexivity. Qed.

Example sample_classification_gemini :
  Gemini.handlePrompt (sample_platform 0) (sample_prompt_request "Buy milk at 5pm")
    (sample_state [Reply (lit "Here you go: " ++ reply_full ++ lit " Anything else?");
                   Reply (lit "null")] [])
  = (Ok (mkResponse 200 (Data
       {| userId := id sample_user;
          Username := name sample_user;
          username := JUndefined;
          content := JString (lit "Buy milk at 5pm");
          summary := JString (lit "Buy milk");
          type := JString (lit "task");
          tasks := JArray [JString (lit "buy milk")];
          tags := JArray [];
          scheduledFor := JDate (Some 1715349600000%Z);
          mood := JUndefined;
          userInput := JUndefined |})),
     {| backend := [];
        sent := [Gemini.classify_prompt (lit "Buy milk at 5pm");
                 Gemini.date_prompt (sample_platform 0) (lit "Buy milk at 5pm")];
        docs := [{| userId := id sample_user;
                    Username := name sample_user;
                    username := JUndefined;
                    content := JString (lit "Buy milk at 5pm");
                    summary := JString (lit "Buy milk");
                    type := JString (lit "task");
                    tasks := JArray [JString (lit "buy milk")];
                    tags := JArray [];
                    scheduledFor := JDate (Some 1715349600000%Z);
                    mood := JUndefined;
                    userInput := JUndefined |}];
        errlog := [] |}).
Proof. vm_compute. reflexivity. Qed.

Example sample_date_explicit :
  fst (Gemini.extractDateFromInput (sample_platform 0) (lit "dentist on the 12th")
         (sample_state [Reply (lit " 2024-05-12 ")] []))
  = Ok (JDate (Some 1715472000000%Z)).
Proof. vm_compute. reflexivity. Qed.

Example sample_date_none :
  fst (Gemini.extractDateFromInput (sample_platform 0) (lit "just a thought")
         (sample_state [Reply (lit "NULL")] []))
  = Ok JNull.
Proof. vm_compute. reflexivity. Qed.

(** ** The parser on a text that opens with a brace *)

Lemma parse_members_object n :
  forall acc s v r, Json.parse_members n acc s = Some (v, r) -> is_object v = true.
Proof.
  induction n as [|n IH]; intros acc s v r H; simpl in H; [discriminate|].
  split_match H.
  - eapply IH; eassumption.
  - now inversion H.
Qed.

Lemma parse_brace_object t v :
  Json.parse (Ch.lbrace :: t) = Some v -> is_object v = true.
Proof.
  unfold Json.parse, Json.fuel_for. intros H.
  destruct (Json.parse_value (2 * length (Ch.lbrace :: t) + 2) (Ch.lbrace :: t))
    as [[v' r]|] eqn:E; [|discriminate].
  assert (v' = v) by (destruct (Json.skip_ws r); congruence). subst v'. clear H.
  replace (2 * length (Ch.lbrace :: t) + 2) with (S (2 * length t + 3)) in E
    by (cbn [length]; lia).
  cbn [Json.parse_value] in E.
  change (Json.skip_ws (Ch.lbrace :: t)) with (Ch.lbrace :: t) in E.
  change (Ch.lbrace =? Ch.lbrace)%N with true in E. cbv iota in E.
  split_match E.
  - now inversion E.
  - eapply parse_members_object; eassumption.
Qed.

Lemma parse_elements_array n :
  forall acc s v r, Json.parse_elements n acc s = Some (v, r) -> Array_isArray v = true.
Proof.
  induction n as [|n IH]; intros acc s v r H; simpl in H; [discriminate|].
  split_match H.
  - eapply IH; eassumption.
  - now inversion H.
Qed.

Lemma skip_ws_head s c r : Json.skip_ws s = c :: r -> In c s.
Proof.
  induction s as [|x s IH]; simpl; [discriminate|].
  destruct (Json.is_ws x); [right; now apply IH|].
  intros H; inversion H; now left.
Qed.

(** The text of an object holds an opening brace. *)
Lemma parse_object_has_brace s fields :
  Json.parse s = Some (JObject fields) -> In Ch.lbrace s.
Proof.
  unfold Json.parse. intros H.
  destruct (Json.parse_value (Json.fuel_for s) s) as [[v r]|] eqn:E; [|discriminate].
  assert (v = JObject fields) by (destruct (Json.skip_ws r); congruence). subst v.
  clear H. destruct (Json.fuel_for s) as [|n]; [discriminate|].
  cbn [Json.parse_value] in E.
  destruct (Json.skip_ws s) as [|c s1] eqn:Es; [discriminate|].
  apply skip_ws_head in Es.
  destruct (N.eqb_spec c Ch.lbrace) as [->|_]; [exact Es|].
  exfalso. split_match E; try (inversion E; fail).
  apply parse_elements_array in E. discriminate.
Qed.

Lemma gemini_parsed_object c v : gemini_parsed c = Some v -> is_object v = true.
Proof.
  unfold gemini_parsed. intros H.
  destruct (exec false re_json_span c) as [m|] eqn:E; [|discriminate].
  apply exec_json_span_inv in E. destruct E as (pre & m' & post & _ & ->).
  now apply parse_brace_object in H.
Qed.


Lemma extract_json_run c st :
  Gemini.extract_json c st =
  match gemini_parsed c with
  | Some v => (Ok v, st)
  | None =>
      (Throw (match exec false re_json_span c with
              | Some _ => SyntaxError
              | None => TypeError
              end), st)
  end.
Proof.
  unfold Gemini.extract_json, gemini_parsed, bind, index0, JSON_parse, ret, throw.
  destruct (exec false re_json_span c) as [m|]; [|reflexivity].
  destruct (Json.parse m); reflexivity.
Qed.

Lemma get_prop_run v k st :
  nullish v = false -> get_prop v k st = (Ok (prop_of v k), st).
Proof.
  unfold get_prop, prop_of, ret. destruct v; try discriminate; try reflexivity.
  intros _. destruct (lookup props (lit k)); reflexivity.
Qed.

Lemma get_prop_throw v k st :
  nullish v = true -> get_prop v k st = (Throw TypeError, st).
Proof. destruct v; try discriminate; reflexivity. Qed.

Lemma object_not_nullish v : is_object v = true -> nullish v = false.
Proof. destruct v; try discriminate; reflexivity. Qed.

Lemma invoke_run prompt st :
  invoke prompt st =
  (match head_reply st with
   | Reply c => Ok c
   | Unavailable => Throw ModelError
   end, after_call prompt st).
Proof.
  unfold invoke, head_reply, after_call.
  destruct (backend st) as [|[c|] rest]; reflexivity.
Qed.

(** ** The handlers in one piece *)

Lemma gemini_extractDate_run p text st :
  Gemini.extractDateFromInput p text st =
  match head_reply st with
  | Reply result =>
      (Ok (gemini_resolved p text result), after_call (Gemini.date_prompt p text) st)
  | Unavailable =>
      (Ok JNull, after_log "Date Extraction Error:" (after_call (Gemini.date_prompt p text) st))
  end.
Proof.
  unfold Gemini.extractDateFromInput, try_catch, bind. rewrite invoke_run.
  unfold gemini_resolved.
  destruct (head_reply st) as [result|]; [|reflexivity].
  destruct (if negb (is_null_token (trim result)) then Date_parse p (trim result) else None);
    reflexivity.
Qed.

Lemma gemini_handlePrompt_run p req st :
  errors_empty req = true ->
  ObjectId_isValid p (id (prompt_user req)) = true ->
  let input := sanitizeHtml p (body_input req) in
  let st1 := after_call (Gemini.classify_prompt input) st in
  Gemini.handlePrompt p req st =
  match head_reply st with
  | Unavailable => (Ok (failed "Failed to process prompt"), after_log "Gemini Error:" st1)
  | Reply c =>
      match gemini_parsed c with
      | None => (Ok (failed "Failed to process prompt"), after_log "Gemini Error:" st1)
      | Some parsed =>
          let (scheduled, st2) :=
            match head_reply st1 with
            | Reply result =>
                (gemini_resolved p input result, after_call (Gemini.date_prompt p input) st1)
            | Unavailable =>
                (JNull, after_log "Date Extraction Error:"
                          (after_call (Gemini.date_prompt p input) st1))
            end in
          let e := gemini_entry p req parsed scheduled in
          if store_accepts p e
          then (Ok (mkResponse 200 (Data e)), after_store e st2)
          else (Ok (failed "Failed to process prompt"), after_log "Gemini Error:" st2)
      end
  end.
Proof.
  intros Hv Hid input st1. unfold Gemini.handlePrompt. rewrite Hv, Hid. cbn [negb].
  fold input. unfold try_catch at 1. unfold bind at 1. rewrite invoke_run. fold st1.
  destruct (head_reply st) as [c|]; [|reflexivity].
  unfold bind at 1. rewrite extract_json_run.
  destruct (gemini_parsed c) as [parsed|] eqn:Ep; [|reflexivity].
  pose proof (object_not_nullish _ (gemini_parsed_object _ Ep)) as Hn.
  unfold bind at 1. rewrite gemini_extractDate_run.
  destruct (head_reply st1) as [result|];
    unfold bind; rewrite !(get_prop_run _ _ _ Hn); unfold Entry_create, gemini_entry;
    subst input;
    match goal with
    | |- context [store_accepts p ?e] => destruct (store_accepts p e)
    end; reflexivity.
Qed.

Lemma groq_callGroq_run prompt st :
  Groq.callGroq prompt st =
  (match head_reply st with
   | Reply c =>
       match Json.parse c with
       | Some v => Ok v
       | None => Throw SyntaxError
       end
   | Unavailable => Throw ModelError
   end, after_call prompt st).
Proof.
  unfold Groq.callGroq, bind. rewrite invoke_run.
  destruct (head_reply st) as [c|]; [|reflexivity].
  unfold JSON_parse. destruct (Json.parse c); reflexivity.
Qed.

Lemma groq_handlePrompt_run p req st :
  errors_empty req = true ->
  ObjectId_isValid p (id (prompt_user req)) = true ->
  let input := sanitizeHtml p (body_input req) in
  let st1 := after_call (Groq.classify_prompt input) st in
  Groq.handlePrompt p req st =
  match head_reply st with
  | Unavailable => (Ok (failed "Failed to process prompt"), after_log "Groq Error:" st1)
  | Reply c =>
      match Json.parse c with
      | None => (Ok (failed "Failed to process prompt"), after_log "Groq Error:" st1)
      | Some parsed =>
          if nullish parsed
          then (Ok (failed "Failed to process prompt"), after_log "Groq Error:" st1)
          else
            let e := groq_entry p req parsed (Groq.extractDate p input) in
            if store_accepts p e
            then (Ok (mkResponse 200 (Data e)), after_store e st1)
            else (Ok (failed "Failed to process prompt"), after_log "Groq Error:" st1)
      end
  end.
Proof.
  intros Hv Hid input st1. unfold Groq.handlePrompt. rewrite Hv, Hid. cbn [negb].
  fold input. unfold try_catch at 1. unfold bind at 1. rewrite groq_callGroq_run. fold st1.
  destruct (head_reply st) as [c|]; [|reflexivity].
  destruct (Json.parse c) as [parsed|]; [|reflexivity].
  destruct (nullish parsed) eqn:Hn.
  - unfold bind. rewrite (get_prop_throw _ _ _ Hn). reflexivity.
  - unfold bind. rewrite !(get_prop_run _ _ _ Hn). unfold Entry_create, groq_entry.
    subst input.
    match goal with
    | |- context [store_accepts p ?e] => destruct (store_accepts p e)
    end; reflexivity.
Qed.

Lemma gemini_diary_run p req st :
  truthy p (id (diary_user req)) = true ->
  truthy p (diary_date req) = true ->
  let st1 := after_call (gemini_diary_prompt p req st) st in
  Gemini.generateDiaryEntry p req st =
  match head_reply st with
  | Unavailable =>
      (Ok (failed "Failed to generate diary entry"), after_log "Diary Generation Error:" st1)
  | Reply c =>
      match gemini_parsed c with
      | None =>
          (Ok (failed "Failed to generate diary entry"),
           after_log "Diary Generation Error:" st1)
      | Some parsed =>
          let e := diary_entry p req parsed in
          if store_accepts p e
          then (Ok (mkResponse 200 (Diary (prop_of parsed "diaryText") e)), after_store e st1)
          else (Ok (failed "Failed to generate diary entry"),
                after_log "Diary Generation Error:" st1)
      end
  end.
Proof.
  intros Hu Hd st1. unfold Gemini.generateDiaryEntry. rewrite Hu, Hd. cbn [negb].
  unfold try_catch at 1. unfold Gemini.day_bucket at 1. unfold bind at 1.
  unfold Entry_find at 1.
  unfold bind at 1. rewrite invoke_run.
  change (after_call _ st) with st1.
  destruct (head_reply st) as [c|]; [|reflexivity].
  unfold bind at 1. rewrite extract_json_run.
  destruct (gemini_parsed c) as [parsed|] eqn:Ep; [|reflexivity].
  pose proof (object_not_nullish _ (gemini_parsed_object _ Ep)) as Hn.
  unfold bind. rewrite !(get_prop_run _ _ _ Hn). unfold Entry_create, diary_entry.
  match goal with
  | |- context [store_accepts p ?e] => destruct (store_accepts p e)
  end; reflexivity.
Qed.

Lemma groq_diary_run p req st :
  truthy p (id (diary_user req)) = true ->
  truthy p (diary_date req) = true ->
  let st1 := after_call (groq_diary_prompt p req st) st in
  Groq.generateDiaryEntry p req st =
  match head_reply st with
  | Unavailable =>
      (Ok (failed "Failed to generate diary entry"), after_log "Diary Generation Error:" st1)
  | Reply c =>
      match Json.parse c with
      | None =>
          (Ok (failed "Failed to generate diary entry"),
           after_log "Diary Generation Error:" st1)
      | Some parsed =>
          if nullish parsed
          then (Ok (failed "Failed to generate diary entry"),
                after_log "Diary Generation Error:" st1)
          else
            let e := diary_entry p req parsed in
            if store_accepts p e
            then (Ok (mkResponse 200 (Diary (prop_of parsed "diaryText") e)),
                  after_store e st1)
            else (Ok (failed "Failed to generate diary entry"),
                  after_log "Diary Generation Error:" st1)
      end
  end.
Proof.
  intros Hu Hd st1. unfold Groq.generateDiaryEntry. rewrite Hu, Hd. cbn [negb].
  unfold try_catch at 1. unfold Groq.day_bucket at 1. unfold bind at 1.
  unfold Entry_find at 1.
  unfold bind at 1. rewrite groq_callGroq_run.
  change (after_call _ st) with st1.
  destruct (head_reply st) as [c|]; [|reflexivity].
  destruct (Json.parse c) as [parsed|]; [|reflexivity].
  destruct (nullish parsed) eqn:Hn.
  - unfold bind. rewrite (get_prop_throw _ _ _ Hn). reflexivity.
  - unfold bind. rewrite !(get_prop_run _ _ _ Hn). unfold Entry_create, diary_entry.
    match goal with
    | |- context [store_accepts p ?e] => destruct (store_accepts p e)
    end; reflexivity.
Qed.

(* ================================================================== *)
(** * Extraction of the structured reply *)
(* ================================================================== *)

Ltac not_in :=
  let H := fresh in
  intros H; simpl in H;
  repeat (destruct H as [H|H]; [discriminate H|]); exact H.

(** C1, as the claim states it, fails: the reply
    [Done: {"type":"task","summary":"Buy milk","tasks":["buy milk"]} :-}]
    holds one JSON object in prose, and [Gemini.extract_json] throws on it,
    because the span runs to the last closing brace; [Groq.callGroq] throws
    as soon as any prose surrounds the object. *)
Lemma extraction_loses_object_in_prose :
  Json.parse reply_full = Some (JObject reply_full_fields)
  /\ fst (Gemini.extract_json (lit "Done: " ++ reply_full ++ lit " :-}")
            (sample_state [] []))
     = Throw SyntaxError
  /\ fst (Groq.callGroq (Groq.classify_prompt (lit "Buy milk"))
            (sample_state [Reply (lit "Done: " ++ reply_full)] []))
     = Throw SyntaxError.
Proof. vm_compute. repeat split; reflexivity. Qed.

(** C1 (amended).  Let a reply hold the text of a JSON object, from its
    opening brace to its closing brace, between a prefix and a suffix.
    [Gemini.extract_json], which both Gemini handlers run, returns exactly
    that object when the prefix has no opening brace and the suffix no
    closing brace.  [Groq.callGroq], which both Groq handlers run, parses the
    whole reply and returns exactly that object when prefix and suffix are
    JSON white space. *)
Theorem extraction_recovers_embedded_object :
  forall pre mid post fields st,
    Json.parse ([Ch.lbrace] ++ mid ++ [Ch.rbrace]) = Some (JObject fields) ->
    (~ In Ch.lbrace pre -> ~ In Ch.rbrace post ->
     Gemini.extract_json (pre ++ ([Ch.lbrace] ++ mid ++ [Ch.rbrace]) ++ post) st
     = (Ok (JObject fields), st))
    /\ (all_ws pre = true -> all_ws post = true ->
        forall prompt,
          head_reply st = Reply (pre ++ ([Ch.lbrace] ++ mid ++ [Ch.rbrace]) ++ post) ->
          fst (Groq.callGroq prompt st) = Ok (JObject fields)).
Proof.
  intros pre mid post fields st Hobj. split.
  - intros Hpre Hpost. rewrite extract_json_run. unfold gemini_parsed.
    replace (pre ++ ([Ch.lbrace] ++ mid ++ [Ch.rbrace]) ++ post)
      with (pre ++ [Ch.lbrace] ++ mid ++ [Ch.rbrace] ++ post)
      by (now rewrite <- !app_assoc).
    rewrite (@exec_json_span pre mid post Hpre Hpost). now rewrite Hobj.
  - intros Hpre Hpost prompt Hreply. rewrite groq_callGroq_run, Hreply.
    cbn [fst]. now rewrite (@parse_padded pre _ post _ Hpre Hpost Hobj).
Qed.

Lemma extraction_recovers_embedded_object_witness :
  Json.parse ([Ch.lbrace] ++ reply_full_inner ++ [Ch.rbrace])
  = Some (JObject reply_full_fields)
  /\ Gemini.extract_json
       (lit "Here you go: " ++ ([Ch.lbrace] ++ reply_full_inner ++ [Ch.rbrace])
        ++ lit " Anything else?")
       (sample_state [] [])
     = (Ok (JObject reply_full_fields), sample_state [] []).
Proof.
  assert (H : Json.parse ([Ch.lbrace] ++ reply_full_inner ++ [Ch.rbrace])
              = Some (JObject reply_full_fields))
    by (vm_compute; reflexivity).
  split; [exact H|].
  apply (proj1 (@extraction_recovers_embedded_object
                  (lit "Here you go: ") reply_full_inner (lit " Anything else?")
                  reply_full_fields (sample_state [] []) H)); not_in.
Defined.

(** C6.  When no piece of the reply is the text of a JSON object, the
    extraction of [Gemini.handlePrompt] throws, the handler catches it, and
    the caller gets the failure response: the handler returns, it does not
    throw. *)
Theorem no_object_is_a_handled_failure :
  forall p req st c,
    errors_empty req = true ->
    ObjectId_isValid p (id (prompt_user req)) = true ->
    head_reply st = Reply c ->
    (forall pre obj post fields,
        c = pre ++ obj ++ post -> Json.parse obj <> Some (JObject fields)) ->
    (exists e, forall st0, Gemini.extract_json c st0 = (Throw e, st0))
    /\ exists st',
        Gemini.handlePrompt p req st = (Ok (failed "Failed to process prompt"), st')
        /\ docs st' = docs st.
Proof.
  intros p req st c Hv Hid Hreply Hno.
  assert (Hp : gemini_parsed c = None).
  { destruct (gemini_parsed c) as [v|] eqn:E; [|reflexivity]. exfalso.
    pose proof (gemini_parsed_object _ E) as Hobj.
    unfold gemini_parsed in E.
    destruct (exec false re_json_span c) as [m|] eqn:Em; [|discriminate].
    apply exec_json_span_inv in Em. destruct Em as (pre & m' & post & Hc & _).
    destruct v; try discriminate. exact (Hno _ _ _ _ Hc E). }
  split.
  - eexists. intros st0. rewrite extract_json_run, Hp. reflexivity.
  - rewrite (gemini_handlePrompt_run p req st Hv Hid), Hreply, Hp.
    eexists. split; reflexivity.
Qed.

Lemma no_object_is_a_handled_failure_witness :
  errors_empty (sample_prompt_request "Buy milk") = true
  /\ exists st',
      Gemini.handlePrompt (sample_platform 0) (sample_prompt_request "Buy milk")
        (sample_state [Reply (lit "I cannot help with that.")] [])
      = (Ok (failed "Failed to process prompt"), st')
      /\ docs st' = [].
Proof.
  split; [reflexivity|].
  refine (proj2 (@no_object_is_a_handled_failure
                   (sample_platform 0) (sample_prompt_request "Buy milk")
                   (sample_state [Reply (lit "I cannot help with that.")] [])
                   (lit "I cannot help with that.") eq_refl eq_refl eq_refl _)).
  intros pre obj post fields Hc Hobj.
  assert (Hin : In Ch.lbrace (lit "I cannot help with that.")).
  { rewrite Hc. apply in_or_app. right. apply in_or_app. left.
    exact (parse_object_has_brace _ Hobj). }
  revert Hin. not_in.
Defined.

(* ================================================================== *)
(** * Failure of a classification call *)
(* ================================================================== *)

(** C5, as the claim states it, fails on the Groq path: the reply [42] holds
    no JSON object (it has no brace, and [Gemini.extract_json] throws on
    it), yet [Groq.handlePrompt] parses it, reads the three fields as
    [undefined] and stores an Entry made of the defaults. *)
Lemma groq_persists_without_an_object :
  ~ In Ch.lbrace (lit "42")
  /\ fst (Gemini.extract_json (lit "42") (sample_state [] [])) = Throw TypeError
  /\ exists e st',
       Groq.handlePrompt (sample_platform 0) (sample_prompt_request "Buy milk")
         (sample_state [Reply (lit "42")] [])
       = (Ok (mkResponse 200 (Data e)), st')
       /\ docs st' = [e]
       /\ type e = JString (lit "note").
Proof.
  split; [not_in|]. split; [vm_compute; reflexivity|].
  eexists. eexists. vm_compute. repeat split; reflexivity.
Qed.

(** C5 (amended).  A classification call answers with the processing
    failure and leaves the collection as it was whenever the provider is
    unavailable or the handler's own extraction step fails: for
    [Gemini.handlePrompt], the reply has no brace-delimited span that
    parses as JSON; for [Groq.handlePrompt], the whole reply does not parse
    as JSON, or parses to [null]. *)
Theorem failed_classification_stores_nothing :
  forall p req st,
    errors_empty req = true ->
    ObjectId_isValid p (id (prompt_user req)) = true ->
    ((head_reply st = Unavailable
      \/ exists c, head_reply st = Reply c /\ gemini_parsed c = None) ->
     exists st',
       Gemini.handlePrompt p req st = (Ok (failed "Failed to process prompt"), st')
       /\ docs st' = docs st)
    /\ ((head_reply st = Unavailable
         \/ exists c, head_reply st = Reply c
                      /\ (Json.parse c = None \/ Json.parse c = Some JNull)) ->
        exists st',
          Groq.handlePrompt p req st = (Ok (failed "Failed to process prompt"), st')
          /\ docs st' = docs st).
Proof.
  intros p req st Hv Hid. split.
  - rewrite (gemini_handlePrompt_run p req st Hv Hid).
    intros [-> | (c & -> & ->)]; eexists; split; reflexivity.
  - rewrite (groq_handlePrompt_run p req st Hv Hid).
    intros [-> | (c & -> & [-> | ->])]; eexists; split; reflexivity.
Qed.

Lemma failed_classification_stores_nothing_witness :
  errors_empty (sample_prompt_request "Buy milk") = true
  /\ (exists st',
        Gemini.handlePrompt (sample_platform 0) (sample_prompt_request "Buy milk")
          (sample_state [Unavailable] [entry_at_14h (sample_platform 0)])
        = (Ok (failed "Failed to process prompt"), st')
        /\ docs st' = [entry_at_14h (sample_platform 0)])
  /\ (exists st',
        Groq.handlePrompt (sample_platform 0) (sample_prompt_request "Buy milk")
          (sample_state [Reply (lit "{ not json")] [entry_at_14h (sample_platform 0)])
        = (Ok (failed "Failed to process prompt"), st')
        /\ docs st' = [entry_at_14h (sample_platform 0)]).
Proof.
  split; [reflexivity|]. split.
  - apply (proj1 (@failed_classification_stores_nothing
                    (sample_platform 0) (sample_prompt_request "Buy milk")
                    (sample_state [Unavailable] [entry_at_14h (sample_platform 0)])
                    eq_refl eq_refl)).
    left. reflexivity.
  - apply (proj2 (@failed_classification_stores_nothing
                    (sample_platform 0) (sample_prompt_request "Buy milk")
                    (sample_state [Reply (lit "{ not json")]
                                  [entry_at_14h (sample_platform 0)])
                    eq_refl eq_refl)).
    right. exists (lit "{ not json"). split; [reflexivity|].
    left. vm_compute. reflexivity.
Defined.



(* ================================================================== *)
(** * Defaults of the classification fields *)
(* ================================================================== *)

(** C2, where the code departs from it.  On the reply
    [{"type":"task","tasks":["buy milk"]}], which has no summary,
    [Gemini.handlePrompt] stores the Entry with [summary] left [undefined];
    [Groq.handlePrompt], on the same reply, stores the empty string. *)
Lemma gemini_summary_has_no_default :
  (exists e st',
      Gemini.handlePrompt (sample_platform 0) (sample_prompt_request "Buy milk")
        (sample_state [Reply reply_without_summary; Reply (lit "null")] [])
      = (Ok (mkResponse 200 (Data e)), st')
      /\ docs st' = [e]
      /\ summary e = JUndefined
      /\ type e = JString (lit "task")
      /\ tasks e = JArray [JString (lit "buy milk")])
  /\ (exists e st',
         Groq.handlePrompt (sample_platform 0) (sample_prompt_request "Buy milk")
           (sample_state [Reply reply_without_summary] [])
         = (Ok (mkResponse 200 (Data e)), st')
         /\ docs st' = [e]
         /\ summary e = JString []).
Proof.
  split; eexists; eexists; vm_compute; repeat split; reflexivity.
Qed.

(** The defaults that are applied: in the document of either handler, a
    falsy [type] becomes ["note"] and [tasks] that is not an array becomes
    the empty array; in the document of the Groq handler a falsy [summary]
    becomes the empty string. *)
Lemma entry_defaults p req parsed scheduled :
  (truthy p (prop_of parsed "type") = false ->
   type (gemini_entry p req parsed scheduled) = JString (lit "note")
   /\ type (groq_entry p req parsed scheduled) = JString (lit "note"))
  /\ (Array_isArray (prop_of parsed "tasks") = false ->
      tasks (gemini_entry p req parsed scheduled) = JArray []
      /\ tasks (groq_entry p req parsed scheduled) = JArray [])
  /\ (truthy p (prop_of parsed "summary") = false ->
      summary (groq_entry p req parsed scheduled) = JString []).
Proof.
  unfold gemini_entry, groq_entry, or_else. cbn [type tasks summary].
  split; [|split]; intros H; rewrite H; try split; reflexivity.
Qed.

(** A field that is present and well-formed is stored as it is. *)
Lemma entry_keeps_fields p req parsed scheduled :
  (truthy p (prop_of parsed "type") = true ->
   type (gemini_entry p req parsed scheduled) = prop_of parsed "type"
   /\ type (groq_entry p req parsed scheduled) = prop_of parsed "type")
  /\ (Array_isArray (prop_of parsed "tasks") = true ->
      tasks (gemini_entry p req parsed scheduled) = prop_of parsed "tasks"
      /\ tasks (groq_entry p req parsed scheduled) = prop_of parsed "tasks")
  /\ (truthy p (prop_of parsed "summary") = true ->
      summary (groq_entry p req parsed scheduled) = prop_of parsed "summary")
  /\ summary (gemini_entry p req parsed scheduled) = prop_of parsed "summary".
Proof.
  unfold gemini_entry, groq_entry, or_else. cbn [type tasks summary].
  split; [|split; [|split]]; try reflexivity;
    intros H; rewrite H; try split; reflexivity.
Qed.

(* ================================================================== *)
(** * The fallback heuristic of the date resolver *)
(* ================================================================== *)

(** C3, as the claim states it, fails: the text [version 0] holds no hour
    from 1 to 12, and the resolver, once at the fallback, answers with the
    current moment, because the expression takes any one or two digits. *)
Lemma fallback_fires_without_an_hour :
  spec_contains_time (lit "version 0") = false
  /\ fst (Gemini.extractDateFromInput (sample_platform 0) (lit "version 0")
            (sample_state [Reply (lit "null")] []))
     = Ok (JDate (Some (now (sample_platform 0)))).
Proof. vm_compute. split; reflexivity. Qed.

(** C3 (amended).  When the reply to the date prompt is [null] or no valid
    date, so that [Gemini.extractDateFromInput] reaches its fallback, it
    returns the current moment if and only if the text holds a
    [time_token]: one or two decimal digits that no word character
    precedes, followed by no word character, or by [am] or [pm] in any case
    and then no word character.  For every other text it returns [null]. *)
Theorem fallback_heuristic :
  forall p text result st,
    head_reply st = Reply result ->
    is_null_token (trim result) = true \/ Date_parse p (trim result) = None ->
    (time_token text ->
     fst (Gemini.extractDateFromInput p text st) = Ok (JDate (Some (now p))))
    /\ (~ time_token text ->
        fst (Gemini.extractDateFromInput p text st) = Ok JNull).
Proof.
  intros p text result st Hreply Hfall.
  rewrite gemini_extractDate_run, Hreply. cbn [fst]. unfold gemini_resolved.
  assert (E : (if negb (is_null_token (trim result))
               then Date_parse p (trim result) else None) = None).
  { destruct Hfall as [-> | ->]; [reflexivity|].
    now destruct (negb (is_null_token (trim result))). }
  rewrite E. split; intros H.
  - apply test_time_of_day in H. now rewrite H.
  - destruct (test true re_time_of_day text) eqn:T; [|reflexivity].
    apply test_time_of_day in T. contradiction.
Qed.

Lemma fallback_heuristic_witness :
  (is_null_token (trim (lit " null ")) = true
   \/ Date_parse (sample_platform 0) (trim (lit " null ")) = None)
  /\ fst (Gemini.extractDateFromInput (sample_platform 0) (lit "meet at 3pm")
            (sample_state [Reply (lit " null ")] []))
     = Ok (JDate (Some (now (sample_platform 0)))).
Proof.
  assert (H : is_null_token (trim (lit " null ")) = true
              \/ Date_parse (sample_platform 0) (trim (lit " null ")) = None)
    by (left; reflexivity).
  split; [exact H|].
  apply (proj1 (@fallback_heuristic (sample_platform 0) (lit "meet at 3pm") (lit " null ")
                  (sample_state [Reply (lit " null ")] []) eq_refl H)).
  apply test_time_of_day. vm_compute. reflexivity.
Defined.

(** The texts of the specification's examples. *)
Example time_token_examples :
  time_token (lit "meet at 3pm")
  /\ time_token (lit "call 12:30 PM sharp")
  /\ time_token (lit "take 45 units")
  /\ ~ time_token (lit "just a thought")
  /\ ~ time_token (lit "room 123")
  /\ ~ time_token (lit "at 3pmx").
Proof.
  repeat split;
    try (apply test_time_of_day; vm_compute; reflexivity);
    intros H; apply test_time_of_day in H; vm_compute in H; discriminate.
Qed.

(* ================================================================== *)
(** * The two providers side by side *)
(* ================================================================== *)


(** The user's name is kept under the key [Username] by line 63 alone; the
    other three places that build a document (lines 182, 314 and 433) keep
    it under [username].  The comparison of the two handlers below leaves
    that key out. *)
Example name_key_of_line_63 :
  exists e1 st1 e2 st2,
    Gemini.handlePrompt (sample_platform 0) (sample_prompt_request "Buy milk")
      (sample_state [Reply reply_full; Reply (lit "null")] [])
    = (Ok (mkResponse 200 (Data e1)), st1)
    /\ Groq.handlePrompt (sample_platform 0) (sample_prompt_request "Buy milk")
         (sample_state [Reply reply_full; Reply (lit "null")] [])
       = (Ok (mkResponse 200 (Data e2)), st2)
    /\ Username e1 = JString (lit "Asha") /\ username e1 = JUndefined
    /\ Username e2 = JUndefined /\ username e2 = JString (lit "Asha").
Proof. do 4 eexists. vm_compute. repeat split; reflexivity. Qed.




(* ================================================================== *)
(** * The day bucket *)
(* ================================================================== *)

Lemma day_bucket_same p date : Groq.day_bucket p date = Gemini.day_bucket p date.
Proof.
  unfold Groq.day_bucket, Gemini.day_bucket.
  destruct (new_Date p date) as [t|]; [|reflexivity].
  unfold setHours. f_equal. f_equal.
  change JsDate.ms_per_day with 86400000%Z. change JsDate.ms_per_minute with 60000%Z.
  set (o := (tz_offset p * 60000)%Z).
  replace (((t + o) / 86400000 * 86400000 + (((0 * 60 + 0) * 60 + 0) * 1000 + 0) - o + o)
             / 86400000)%Z
    with ((t + o) / 86400000)%Z; [reflexivity|].
  replace ((t + o) / 86400000 * 86400000 + (((0 * 60 + 0) * 60 + 0) * 1000 + 0) - o + o)%Z
    with ((t + o) / 86400000 * 86400000)%Z by lia.
  now rewrite Z.div_mul.
Qed.

Lemma iso_date_parse p s day :
  JsDate.iso_date s = Some day ->
  Date_parse p s = Some (day * JsDate.ms_per_day)%Z.
Proof.
  intros H. unfold Date_parse, JsDate.iso_parse.
  assert (L : length s = 10).
  { unfold JsDate.iso_date in H.
    do 10 (destruct s as [|? s]; [discriminate|]).
    destruct s; [reflexivity | discriminate]. }
  rewrite firstn_all2 by lia. rewrite H.
  rewrite skipn_all2 by lia. reflexivity.
Qed.

(** A date given as [YYYY-MM-DD] is read as UTC midnight and then moved to
    the local midnight before it.  On a host at UTC or east of it that is
    the midnight of the day asked for, and the bucket is that local day; on
    a host west of UTC it is the midnight of the day before. *)
Lemma day_bucket_of_iso_date p s day t :
  JsDate.iso_date s = Some day ->
  (-1440 < tz_offset p < 1440)%Z ->
  in_range (fst (Gemini.day_bucket p (JString s))) (snd (Gemini.day_bucket p (JString s)))
           (JDate (Some t)) = true
  <-> local_day p t = (if (tz_offset p <? 0)%Z then day - 1 else day)%Z.
Proof.
  intros Hs Hoff. unfold Gemini.day_bucket, new_Date. rewrite (iso_date_parse p _ Hs).
  unfold setHours, local_day. cbn [fst snd in_range].
  change JsDate.ms_per_day with 86400000%Z. change JsDate.ms_per_minute with 60000%Z.
  set (o := (tz_offset p * 60000)%Z).
  set (D := (if (tz_offset p <? 0)%Z then day - 1 else day)%Z).
  assert (HD : ((day * 86400000 + o) / 86400000 = D)%Z).
  { subst D o. destruct (Z.ltb_spec (tz_offset p) 0).
    - symmetry. apply Z.div_unique with (r := (86400000 + tz_offset p * 60000)%Z); lia.
    - symmetry. apply Z.div_unique with (r := (tz_offset p * 60000)%Z); lia. }
  rewrite HD.
  replace ((D * 86400000 + (((0 * 60 + 0) * 60 + 0) * 1000 + 0) - o + o) / 86400000)%Z
    with D
    by (replace (D * 86400000 + (((0 * 60 + 0) * 60 + 0) * 1000 + 0) - o + o)%Z
          with (D * 86400000)%Z by lia; now rewrite Z.div_mul).
  rewrite andb_true_iff, !Z.leb_le.
  pose proof (Z.div_mod (t + o) 86400000 ltac:(lia)) as Hdm.
  pose proof (Z.mod_pos_bound (t + o) 86400000 ltac:(lia)) as Hmb.
  split.
  - intros [Hlo Hhi]. symmetry.
    apply Z.div_unique with (r := (t + o - D * 86400000)%Z); lia.
  - intros <-. lia.
Qed.

(** C8, where the code departs from it.  On a host five hours west of UTC,
    the Entry scheduled for 2024-05-10T14:00:00 is not returned for the date
    [2024-05-10], and is returned for [2024-05-11]; both revisions of the
    handler do the same. *)
Lemma day_bucket_is_a_day_early_west_of_utc :
  Gemini.getEntriesByDate (sample_platform (-300)) (sample_date_request "2024-05-10")
    (sample_state [] [entry_at_14h (sample_platform (-300))])
  = (Ok (mkResponse 200 (DataList [])),
     sample_state [] [entry_at_14h (sample_platform (-300))])
  /\ Gemini.getEntriesByDate (sample_platform (-300)) (sample_date_request "2024-05-11")
       (sample_state [] [entry_at_14h (sample_platform (-300))])
     = (Ok (mkResponse 200 (DataList [entry_at_14h (sample_platform (-300))])),
        sample_state [] [entry_at_14h (sample_platform (-300))])
  /\ Groq.getEntriesByDate (sample_platform (-300)) (sample_date_request "2024-05-10")
       (sample_state [] [entry_at_14h (sample_platform (-300))])
     = (Ok (mkResponse 200 (DataList [])),
        sample_state [] [entry_at_14h (sample_platform (-300))])
  /\ Groq.getEntriesByDate (sample_platform (-300)) (sample_date_request "2024-05-11")
       (sample_state [] [entry_at_14h (sample_platform (-300))])
     = (Ok (mkResponse 200 (DataList [entry_at_14h (sample_platform (-300))])),
        sample_state [] [entry_at_14h (sample_platform (-300))]).
Proof. vm_compute. repeat split; reflexivity. Qed.

(** On a host at UTC the same Entry is returned for [2024-05-10], and not
    for the days around it. *)
Example day_bucket_at_utc :
  Gemini.getEntriesByDate (sample_platform 0) (sample_date_request "2024-05-10")
    (sample_state [] [entry_at_14h (sample_platform 0)])
  = (Ok (mkResponse 200 (DataList [entry_at_14h (sample_platform 0)])),
     sample_state [] [entry_at_14h (sample_platform 0)])
  /\ Gemini.getEntriesByDate (sample_platform 0) (sample_date_request "2024-05-09")
       (sample_state [] [entry_at_14h (sample_platform 0)])
     = (Ok (mkResponse 200 (DataList [])),
        sample_state [] [entry_at_14h (sample_platform 0)])
  /\ Gemini.getEntriesByDate (sample_platform 0) (sample_date_request "2024-05-11")
       (sample_state [] [entry_at_14h (sample_platform 0)])
     = (Ok (mkResponse 200 (DataList [])),
        sample_state [] [entry_at_14h (sample_platform 0)]).
Proof. vm_compute. repeat split; reflexivity. Qed.

(* ================================================================== *)
(** * Diary synthesis *)
(* ================================================================== *)

(** A diary synthesis answers with success only after it parsed the reply
    and stored the document made from it. *)
Lemma gemini_diary_success_inv p req st diaryText saved st' :
  Gemini.generateDiaryEntry p req st
  = (Ok (mkResponse 200 (Diary diaryText saved)), st') ->
  exists c parsed,
    head_reply st = Reply c /\ gemini_parsed c = Some parsed
    /\ saved = diary_entry p req parsed
    /\ diaryText = prop_of parsed "diaryText"
    /\ st' = after_store saved (after_call (gemini_diary_prompt p req st) st).
Proof.
  intros H.
  destruct (truthy p (id (diary_user req))) eqn:Hu;
    [|unfold Gemini.generateDiaryEntry in H; rewrite Hu in H; discriminate H].
  destruct (truthy p (diary_date req)) eqn:Hd;
    [|unfold Gemini.generateDiaryEntry in H; rewrite Hu, Hd in H; discriminate H].
  rewrite (gemini_diary_run p req st Hu Hd) in H. cbv zeta in H.
  destruct (head_reply st) as [c|] eqn:Hr; [|discriminate H].
  destruct (gemini_parsed c) as [parsed|] eqn:Ep; [|discriminate H].
  destruct (store_accepts p (diary_entry p req parsed)); [|discriminate H].
  inversion H; subst. exists c, parsed. repeat split; auto.
Qed.

Lemma groq_diary_success_inv p req st diaryText saved st' :
  Groq.generateDiaryEntry p req st
  = (Ok (mkResponse 200 (Diary diaryText saved)), st') ->
  exists c parsed,
    head_reply st = Reply c /\ Json.parse c = Some parsed
    /\ saved = diary_entry p req parsed
    /\ diaryText = prop_of parsed "diaryText"
    /\ st' = after_store saved (after_call (groq_diary_prompt p req st) st).
Proof.
  intros H.
  destruct (truthy p (id (diary_user req))) eqn:Hu;
    [|unfold Groq.generateDiaryEntry in H; rewrite Hu in H; discriminate H].
  destruct (truthy p (diary_date req)) eqn:Hd;
    [|unfold Groq.generateDiaryEntry in H; rewrite Hu, Hd in H; discriminate H].
  rewrite (groq_diary_run p req st Hu Hd) in H. cbv zeta in H.
  destruct (head_reply st) as [c|] eqn:Hr; [|discriminate H].
  destruct (Json.parse c) as [parsed|] eqn:Ep; [|discriminate H].
  destruct (nullish parsed); [discriminate H|].
  destruct (store_accepts p (diary_entry p req parsed)); [|discriminate H].
  inversion H; subst. exists c, parsed. repeat split; auto.
Qed.

Lemma diary_entry_is_record p req parsed :
  is_diary_record p req parsed (prop_of parsed "diaryText") (diary_entry p req parsed).
Proof. unfold is_diary_record, diary_entry. cbn. repeat split. Qed.

(** C9.  A diary synthesis that is asked by a signed-in user for a date,
    gets a reply its provider's extraction reads a value from, and finds the
    store willing, succeeds under either provider: it answers 200 with the
    narrative text and the stored record, and that record is the one
    document added to the collection.  And whenever a synthesis succeeds,
    the record has type ["diary"], the narrative as content and as summary,
    the tags ["auto-generated"] and ["diary"], the date asked for, the mood
    of the reply and the extra text of the request. *)
Theorem diary_synthesis_record :
  forall p req st,
    (forall c parsed,
        truthy p (id (diary_user req)) = true ->
        truthy p (diary_date req) = true ->
        head_reply st = Reply c ->
        gemini_parsed c = Some parsed ->
        store_accepts p (diary_entry p req parsed) = true ->
        exists diaryText saved st',
          Gemini.generateDiaryEntry p req st
          = (Ok (mkResponse 200 (Diary diaryText saved)), st')
          /\ is_diary_record p req parsed diaryText saved
          /\ docs st' = docs st ++ [saved])
    /\ (forall c parsed,
           truthy p (id (diary_user req)) = true ->
           truthy p (diary_date req) = true ->
           head_reply st = Reply c ->
           Json.parse c = Some parsed ->
           nullish parsed = false ->
           store_accepts p (diary_entry p req parsed) = true ->
           exists diaryText saved st',
             Groq.generateDiaryEntry p req st
             = (Ok (mkResponse 200 (Diary diaryText saved)), st')
             /\ is_diary_record p req parsed diaryText saved
             /\ docs st' = docs st ++ [saved])
    /\ (forall diaryText saved st',
           Gemini.generateDiaryEntry p req st
           = (Ok (mkResponse 200 (Diary diaryText saved)), st') ->
           exists c parsed,
             head_reply st = Reply c /\ gemini_parsed c = Some parsed
             /\ is_diary_record p req parsed diaryText saved
             /\ docs st' = docs st ++ [saved])
    /\ (forall diaryText saved st',
           Groq.generateDiaryEntry p req st
           = (Ok (mkResponse 200 (Diary diaryText saved)), st') ->
           exists c parsed,
             head_reply st = Reply c /\ Json.parse c = Some parsed
             /\ is_diary_record p req parsed diaryText saved
             /\ docs st' = docs st ++ [saved]).
Proof.
  intros p req st. split; [|split; [|split]].
  - intros c parsed Hu Hd Hr Hp Hs.
    rewrite (gemini_diary_run p req st Hu Hd). cbv zeta. rewrite Hr, Hp, Hs.
    do 3 eexists. split; [reflexivity|].
    split; [apply diary_entry_is_record | reflexivity].
  - intros c parsed Hu Hd Hr Hp Hn Hs.
    rewrite (groq_diary_run p req st Hu Hd). cbv zeta. rewrite Hr, Hp, Hn, Hs.
    do 3 eexists. split; [reflexivity|].
    split; [apply diary_entry_is_record | reflexivity].
  - intros diaryText saved st' H.
    apply gemini_diary_success_inv in H.
    destruct H as (c & parsed & Hr & Hp & -> & -> & ->).
    exists c, parsed. split; [exact Hr|]. split; [exact Hp|].
    split; [apply diary_entry_is_record | reflexivity].
  - intros diaryText saved st' H.
    apply groq_diary_success_inv in H.
    destruct H as (c & parsed & Hr & Hp & -> & -> & ->).
    exists c, parsed. split; [exact Hr|]. split; [exact Hp|].
    split; [apply diary_entry_is_record | reflexivity].
Qed.

Example sample_diary_run :
  Gemini.generateDiaryEntry (sample_platform 0)
    (sample_diary_request "2024-05-10" (JString (lit "Felt good.")))
    (sample_state [Reply reply_diary] [entry_at_14h (sample_platform 0)])
  = (Ok (mkResponse 200
           (Diary (JString (lit "A calm day."))
                  (diary_entry (sample_platform 0)
                     (sample_diary_request "2024-05-10" (JString (lit "Felt good.")))
                     (JObject [(lit "diaryText", JString (lit "A calm day."));
                               (lit "mood", JString (lit "relaxed"))])))),
     after_store
       (diary_entry (sample_platform 0)
          (sample_diary_request "2024-05-10" (JString (lit "Felt good.")))
          (JObject [(lit "diaryText", JString (lit "A calm day."));
                    (lit "mood", JString (lit "relaxed"))]))
       (after_call
          (gemini_diary_prompt (sample_platform 0)
             (sample_diary_request "2024-05-10" (JString (lit "Felt good.")))
             (sample_state [Reply reply_diary] [entry_at_14h (sample_platform 0)]))
          (sample_state [Reply reply_diary] [entry_at_14h (sample_platform 0)]))).
Proof. vm_compute. reflexivity. Qed.

Lemma diary_synthesis_record_witness :
  gemini_parsed reply_diary
  = Some (JObject [(lit "diaryText", JString (lit "A calm day."));
                   (lit "mood", JString (lit "relaxed"))])
  /\ Json.parse reply_diary
     = Some (JObject [(lit "diaryText", JString (lit "A calm day."));
                      (lit "mood", JString (lit "relaxed"))])
  /\ (exists diaryText saved st',
         Gemini.generateDiaryEntry (sample_platform 0)
           (sample_diary_request "2024-05-10" (JString (lit "Felt good.")))
           (sample_state [Reply reply_diary] [entry_at_14h (sample_platform 0)])
         = (Ok (mkResponse 200 (Diary diaryText saved)), st')
         /\ is_diary_record (sample_platform 0)
              (sample_diary_request "2024-05-10" (JString (lit "Felt good.")))
              (JObject [(lit "diaryText", JString (lit "A calm day."));
                        (lit "mood", JString (lit "relaxed"))])
              diaryText saved
         /\ docs st' = [entry_at_14h (sample_platform 0)] ++ [saved])
  /\ (exists diaryText saved st',
         Groq.generateDiaryEntry (sample_platform 0)
           (sample_diary_request "2024-05-10" (JString (lit "Felt good.")))
           (sample_state [Reply reply_diary] [entry_at_14h (sample_platform 0)])
         = (Ok (mkResponse 200 (Diary diaryText saved)), st')
         /\ is_diary_record (sample_platform 0)
              (sample_diary_request "2024-05-10" (JString (lit "Felt good.")))
              (JObject [(lit "diaryText", JString (lit "A calm day."));
                        (lit "mood", JString (lit "relaxed"))])
              diaryText saved
         /\ docs st' = [entry_at_14h (sample_platform 0)] ++ [saved]).
Proof.
  assert (Hg : gemini_parsed reply_diary
               = Some (JObject [(lit "diaryText", JString (lit "A calm day."));
                                (lit "mood", JString (lit "relaxed"))]))
    by (vm_compute; reflexivity).
  assert (Hq : Json.parse reply_diary
               = Some (JObject [(lit "diaryText", JString (lit "A calm day."));
                                (lit "mood", JString (lit "relaxed"))]))
    by (vm_compute; reflexivity).
  split; [exact Hg|]. split; [exact Hq|].
  pose proof (@diary_synthesis_record
                (sample_platform 0)
                (sample_diary_request "2024-05-10" (JString (lit "Felt good.")))
                (sample_state [Reply reply_diary] [entry_at_14h (sample_platform 0)]))
    as (Hgemini & Hgroq & _).
  split.
  - exact (Hgemini reply_diary _ eq_refl eq_refl eq_refl Hg eq_refl).
  - exact (Hgroq reply_diary _ eq_refl eq_refl eq_refl Hq eq_refl eq_refl).
Defined.

(** With no entry on the day the prompt carries the placeholder. *)
Example sample_diary_no_entries :
  gemini_diary_prompt (sample_platform 0)
    (sample_diary_request "2024-05-10" (JString (lit "Felt good.")))
    (sample_state [Reply reply_diary] [])
  = Gemini.diary_prompt (sample_platform 0) (JString (lit "2024-05-10"))
      (lit "No entries.") (JString (lit "Felt good.")).
Proof. vm_compute. reflexivity. Qed.

(** The prompt is the same text around the place of the extra text,
    whatever the extra text is. *)
Lemma gemini_prompt_slot p date es x extra :
  Gemini.diary_prompt p date es extra
  = before_extra (Gemini.diary_lines p date es x) ++ dq ++ to_string p extra ++ dq
    ++ after_extra (Gemini.diary_lines p date es x).
Proof.
  unfold Gemini.diary_prompt, before_extra, after_extra, Gemini.diary_lines, unlines.
  cbn [firstn skipn map concat]. rewrite <- !app_assoc. reflexivity.
Qed.

Lemma groq_prompt_slot p date es x extra :
  Groq.diary_prompt p date es extra
  = before_extra (Groq.diary_lines p date es x) ++ dq ++ to_string p extra ++ dq
    ++ after_extra (Groq.diary_lines p date es x).
Proof.
  unfold Groq.diary_prompt, before_extra, after_extra, Groq.diary_lines, unlines.
  cbn [firstn skipn map concat]. rewrite <- !app_assoc. reflexivity.
Qed.

(** C10.  A diary synthesis whose request has no extra text goes ahead
    under either provider.  The one prompt it sends is the usual text with
    the word [undefined] between the quotes where the extra text goes.
    When the provider's reply is one the extraction reads a value from and
    the store is willing, the call answers 200 and adds its record to the
    collection, and the record of every successful call has no
    [userInput], which is not the same as an empty one. *)
Theorem absent_extra_text :
  forall p req st,
    extraText req = JUndefined ->
    truthy p (id (diary_user req)) = true ->
    truthy p (diary_date req) = true ->
    (exists lines,
        (forall extra,
            Gemini.diary_prompt p (diary_date req)
              (summaries (Gemini.entry_line p)
                 (day_entries (Gemini.day_bucket p (diary_date req))
                    (id (diary_user req)) st))
              extra
            = before_extra lines ++ dq ++ to_string p extra ++ dq ++ after_extra lines)
        /\ sent (snd (Gemini.generateDiaryEntry p req st))
           = sent st ++ [before_extra lines ++ dq ++ lit "undefined" ++ dq
                         ++ after_extra lines])
    /\ (exists lines,
           (forall extra,
               Groq.diary_prompt p (diary_date req)
                 (summaries (Groq.entry_line p)
                    (day_entries (Groq.day_bucket p (diary_date req))
                       (id (diary_user req)) st))
                 extra
               = before_extra lines ++ dq ++ to_string p extra ++ dq ++ after_extra lines)
           /\ sent (snd (Groq.generateDiaryEntry p req st))
              = sent st ++ [before_extra lines ++ dq ++ lit "undefined" ++ dq
                            ++ after_extra lines])
    /\ (forall diaryText saved st',
           Gemini.generateDiaryEntry p req st
           = (Ok (mkResponse 200 (Diary diaryText saved)), st')
           \/ Groq.generateDiaryEntry p req st
              = (Ok (mkResponse 200 (Diary diaryText saved)), st') ->
           userInput saved = JUndefined /\ userInput saved <> JString [])
    /\ (forall c parsed,
           head_reply st = Reply c ->
           gemini_parsed c = Some parsed ->
           store_accepts p (diary_entry p req parsed) = true ->
           exists diaryText saved st',
             Gemini.generateDiaryEntry p req st
             = (Ok (mkResponse 200 (Diary diaryText saved)), st')
             /\ docs st' = docs st ++ [saved]
             /\ userInput saved = JUndefined /\ userInput saved <> JString [])
    /\ (forall c parsed,
           head_reply st = Reply c ->
           Json.parse c = Some parsed ->
           nullish parsed = false ->
           store_accepts p (diary_entry p req parsed) = true ->
           exists diaryText saved st',
             Groq.generateDiaryEntry p req st
             = (Ok (mkResponse 200 (Diary diaryText saved)), st')
             /\ docs st' = docs st ++ [saved]
             /\ userInput saved = JUndefined /\ userInput saved <> JString []).
Proof.
  intros p req st Hx Hu Hd. split; [|split; [|split; [|split]]].
  - eexists. split.
    + intros extra. apply gemini_prompt_slot with (x := JUndefined).
    + rewrite (gemini_diary_run p req st Hu Hd). cbv zeta.
      assert (Hsent : sent (after_call (gemini_diary_prompt p req st) st)
                      = sent st ++ [gemini_diary_prompt p req st]) by reflexivity.
      unfold gemini_diary_prompt in Hsent at 2.
      rewrite (gemini_prompt_slot p _ _ JUndefined), Hx in Hsent.
      destruct (head_reply st) as [c|]; [|exact Hsent].
      destruct (gemini_parsed c) as [parsed|]; [|exact Hsent].
      destruct (store_accepts p (diary_entry p req parsed)); exact Hsent.
  - eexists. split.
    + intros extra. apply groq_prompt_slot with (x := JUndefined).
    + rewrite (groq_diary_run p req st Hu Hd). cbv zeta.
      assert (Hsent : sent (after_call (groq_diary_prompt p req st) st)
                      = sent st ++ [groq_diary_prompt p req st]) by reflexivity.
      unfold groq_diary_prompt in Hsent at 2.
      rewrite (groq_prompt_slot p _ _ JUndefined), Hx in Hsent.
      destruct (head_reply st) as [c|]; [|exact Hsent].
      destruct (Json.parse c) as [parsed|]; [|exact Hsent].
      destruct (nullish parsed); [exact Hsent|].
      destruct (store_accepts p (diary_entry p req parsed)); exact Hsent.
  - intros diaryText saved st' H.
    assert (G : userInput saved = extraText req).
    { destruct H as [H | H].
      - apply gemini_diary_success_inv in H.
        destruct H as (c & parsed & _ & _ & -> & _). reflexivity.
      - apply groq_diary_success_inv in H.
        destruct H as (c & parsed & _ & _ & -> & _). reflexivity. }
    rewrite G, Hx. split; [reflexivity | discriminate].
  - intros c parsed Hr Hp Hs.
    rewrite (gemini_diary_run p req st Hu Hd). cbv zeta. rewrite Hr, Hp, Hs.
    do 3 eexists. split; [reflexivity|]. split; [reflexivity|].
    cbn [userInput diary_entry]. rewrite Hx. split; [reflexivity | discriminate].
  - intros c parsed Hr Hp Hn Hs.
    rewrite (groq_diary_run p req st Hu Hd). cbv zeta. rewrite Hr, Hp, Hn, Hs.
    do 3 eexists. split; [reflexivity|]. split; [reflexivity|].
    cbn [userInput diary_entry]. rewrite Hx. split; [reflexivity | discriminate].
Qed.

Lemma absent_extra_text_witness :
  extraText (sample_diary_request "2024-05-10" JUndefined) = JUndefined
  /\ (exists diaryText saved st',
         Gemini.generateDiaryEntry (sample_platform 0)
           (sample_diary_request "2024-05-10" JUndefined)
           (sample_state [Reply reply_diary] [])
         = (Ok (mkResponse 200 (Diary diaryText saved)), st')
         /\ docs st' = [] ++ [saved]
         /\ userInput saved = JUndefined /\ userInput saved <> JString [])
  /\ (exists diaryText saved st',
         Groq.generateDiaryEntry (sample_platform 0)
           (sample_diary_request "2024-05-10" JUndefined)
           (sample_state [Reply reply_diary] [])
         = (Ok (mkResponse 200 (Diary diaryText saved)), st')
         /\ docs st' = [] ++ [saved]
         /\ userInput saved = JUndefined /\ userInput saved <> JString []).
Proof.
  assert (Hg : gemini_parsed reply_diary
               = Some (JObject [(lit "diaryText", JString (lit "A calm day."));
                                (lit "mood", JString (lit "relaxed"))]))
    by (vm_compute; reflexivity).
  assert (Hq : Json.parse reply_diary
               = Some (JObject [(lit "diaryText", JString (lit "A calm day."));
                                (lit "mood", JString (lit "relaxed"))]))
    by (vm_compute; reflexivity).
  split; [reflexivity|].
  pose proof (@absent_extra_text
                (sample_platform 0) (sample_diary_request "2024-05-10" JUndefined)
                (sample_state [Reply reply_diary] []) eq_refl eq_refl eq_refl)
    as (_ & _ & _ & Hgemini & Hgroq).
  split.
  - exact (Hgemini reply_diary _ eq_refl Hg eq_refl).
  - exact (Hgroq reply_diary _ eq_refl Hq eq_refl eq_refl).
Defined.

(** The prompt of that request, at the place of the extra text. *)
Example sample_prompt_with_undefined :
  exists a b,
    sent (snd (Groq.generateDiaryEntry (sample_platform 0)
                 (sample_diary_request "2024-05-10" JUndefined)
                 (sample_state [Reply reply_diary] [])))
    = [a ++ lit "Extra context:" ++ nl ++ dq ++ lit "undefined" ++ dq ++ nl ++ b].
Proof.
  exists (nl ++ unlines [lit "You are a diary writing assistant."; [];
                         lit "Date: Fri May 10 2024"; [];
                         lit "User notes and tasks:"; lit "No entries."; []]).
  eexists. vm_compute. reflexivity.
Qed.

(* ================================================================== *)
(** * Every call is answered *)
(* ================================================================== *)

Lemma str_eqb_refl s : str_eqb s s = true.
Proof. induction s as [|x s IH]; simpl; [reflexivity|]. now rewrite N.eqb_refl. Qed.

Lemma str_eqb_eq a b : str_eqb a b = true -> a = b.
Proof.
  revert b. induction a as [|x a IH]; intros [|y b] H; simpl in H; try discriminate.
  - reflexivity.
  - apply andb_true_iff in H. destruct H as [Hx H].
    apply N.eqb_eq in Hx. subst y. f_equal. now apply IH.
Qed.

Lemma same_id_eq a b : same_id a b = true -> a = b.
Proof.
  destruct a, b; simpl; try discriminate. intros H. f_equal. now apply str_eqb_eq.
Qed.

Lemma gemini_resolved_shape p text result :
  null_or_valid_date (gemini_resolved p text result) = true.
Proof.
  unfold gemini_resolved.
  destruct (if negb (is_null_token (trim result)) then Date_parse p (trim result) else None);
    [reflexivity|].
  destruct (test true re_time_of_day text); reflexivity.
Qed.

Lemma groq_extractDate_shape p text : null_or_valid_date (Groq.extractDate p text) = true.
Proof. unfold Groq.extractDate. destruct (chrono_parseDate p text); reflexivity. Qed.

(** A classification answers with success only after it parsed the reply,
    settled the date and stored the document made from both. *)
Lemma gemini_handlePrompt_success_inv p req st e st' :
  Gemini.handlePrompt p req st = (Ok (mkResponse 200 (Data e)), st') ->
  exists c parsed scheduled,
    head_reply st = Reply c /\ gemini_parsed c = Some parsed
    /\ null_or_valid_date scheduled = true
    /\ e = gemini_entry p req parsed scheduled
    /\ docs st' = docs st ++ [e].
Proof.
  intros H.
  destruct (errors_empty req) eqn:Hv;
    [|unfold Gemini.handlePrompt in H; rewrite Hv in H; discriminate H].
  destruct (ObjectId_isValid p (id (prompt_user req))) eqn:Hid;
    [|unfold Gemini.handlePrompt in H; rewrite Hv, Hid in H; discriminate H].
  rewrite (gemini_handlePrompt_run p req st Hv Hid) in H. cbv zeta in H.
  destruct (head_reply st) as [c|] eqn:Hr; [|discriminate H].
  destruct (gemini_parsed c) as [parsed|] eqn:Ep; [|discriminate H].
  destruct (head_reply (after_call (Gemini.classify_prompt (sanitizeHtml p (body_input req))) st))
    as [result|];
    match type of H with
    | context [store_accepts p ?d] => destruct (store_accepts p d); [|discriminate H]
    end;
    inversion H; subst; exists c, parsed; eexists; repeat split;
    try reflexivity; try assumption.
  apply gemini_resolved_shape.
Qed.

Lemma groq_handlePrompt_success_inv p req st e st' :
  Groq.handlePrompt p req st = (Ok (mkResponse 200 (Data e)), st') ->
  exists c parsed,
    head_reply st = Reply c /\ Json.parse c = Some parsed /\ nullish parsed = false
    /\ e = groq_entry p req parsed (Groq.extractDate p (sanitizeHtml p (body_input req)))
    /\ docs st' = docs st ++ [e].
Proof.
  intros H.
  destruct (errors_empty req) eqn:Hv;
    [|unfold Groq.handlePrompt in H; rewrite Hv in H; discriminate H].
  destruct (ObjectId_isValid p (id (prompt_user req))) eqn:Hid;
    [|unfold Groq.handlePrompt in H; rewrite Hv, Hid in H; discriminate H].
  rewrite (groq_handlePrompt_run p req st Hv Hid) in H. cbv zeta in H.
  destruct (head_reply st) as [c|] eqn:Hr; [|discriminate H].
  destruct (Json.parse c) as [parsed|] eqn:Ep; [|discriminate H].
  destruct (nullish parsed) eqn:Hn; [discriminate H|].
  match type of H with
  | context [store_accepts p ?d] => destruct (store_accepts p d); [|discriminate H]
  end.
  inversion H; subst. exists c, parsed. repeat split; auto.
Qed.

(** X1.  Whatever the request and whatever the provider and the store do,
    [handlePrompt] answers: it never lets an exception out.  The answer is
    400 with nothing touched, or the 500 failure with the collection as it
    was and the handler's label written last to the log, or 200 with the
    one document that was added to the collection. *)
Theorem handlePrompt_always_answers :
  forall p req st,
    (exists r st',
        Gemini.handlePrompt p req st = (Ok r, st')
        /\ classification_outcome "Gemini Error:" st r st')
    /\ (exists r st',
           Groq.handlePrompt p req st = (Ok r, st')
           /\ classification_outcome "Groq Error:" st r st').
Proof.
  intros p req st. split.
  - destruct (errors_empty req) eqn:Hv.
    2:{ unfold Gemini.handlePrompt. rewrite Hv. do 2 eexists.
        split; [reflexivity|]. left. split; reflexivity. }
    destruct (ObjectId_isValid p (id (prompt_user req))) eqn:Hid.
    2:{ unfold Gemini.handlePrompt. rewrite Hv, Hid. do 2 eexists.
        split; [reflexivity|]. left. split; reflexivity. }
    rewrite (gemini_handlePrompt_run p req st Hv Hid). cbv zeta.
    destruct (head_reply st) as [c|].
    2:{ do 2 eexists. split; [reflexivity|]. right. left.
        repeat split. exists []. reflexivity. }
    destruct (gemini_parsed c) as [parsed|].
    2:{ do 2 eexists. split; [reflexivity|]. right. left.
        repeat split. exists []. reflexivity. }
    destruct (head_reply (after_call
                            (Gemini.classify_prompt (sanitizeHtml p (body_input req))) st))
      as [result|];
      match goal with
      | |- context [store_accepts p ?d] => destruct (store_accepts p d)
      end;
      do 2 eexists; (split; [reflexivity|]);
      try (right; right; eexists; split; reflexivity);
      right; left; repeat split;
      first [ exists []; reflexivity
            | exists [lit "Date Extraction Error:"]; cbn; now rewrite <- app_assoc ].
  - destruct (errors_empty req) eqn:Hv.
    2:{ unfold Groq.handlePrompt. rewrite Hv. do 2 eexists.
        split; [reflexivity|]. left. split; reflexivity. }
    destruct (ObjectId_isValid p (id (prompt_user req))) eqn:Hid.
    2:{ unfold Groq.handlePrompt. rewrite Hv, Hid. do 2 eexists.
        split; [reflexivity|]. left. split; reflexivity. }
    rewrite (groq_handlePrompt_run p req st Hv Hid). cbv zeta.
    assert (F : forall st1,
               docs st1 = docs st -> errlog st1 = errlog st ->
               exists r st',
                 (Ok (failed "Failed to process prompt"), after_log "Groq Error:" st1)
                 = (Ok r, st')
                 /\ classification_outcome "Groq Error:" st r st').
    { intros st1 Hd He. do 2 eexists. split; [reflexivity|]. right. left.
      repeat split; [exact Hd|]. exists []. cbn. now rewrite He. }
    destruct (head_reply st) as [c|]; [|now apply F].
    destruct (Json.parse c) as [parsed|]; [|now apply F].
    destruct (nullish parsed); [now apply F|].
    match goal with
    | |- context [store_accepts p ?d] => destruct (store_accepts p d)
    end; [|now apply F].
    do 2 eexists. split; [reflexivity|]. right. right. eexists. split; reflexivity.
Qed.

(** X2.  [generateDiaryEntry] answers likewise under either provider: 401
    or 400 with nothing touched, or the 500 failure with the collection as
    it was and one line in the log, or 200 with the narrative and the one
    document that was added. *)
Theorem generateDiaryEntry_always_answers :
  forall p req st,
    (exists r st',
        Gemini.generateDiaryEntry p req st = (Ok r, st') /\ synthesis_outcome st r st')
    /\ (exists r st',
           Groq.generateDiaryEntry p req st = (Ok r, st') /\ synthesis_outcome st r st').
Proof.
  intros p req st.
  assert (F : forall st1,
             docs st1 = docs st -> errlog st1 = errlog st ->
             exists r st',
               (Ok (failed "Failed to generate diary entry"),
                after_log "Diary Generation Error:" st1) = (Ok r, st')
               /\ synthesis_outcome st r st').
  { intros st1 Hd He. do 2 eexists. split; [reflexivity|]. right. left.
    repeat split; [exact Hd|]. cbn. now rewrite He. }
  split.
  - destruct (truthy p (id (diary_user req))) eqn:Hu.
    2:{ unfold Gemini.generateDiaryEntry. rewrite Hu. do 2 eexists.
        split; [reflexivity|]. left. split; [left|]; reflexivity. }
    destruct (truthy p (diary_date req)) eqn:Hd.
    2:{ unfold Gemini.generateDiaryEntry. rewrite Hu, Hd. do 2 eexists.
        split; [reflexivity|]. left. split; [right|]; reflexivity. }
    rewrite (gemini_diary_run p req st Hu Hd). cbv zeta.
    destruct (head_reply st) as [c|]; [|now apply F].
    destruct (gemini_parsed c) as [parsed|]; [|now apply F].
    destruct (store_accepts p (diary_entry p req parsed)); [|now apply F].
    do 2 eexists. split; [reflexivity|]. right. right. do 2 eexists. split; reflexivity.
  - destruct (truthy p (id (diary_user req))) eqn:Hu.
    2:{ unfold Groq.generateDiaryEntry. rewrite Hu. do 2 eexists.
        split; [reflexivity|]. left. split; [left|]; reflexivity. }
    destruct (truthy p (diary_date req)) eqn:Hd.
    2:{ unfold Groq.generateDiaryEntry. rewrite Hu, Hd. do 2 eexists.
        split; [reflexivity|]. left. split; [right|]; reflexivity. }
    rewrite (groq_diary_run p req st Hu Hd). cbv zeta.
    destruct (head_reply st) as [c|]; [|now apply F].
    destruct (Json.parse c) as [parsed|]; [|now apply F].
    destruct (nullish parsed); [now apply F|].
    destruct (store_accepts p (diary_entry p req parsed)); [|now apply F].
    do 2 eexists. split; [reflexivity|]. right. right. do 2 eexists. split; reflexivity.
Qed.

(** X3.  The document a successful [handlePrompt] stores, under either
    provider, belongs to the caller and holds the sanitized input as its
    content; its [tasks] are an array, its [tags] the empty array, its
    [type] is truthy, its date is [null] or a valid [Date], and it has
    neither [mood] nor [userInput]. *)
Theorem stored_classification_is_well_formed :
  forall p req st e st',
    Gemini.handlePrompt p req st = (Ok (mkResponse 200 (Data e)), st')
    \/ Groq.handlePrompt p req st = (Ok (mkResponse 200 (Data e)), st') ->
    userId e = id (prompt_user req)
    /\ content e = JString (sanitizeHtml p (body_input req))
    /\ Array_isArray (tasks e) = true
    /\ tags e = JArray []
    /\ truthy p (type e) = true
    /\ null_or_valid_date (scheduledFor e) = true
    /\ mood e = JUndefined /\ userInput e = JUndefined.
Proof.
  intros p req st e st' H.
  assert (T : forall v, truthy p (or_else p v (JString (lit "note"))) = true).
  { intros v. unfold or_else. destruct (truthy p v) eqn:E; [exact E | reflexivity]. }
  assert (A : forall v, Array_isArray (if Array_isArray v then v else JArray []) = true).
  { intros v. destruct (Array_isArray v) eqn:E; [exact E | reflexivity]. }
  destruct H as [H | H].
  - apply gemini_handlePrompt_success_inv in H.
    destruct H as (c & parsed & sched & _ & _ & Hs & -> & _).
    unfold gemini_entry. cbn. repeat split; auto.
  - apply groq_handlePrompt_success_inv in H.
    destruct H as (c & parsed & _ & _ & _ & -> & _).
    unfold groq_entry. cbn. repeat split; auto. apply groq_extractDate_shape.
Qed.

Lemma stored_classification_is_well_formed_witness :
  Groq.handlePrompt (sample_platform 0) (sample_prompt_request "Buy milk")
    (sample_state [Reply (lit "42")] [])
  = (Ok (mkResponse 200 (Data (groq_entry (sample_platform 0)
                                 (sample_prompt_request "Buy milk")
                                 (JNumber (lit "42")) JNull))),
     after_store (groq_entry (sample_platform 0) (sample_prompt_request "Buy milk")
                    (JNumber (lit "42")) JNull)
       (after_call (Groq.classify_prompt (lit "Buy milk"))
          (sample_state [Reply (lit "42")] [])))
  /\ Array_isArray (tasks (groq_entry (sample_platform 0)
                             (sample_prompt_request "Buy milk")
                             (JNumber (lit "42")) JNull)) = true.
Proof.
  assert (H : Groq.handlePrompt (sample_platform 0) (sample_prompt_request "Buy milk")
                (sample_state [Reply (lit "42")] [])
              = (Ok (mkResponse 200 (Data (groq_entry (sample_platform 0)
                                             (sample_prompt_request "Buy milk")
                                             (JNumber (lit "42")) JNull))),
                 after_store (groq_entry (sample_platform 0)
                                (sample_prompt_request "Buy milk")
                                (JNumber (lit "42")) JNull)
                   (after_call (Groq.classify_prompt (lit "Buy milk"))
                      (sample_state [Reply (lit "42")] []))))
    by (vm_compute; reflexivity).
  split; [exact H|].
  exact (proj1 (proj2 (proj2 (@stored_classification_is_well_formed _ _ _ _ _
                                (or_intror H))))).
Defined.

(* ================================================================== *)
(** * The handlers that only read *)
(* ================================================================== *)

Lemma day_bucket_shape p date t :
  new_Date p date = Some t ->
  exists a b,
    Gemini.day_bucket p date = (Some a, Some b)
    /\ (a <= t <= b)%Z
    /\ b = (a + 86399999)%Z
    /\ ((a + tz_offset p * JsDate.ms_per_minute) mod JsDate.ms_per_day = 0)%Z.
Proof.
  intros Ht. unfold Gemini.day_bucket, setHours. rewrite Ht.
  change JsDate.ms_per_day with 86400000%Z. change JsDate.ms_per_minute with 60000%Z.
  set (o := (tz_offset p * 60000)%Z).
  set (d := ((t + o) / 86400000)%Z).
  assert (E : ((d * 86400000 + (((0 * 60 + 0) * 60 + 0) * 1000 + 0) - o + o) / 86400000
               = d)%Z).
  { replace (d * 86400000 + (((0 * 60 + 0) * 60 + 0) * 1000 + 0) - o + o)%Z
      with (d * 86400000)%Z by lia.
    now rewrite Z.div_mul. }
  rewrite E. do 2 eexists. split; [reflexivity|].
  pose proof (Z.div_mod (t + o) 86400000 ltac:(lia)) as Hdm. fold d in Hdm.
  pose proof (Z.mod_pos_bound (t + o) 86400000 ltac:(lia)) as Hmb.
  repeat split; try lia.
  replace (d * 86400000 + (((0 * 60 + 0) * 60 + 0) * 1000 + 0) - o + o)%Z
    with (d * 86400000)%Z by lia.
  apply Z_mod_mult.
Qed.

(** X4.  On a host that keeps one offset from UTC through the day, and for
    an argument that denotes a date, the two revisions compute the same day
    bucket.  Its start and its end lie on the local calendar day the
    argument falls on, the start at 00:00:00.000 and the end at
    23:59:59.999 of the host's local time, and the moment the argument
    denotes is inside it. *)
Theorem day_bucket_holds_its_date :
  forall p date t,
    new_Date p date = Some t ->
    exists a b,
      Gemini.day_bucket p date = (Some a, Some b)
      /\ Groq.day_bucket p date = (Some a, Some b)
      /\ (a <= t <= b)%Z
      /\ local_day p a = local_day p t
      /\ local_day p b = local_day p t
      /\ ((a + tz_offset p * JsDate.ms_per_minute) mod JsDate.ms_per_day = 0)%Z
      /\ ((b + tz_offset p * JsDate.ms_per_minute) mod JsDate.ms_per_day = 86399999)%Z.
Proof.
  intros p date t Ht.
  destruct (day_bucket_shape p date Ht) as (a & b & Hb & Hin & Hlen & Hmid).
  exists a, b. rewrite day_bucket_same.
  split; [exact Hb|]. split; [exact Hb|]. split; [exact Hin|].
  unfold local_day. revert Hmid.
  change JsDate.ms_per_day with 86400000%Z.
  set (o := (tz_offset p * JsDate.ms_per_minute)%Z). intros Hmid.
  pose proof (Z.div_mod (a + o) 86400000 ltac:(lia)) as Da.
  rewrite Hmid in Da.
  assert (Et : ((t + o) / 86400000 = (a + o) / 86400000)%Z).
  { symmetry. apply Z.div_unique with (r := (t - a)%Z); lia. }
  assert (Eb : ((b + o) / 86400000 = (a + o) / 86400000)%Z).
  { symmetry. apply Z.div_unique with (r := 86399999%Z); lia. }
  split; [now rewrite Et|]. split; [now rewrite Eb, Et|].
  split; [exact Hmid|].
  symmetry. apply Z.mod_unique with (q := ((a + o) / 86400000)%Z); lia.
Qed.

Lemma day_bucket_holds_its_date_witness :
  new_Date (sample_platform (-300)) (JString (lit "2024-05-10T14:00:00"))
  = Some 1715367600000%Z
  /\ exists a b,
      Gemini.day_bucket (sample_platform (-300)) (JString (lit "2024-05-10T14:00:00"))
      = (Some a, Some b)
      /\ Groq.day_bucket (sample_platform (-300)) (JString (lit "2024-05-10T14:00:00"))
         = (Some a, Some b)
      /\ (a <= 1715367600000 <= b)%Z
      /\ local_day (sample_platform (-300)) a
         = local_day (sample_platform (-300)) 1715367600000
      /\ local_day (sample_platform (-300)) b
         = local_day (sample_platform (-300)) 1715367600000
      /\ ((a + tz_offset (sample_platform (-300)) * JsDate.ms_per_minute)
            mod JsDate.ms_per_day = 0)%Z
      /\ ((b + tz_offset (sample_platform (-300)) * JsDate.ms_per_minute)
            mod JsDate.ms_per_day = 86399999)%Z.
Proof.
  assert (H : new_Date (sample_platform (-300)) (JString (lit "2024-05-10T14:00:00"))
              = Some 1715367600000%Z) by (vm_compute; reflexivity).
  split; [exact H|].
  exact (@day_bucket_holds_its_date _ _ _ H).
Defined.

(** X5.  The two revisions of [getEntriesByDate] and of [getDiaryByDate]
    are interchangeable: on every request and in every world they answer
    alike and leave the same world behind. *)
Theorem date_queries_agree :
  forall p req st,
    Groq.getEntriesByDate p req st = Gemini.getEntriesByDate p req st
    /\ GroqQueries.getDiaryByDate p req st = GeminiQueries.getDiaryByDate p req st.
Proof.
  intros p req st. split.
  - unfold Groq.getEntriesByDate, Gemini.getEntriesByDate.
    now rewrite day_bucket_same.
  - unfold GroqQueries.getDiaryByDate, GeminiQueries.getDiaryByDate.
    now rewrite day_bucket_same.
Qed.

Lemma getEntriesByDate_run p req st :
  truthy p (query_date req) = true ->
  Gemini.getEntriesByDate p req st
  = (Ok (mkResponse 200
           (DataList (filter (picked (id (query_user req))
                                (Gemini.day_bucket p (query_date req)))
                             (docs st)))),
     st).
Proof.
  intros Hd. unfold Gemini.getEntriesByDate. rewrite Hd. cbn [negb].
  unfold try_catch, bind, Entry_find, ret, picked.
  destruct (Gemini.day_bucket p (query_date req)) as [start end_]. reflexivity.
Qed.

Lemma picked_inv uid bucket e :
  picked uid bucket e = true ->
  userId e = uid
  /\ exists a b t,
      bucket = (Some a, Some b) /\ scheduledFor e = JDate (Some t) /\ (a <= t <= b)%Z.
Proof.
  unfold picked. intros H. apply andb_true_iff in H. destruct H as [Hu Hr].
  split; [now apply same_id_eq|].
  destruct bucket as [[a|] [b|]]; cbn [fst snd in_range] in Hr; try discriminate.
  destruct (scheduledFor e) as [| | | | | | |[t|]]; try discriminate.
  exists a, b, t. apply andb_true_iff in Hr. rewrite !Z.leb_le in Hr.
  repeat split; apply Hr.
Qed.

(** X6.  [getEntriesByDate] touches nothing.  Without a date it answers
    400; with one that denotes a valid date it answers 200 with exactly the
    documents of the collection that the query picks, and each of them
    belongs to the caller and is scheduled at a valid moment inside the
    bucket: no document of another user and no undated document is ever
    returned. *)
Theorem getEntriesByDate_answer :
  forall p req st,
    (truthy p (query_date req) = false ->
     Gemini.getEntriesByDate p req st
     = (Ok (mkResponse 400 (Failure (lit "Missing 'date'"))), st))
    /\ (forall t,
           truthy p (query_date req) = true ->
           new_Date p (query_date req) = Some t ->
           exists es,
          Gemini.getEntriesByDate p req st = (Ok (mkResponse 200 (DataList es)), st)
          /\ (forall e,
                 In e es <->
                 In e (docs st)
                 /\ picked (id (query_user req))
                      (Gemini.day_bucket p (query_date req)) e = true)
          /\ (forall e,
                 In e es ->
                 userId e = id (query_user req)
                 /\ exists a b t,
                     Gemini.day_bucket p (query_date req) = (Some a, Some b)
                     /\ scheduledFor e = JDate (Some t) /\ (a <= t <= b)%Z)).
Proof.
  intros p req st. split.
  - intros Hd. unfold Gemini.getEntriesByDate. now rewrite Hd.
  - intros t Hd _.
    rewrite (getEntriesByDate_run p req st Hd). eexists. split; [reflexivity|].
    split.
    + intros e. apply filter_In.
    + intros e He. apply filter_In in He. now apply picked_inv.
Qed.

Lemma getDiaryByDate_run p req st :
  truthy p (query_date req) = true ->
  GeminiQueries.getDiaryByDate p req st
  = (Ok (match find (fun e => type_is (type e) "diary"
                              && picked (id (query_user req))
                                   (Gemini.day_bucket p (query_date req)) e)
                    (docs st) with
         | None => mkLookup 404 (LookupMessage (lit "No diary found"))
         | Some found => mkLookup 200 (LookupData found)
         end),
     st).
Proof.
  intros Hd. unfold GeminiQueries.getDiaryByDate. rewrite Hd. cbn [negb].
  unfold try_catch, bind, Entry_findOne, ret.
  destruct (Gemini.day_bucket p (query_date req)) as [start end_].
  cbn [fst snd].
  assert (E : forall l,
             find (fun e => type_is (type e) "diary" && same_id (userId e) (id (query_user req))
                            && in_range start end_ (scheduledFor e)) l
             = find (fun e => type_is (type e) "diary"
                              && picked (id (query_user req)) (start, end_) e) l).
  { induction l as [|x l IH]; [reflexivity|]. cbn [find]. unfold picked at 1.
    cbn [fst snd]. rewrite <- andb_assoc, IH. reflexivity. }
  rewrite E.
  destruct (find _ (docs st)); reflexivity.
Qed.

Lemma type_is_eq v name : type_is v name = true -> v = JString (lit name).
Proof.
  destruct v; simpl; try discriminate. intros H. f_equal. now apply str_eqb_eq.
Qed.

(** X7.  [getDiaryByDate] touches nothing.  With a date that denotes a
    valid one, it answers 404 with the message [No diary found] exactly
    when the collection holds no diary of the caller in the bucket;
    otherwise it answers 200 with one such diary. *)
Theorem getDiaryByDate_answer :
  forall p req st t,
    truthy p (query_date req) = true ->
    new_Date p (query_date req) = Some t ->
    exists r,
      GeminiQueries.getDiaryByDate p req st = (Ok r, st)
      /\ ((r = mkLookup 404 (LookupMessage (lit "No diary found"))
           /\ forall e,
               In e (docs st) ->
               type e = JString (lit "diary") ->
               picked (id (query_user req)) (Gemini.day_bucket p (query_date req)) e
               = false)
          \/ exists e,
               r = mkLookup 200 (LookupData e)
               /\ In e (docs st)
               /\ type e = JString (lit "diary")
               /\ picked (id (query_user req)) (Gemini.day_bucket p (query_date req)) e
                  = true).
Proof.
  intros p req st t Hd _. rewrite (getDiaryByDate_run p req st Hd).
  eexists. split; [reflexivity|].
  destruct (find _ (docs st)) as [found|] eqn:E.
  - right. apply find_some in E. destruct E as [Hin Hf].
    apply andb_true_iff in Hf. destruct Hf as [Ht Hp].
    exists found. repeat split; auto. now apply type_is_eq.
  - left. split; [reflexivity|]. intros e Hin Ht.
    pose proof (find_none _ _ E e Hin) as Hf. cbv beta in Hf.
    rewrite Ht in Hf. cbn [type_is] in Hf. rewrite str_eqb_refl in Hf. exact Hf.
Qed.

Lemma getDiaryByDate_answer_witness :
  new_Date (sample_platform 0) (query_date (sample_date_request "2024-05-10"))
  = Some 1715299200000%Z
  /\ exists r,
      GeminiQueries.getDiaryByDate (sample_platform 0) (sample_date_request "2024-05-10")
        (sample_state [] [entry_at_14h (sample_platform 0)])
      = (Ok r, sample_state [] [entry_at_14h (sample_platform 0)])
      /\ ((r = mkLookup 404 (LookupMessage (lit "No diary found"))
           /\ forall e,
               In e (docs (sample_state [] [entry_at_14h (sample_platform 0)])) ->
               type e = JString (lit "diary") ->
               picked (id (query_user (sample_date_request "2024-05-10")))
                 (Gemini.day_bucket (sample_platform 0)
                    (query_date (sample_date_request "2024-05-10"))) e
               = false)
          \/ exists e,
               r = mkLookup 200 (LookupData e)
               /\ In e (docs (sample_state [] [entry_at_14h (sample_platform 0)]))
               /\ type e = JString (lit "diary")
               /\ picked (id (query_user (sample_date_request "2024-05-10")))
                    (Gemini.day_bucket (sample_platform 0)
                       (query_date (sample_date_request "2024-05-10"))) e
                  = true).
Proof.
  split; [reflexivity|].
  exact (@getDiaryByDate_answer (sample_platform 0) (sample_date_request "2024-05-10")
           (sample_state [] [entry_at_14h (sample_platform 0)]) 1715299200000%Z
           eq_refl eq_refl).
Defined.

(** The entry of the sample world is a reminder, so the lookup of a diary
    for its day answers 404, though the date query returns it. *)
Example sample_lookup_finds_no_diary :
  GeminiQueries.getDiaryByDate (sample_platform 0) (sample_date_request "2024-05-10")
    (sample_state [] [entry_at_14h (sample_platform 0)])
  = (Ok (mkLookup 404 (LookupMessage (lit "No diary found"))),
     sample_state [] [entry_at_14h (sample_platform 0)]).
Proof. vm_compute. reflexivity. Qed.

(** X8.  [getEntriesWithTaskTag] looks at no tag, task or type: under either
    revision it touches nothing and answers 200 with every document of the
    caller and no other, so whatever a date query returns to the caller is
    among them. *)
Theorem getEntriesWithTaskTag_returns_all_of_the_user :
  forall p req st,
    exists es,
      GeminiQueries.getEntriesWithTaskTag req st = (Ok (mkResponse 200 (DataList es)), st)
      /\ GroqQueries.getEntriesWithTaskTag req st = (Ok (mkResponse 200 (DataList es)), st)
      /\ (forall e, In e es <-> In e (docs st) /\ same_id (userId e) (id (request_user req)) = true)
      /\ (forall date e,
             In e (filter (picked (id (request_user req)) (Gemini.day_bucket p date))
                          (docs st)) ->
             In e es).
Proof.
  intros p req st. eexists. split; [reflexivity|]. split; [reflexivity|]. split.
  - intros e. apply filter_In.
  - intros date e He. apply filter_In in He. destruct He as [Hin Hp].
    apply filter_In. split; [exact Hin|].
    unfold picked in Hp. now apply andb_true_iff in Hp.
Qed.

(* ================================================================== *)
(** * Reading the reply to the date prompt *)
(* ================================================================== *)

Lemma drop_space_all w s : all_space w = true -> drop_space (w ++ s) = drop_space s.
Proof.
  induction w as [|x w IH]; simpl; [reflexivity|].
  intros H. apply andb_true_iff in H. destruct H as [Hx Hw].
  rewrite Hx. now apply IH.
Qed.

Lemma all_space_rev w : all_space w = true -> all_space (rev w) = true.
Proof.
  unfold all_space. rewrite !forallb_forall. intros H x Hx.
  apply H. now apply in_rev.
Qed.

(** [trim] takes the white space off both ends and nothing else. *)
Lemma trim_padded w1 s w2 :
  all_space w1 = true -> all_space w2 = true -> tight s = true ->
  trim (w1 ++ s ++ w2) = s.
Proof.
  intros H1 H2 Hs. unfold trim, tight in *.
  destruct s as [|c s']; [discriminate|].
  destruct (rev (c :: s')) as [|d r] eqn:Er; [discriminate|].
  apply andb_true_iff in Hs. destruct Hs as [Hc Hd].
  apply negb_true_iff in Hc, Hd.
  rewrite (@drop_space_all w1 _ H1).
  change ((c :: s') ++ w2) with (c :: s' ++ w2). cbn [drop_space]. rewrite Hc.
  change (c :: s' ++ w2) with ((c :: s') ++ w2).
  rewrite rev_app_distr, (@drop_space_all (rev w2) _ (@all_space_rev w2 H2)), Er.
  cbn [drop_space]. rewrite Hd. rewrite <- Er. apply rev_involutive.
Qed.

Lemma str_eqb_length a b : str_eqb a b = true -> length a = length b.
Proof. intros H. apply str_eqb_eq in H. now subst. Qed.

Lemma digit_not_space c : is_digit c = true -> is_space c = false.
Proof.
  unfold is_digit, is_space. intros H. apply not_true_is_false. intros W.
  unbool H. unbool W. lia.
Qed.

Lemma two_digits_left a b v : JsDate.two_digits a b = Some v -> is_digit a = true.
Proof.
  unfold JsDate.two_digits, JsDate.digit_val.
  destruct (is_digit a); [reflexivity | discriminate].
Qed.

Lemma two_digits_right a b v : JsDate.two_digits a b = Some v -> is_digit b = true.
Proof.
  unfold JsDate.two_digits, JsDate.digit_val.
  destruct (is_digit a); [|discriminate].
  destruct (is_digit b); [reflexivity | discriminate].
Qed.

Lemma iso_date_tight s day :
  JsDate.iso_date s = Some day -> tight s = true /\ length s = 10.
Proof.
  intros H. unfold JsDate.iso_date in H.
  destruct s as [|y1 [|y2 [|y3 [|y4 [|h1 [|m1 [|m2 [|h2 [|d1 [|d2 [|x s]]]]]]]]]]];
    try discriminate H.
  destruct (JsDate.two_digits y1 y2) eqn:E1; [|discriminate H].
  destruct (JsDate.two_digits y3 y4) eqn:E2; [|discriminate H].
  destruct (JsDate.two_digits m1 m2) eqn:E3; [|discriminate H].
  destruct (JsDate.two_digits d1 d2) eqn:E4; [|discriminate H].
  split; [|reflexivity].
  unfold tight. cbn [rev app].
  rewrite (@digit_not_space _ (@two_digits_left _ _ _ E1)).
  rewrite (@digit_not_space _ (@two_digits_right _ _ _ E4)). reflexivity.
Qed.

Lemma null_token_tight n : map ascii_lower n = lit "null" -> tight n = true.
Proof.
  intros H. destruct n as [|a [|b [|c0 [|d [|x n]]]]]; try discriminate H.
  cbn in H.
  assert (H0 : ascii_lower a = 110%N) by congruence.
  assert (H3 : ascii_lower d = 108%N) by congruence.
  assert (L : forall c x, ascii_lower c = x -> is_lower x = true -> is_space c = false).
  { intros c x Hc Hx. unfold ascii_lower, is_upper in Hc. unfold is_lower in Hx.
    unfold is_space. apply not_true_is_false. intros W. unbool Hx. unbool W.
    destruct ((65 <=? c) && (c <=? 90))%N eqn:E; [unbool E|]; lia. }
  unfold tight. cbn [rev app].
  rewrite (L _ _ H0 eq_refl), (L _ _ H3 eq_refl). reflexivity.
Qed.

(** X9.  The reply to the date prompt is read with the white space around
    it taken off.  The word [null], in any mix of letter cases, sends the
    resolver to its fallback: the outcome is the current moment or [null],
    by the text alone.  A date written [YYYY-MM-DD] is returned as the UTC
    midnight of that day, whatever the text holds. *)
Theorem date_reply_is_read_trimmed :
  forall p text w1 body w2 st,
    head_reply st = Reply (w1 ++ body ++ w2) ->
    all_space w1 = true -> all_space w2 = true ->
    (map ascii_lower body = lit "null" ->
     fst (Gemini.extractDateFromInput p text st)
     = Ok (if test true re_time_of_day text then JDate (Some (now p)) else JNull))
    /\ (forall day,
           JsDate.iso_date body = Some day ->
           fst (Gemini.extractDateFromInput p text st)
           = Ok (JDate (Some (day * JsDate.ms_per_day)%Z))).
Proof.
  intros p text w1 body w2 st Hr H1 H2.
  rewrite gemini_extractDate_run, Hr. cbn [fst]. unfold gemini_resolved. split.
  - intros Hn. rewrite (@trim_padded w1 body w2 H1 H2 (@null_token_tight body Hn)).
    unfold is_null_token. rewrite Hn. reflexivity.
  - intros day Hd. destruct (@iso_date_tight body day Hd) as [Ht Hl].
    rewrite (@trim_padded w1 body w2 H1 H2 Ht).
    assert (Hnn : is_null_token body = false).
    { unfold is_null_token. apply not_true_is_false. intros W.
      apply str_eqb_length in W. rewrite length_map, Hl in W. discriminate W. }
    rewrite Hnn. cbn [negb]. now rewrite (@iso_date_parse p body day Hd).
Qed.

Lemma date_reply_is_read_trimmed_witness :
  all_space (lit " ") = true
  /\ fst (Gemini.extractDateFromInput (sample_platform 0) (lit "dentist at 3pm")
            (sample_state [Reply (lit " " ++ lit "2024-05-12" ++ [Ch.lf])] []))
     = Ok (JDate (Some (19855 * JsDate.ms_per_day)%Z)).
Proof.
  split; [reflexivity|].
  apply (proj2 (@date_reply_is_read_trimmed
                  (sample_platform 0) (lit "dentist at 3pm")
                  (lit " ") (lit "2024-05-12") [Ch.lf]
                  (sample_state [Reply (lit " " ++ lit "2024-05-12" ++ [Ch.lf])] [])
                  eq_refl eq_refl eq_refl)).
  vm_compute. reflexivity.
Defined.

(** X10.  [extractDateFromInput] always returns, whatever the provider
    does: it sends its one prompt, uses up one reply, returns [null] or a
    valid [Date] and never an Invalid Date, and leaves the collection
    alone. *)
Theorem extractDateFromInput_always_returns :
  forall p text st,
    exists v st',
      Gemini.extractDateFromInput p text st = (Ok v, st')
      /\ null_or_valid_date v = true
      /\ sent st' = sent st ++ [Gemini.date_prompt p text]
      /\ backend st' = tl (backend st)
      /\ docs st' = docs st.
Proof.
  intros p text st. rewrite gemini_extractDate_run.
  destruct (head_reply st) as [result|]; do 2 eexists;
    (split; [reflexivity|]); repeat split.
  apply gemini_resolved_shape.
Qed.

(* ================================================================== *)
(** * From one handler to the next *)
(* ================================================================== *)









(* ================================================================== *)
(** * What goes into the prompt of a synthesis *)
(* ================================================================== *)

Lemma gemini_prompt_summaries p date es extra :
  Gemini.diary_prompt p date es extra
  = before_summaries (Gemini.diary_lines p date [] JUndefined) ++ es
    ++ after_summaries (Gemini.diary_lines p date [] extra).
Proof.
  unfold Gemini.diary_prompt, before_summaries, after_summaries, Gemini.diary_lines, unlines.
  cbn [firstn skipn map concat]. rewrite <- !app_assoc. reflexivity.
Qed.

Lemma groq_prompt_summaries p date es extra :
  Groq.diary_prompt p date es extra
  = before_summaries (Groq.diary_lines p date [] JUndefined) ++ es
    ++ after_summaries (Groq.diary_lines p date [] extra).
Proof.
  unfold Groq.diary_prompt, before_summaries, after_summaries, Groq.diary_lines, unlines.
  cbn [firstn skipn map concat]. rewrite <- !app_assoc. reflexivity.
Qed.



Lemma gemini_diary_sent p req st :
  truthy p (id (diary_user req)) = true ->
  truthy p (diary_date req) = true ->
  sent (snd (Gemini.generateDiaryEntry p req st))
  = sent st ++ [gemini_diary_prompt p req st].
Proof.
  intros Hu Hd. rewrite (gemini_diary_run p req st Hu Hd). cbv zeta.
  destruct (head_reply st) as [c|]; [|reflexivity].
  destruct (gemini_parsed c) as [parsed|]; [|reflexivity].
  destruct (store_accepts p (diary_entry p req parsed)); reflexivity.
Qed.

Lemma groq_diary_sent p req st :
  truthy p (id (diary_user req)) = true ->
  truthy p (diary_date req) = true ->
  sent (snd (Groq.generateDiaryEntry p req st))
  = sent st ++ [groq_diary_prompt p req st].
Proof.
  intros Hu Hd. rewrite (groq_diary_run p req st Hu Hd). cbv zeta.
  destruct (head_reply st) as [c|]; [|reflexivity].
  destruct (Json.parse c) as [parsed|]; [|reflexivity].
  destruct (nullish parsed); [reflexivity|].
  destruct (store_accepts p (diary_entry p req parsed)); reflexivity.
Qed.




(** X14.  For a date that denotes a valid one, the placeholder
    [No entries.] stands in the prompt a synthesis sends exactly when the
    collection holds nothing of the caller in the day bucket. *)
Theorem placeholder_only_for_an_empty_day :
  forall p req st t,
    truthy p (id (diary_user req)) = true ->
    truthy p (diary_date req) = true ->
    new_Date p (diary_date req) = Some t ->
    (day_entries (Gemini.day_bucket p (diary_date req)) (id (diary_user req)) st = []
     <-> sent (snd (Gemini.generateDiaryEntry p req st))
         = sent st
           ++ [Gemini.diary_prompt p (diary_date req) (lit "No entries.") (extraText req)])
    /\ (day_entries (Groq.day_bucket p (diary_date req)) (id (diary_user req)) st = []
        <-> sent (snd (Groq.generateDiaryEntry p req st))
            = sent st
              ++ [Groq.diary_prompt p (diary_date req) (lit "No entries.") (extraText req)]).
Proof.
  intros p req st t Hu Hd _.
  rewrite (gemini_diary_sent p req st Hu Hd), (groq_diary_sent p req st Hu Hd).
  split; split.
  - intros E. unfold gemini_diary_prompt. now rewrite E.
  - intros H. apply app_inv_head in H.
    assert (H' : gemini_diary_prompt p req st
                 = Gemini.diary_prompt p (diary_date req) (lit "No entries.") (extraText req))
      by congruence.
    clear H. revert H'. unfold gemini_diary_prompt.
    destruct (day_entries _ _ st) as [|e es]; [reflexivity|]. intros H. exfalso.
    rewrite (gemini_prompt_summaries p _ (summaries _ _) _) in H.
    rewrite (gemini_prompt_summaries p _ (lit "No entries.") _) in H.
    apply app_inv_head in H. unfold summaries in H.
    assert (J : exists r, join nl (map (Gemini.entry_line p) (e :: es)) = 8226%N :: r).
    { cbn [map]. destruct (map (Gemini.entry_line p) es); eexists; reflexivity. }
    destruct J as (r & J). rewrite J in H. cbv zeta in H. discriminate H.
  - intros E. unfold groq_diary_prompt. now rewrite E.
  - intros H. apply app_inv_head in H.
    assert (H' : groq_diary_prompt p req st
                 = Groq.diary_prompt p (diary_date req) (lit "No entries.") (extraText req))
      by congruence.
    clear H. revert H'. unfold groq_diary_prompt.
    destruct (day_entries _ _ st) as [|e es]; [reflexivity|]. intros H. exfalso.
    rewrite (groq_prompt_summaries p _ (summaries _ _) _) in H.
    rewrite (groq_prompt_summaries p _ (lit "No entries.") _) in H.
    apply app_inv_head in H. unfold summaries in H.
    assert (J : exists r, join nl (map (Groq.entry_line p) (e :: es)) = 226%N :: r).
    { cbn [map]. destruct (map (Groq.entry_line p) es); eexists; reflexivity. }
    destruct J as (r & J). rewrite J in H. cbv zeta in H. discriminate H.
Qed.

Lemma placeholder_only_for_an_empty_day_witness :
  new_Date (sample_platform 0) (diary_date (sample_diary_request "2024-05-10" JUndefined))
  = Some 1715299200000%Z
  /\ sent (snd (Gemini.generateDiaryEntry (sample_platform 0)
                  (sample_diary_request "2024-05-10" JUndefined)
                  (sample_state [Reply reply_diary] [])))
     = sent (sample_state [Reply reply_diary] [])
       ++ [Gemini.diary_prompt (sample_platform 0) (JString (lit "2024-05-10"))
             (lit "No entries.") JUndefined].
Proof.
  split; [reflexivity|].
  apply (proj1 (proj1 (@placeholder_only_for_an_empty_day
                         (sample_platform 0) (sample_diary_request "2024-05-10" JUndefined)
                         (sample_state [Reply reply_diary] []) 1715299200000%Z
                         eq_refl eq_refl eq_refl))).
  reflexivity.
Defined.

(* ================================================================== *)
(** * How the extraction of the reply's object fails *)
(* ================================================================== *)

(** What the span expression finds opens and closes with a brace. *)
Lemma exec_json_span_shape s m :
  exec false re_json_span s = Some m ->
  exists pre mid post,
    s = pre ++ m ++ post /\ m = [Ch.lbrace] ++ mid ++ [Ch.rbrace].
Proof.
  intros H. apply exec_from_inv in H. destruct H as (pre & rest & -> & Hrun).
  apply run_sound in Hrun. destruct Hrun as (p' & s' & HM & Hk).
  inversion Hk; subst s'; clear Hk.
  apply Matches_Seq_inv in HM. destruct HM as (p1 & s1 & HL & HR).
  apply Matches_Lit_inv in HL. destruct HL as (x & Hs & _ & Hx).
  unfold char_eq in Hx. apply N.eqb_eq in Hx. subst x.
  apply Matches_Seq_inv in HR. destruct HR as (p2 & s2 & HS & HC).
  apply Matches_Lit_inv in HC. destruct HC as (y & Hs2 & _ & Hy).
  unfold char_eq in Hy. apply N.eqb_eq in Hy. subst y.
  destruct (Matches_suffix HS) as [mid Hmid].
  exists pre, mid, rest. split; [reflexivity|].
  apply (app_inv_tail rest). rewrite Hs, Hmid, Hs2.
  cbn [app]. rewrite <- app_assoc. reflexivity.
Qed.

Lemma first_open (x : N) pre0 tail :
  exists pre pre',
    pre0 ++ x :: tail = pre ++ x :: pre' ++ tail /\ ~ In x pre.
Proof.
  induction pre0 as [|y pre0 IH].
  - exists [], []. split; [reflexivity | intros []].
  - destruct (N.eq_dec y x) as [-> | Hne].
    + exists [], (pre0 ++ [x]). split; [|intros []].
      cbn [app]. now rewrite <- app_assoc.
    + destruct IH as (pre & pre' & E & Hno).
      exists (y :: pre), pre'. split.
      * cbn [app]. now rewrite E.
      * intros [H | H]; [now apply Hne | now apply Hno].
Qed.

Lemma last_close (x : N) l :
  In x l -> exists a b, l = a ++ x :: b /\ ~ In x b.
Proof.
  induction l as [|y l IH]; intros H; [destruct H|].
  destruct (in_dec N.eq_dec x l) as [Hin | Hout].
  - destruct (IH Hin) as (a & b & -> & Hno).
    exists (y :: a), b. split; [reflexivity | exact Hno].
  - destruct H as [-> | H]; [|contradiction].
    exists [], l. split; [reflexivity | exact Hout].
Qed.

(** A text with an opening brace and a closing one after it, cut at its
    first opening brace and its last closing brace. *)
Lemma has_span_cut c :
  has_span c ->
  exists pre mid post,
    c = pre ++ [Ch.lbrace] ++ mid ++ [Ch.rbrace] ++ post
    /\ ~ In Ch.lbrace pre /\ ~ In Ch.rbrace post.
Proof.
  intros (pre0 & mid0 & post0 & ->).
  destruct (@last_close Ch.rbrace (mid0 ++ [Ch.rbrace] ++ post0)) as (a & b & E & Hb).
  { apply in_or_app. right. now left. }
  rewrite E.
  destruct (first_open Ch.lbrace pre0 (a ++ Ch.rbrace :: b)) as (pre & pre' & E' & Hpre).
  exists pre, (pre' ++ a), b. split; [|split; assumption].
  cbn [app] in *. rewrite E'. now rewrite <- app_assoc.
Qed.

(** X15.  How the extraction of the reply's object ends.  It throws a
    TypeError exactly when the reply has no opening brace with a closing
    brace somewhere after it.  Otherwise the text handed to [JSON.parse]
    runs from the first opening brace of the reply to its last closing
    brace, and the extraction returns what that text parses to or throws a
    SyntaxError. *)
Theorem extraction_error_kinds :
  forall c st,
    (Gemini.extract_json c st = (Throw TypeError, st) <-> ~ has_span c)
    /\ (has_span c ->
        exists pre mid post,
          c = pre ++ [Ch.lbrace] ++ mid ++ [Ch.rbrace] ++ post
          /\ ~ In Ch.lbrace pre /\ ~ In Ch.rbrace post
          /\ Gemini.extract_json c st
             = match Json.parse ([Ch.lbrace] ++ mid ++ [Ch.rbrace]) with
               | Some v => (Ok v, st)
               | None => (Throw SyntaxError, st)
               end).
Proof.
  intros c st. split.
  - unfold Gemini.extract_json, bind, index0, JSON_parse, ret, throw.
    destruct (exec false re_json_span c) as [m|] eqn:E.
    + split.
      * destruct (Json.parse m); discriminate.
      * intros Hno. exfalso. apply Hno.
        destruct (exec_json_span_shape _ E) as (pre & mid & post & -> & ->).
        exists pre, mid, post. now rewrite <- !app_assoc.
    + split; [|reflexivity]. intros _ Hs.
      destruct (has_span_cut Hs) as (pre & mid & post & -> & Hpre & Hpost).
      rewrite (exec_json_span _ _ _ Hpre Hpost) in E. discriminate E.
  - intros Hs.
    destruct (has_span_cut Hs) as (pre & mid & post & -> & Hpre & Hpost).
    exists pre, mid, post. split; [reflexivity|]. split; [exact Hpre|].
    split; [exact Hpost|].
    unfold Gemini.extract_json, bind, index0, JSON_parse, ret, throw.
    rewrite (exec_json_span _ _ _ Hpre Hpost).
    destruct (Json.parse _); reflexivity.
Qed.

(* ================================================================== *)
(** * Replies without the fields, days, and calls of the provider *)
(* ================================================================== *)

(** X16.  A reply that is JSON but no object is stored all the same by the
    Groq [handlePrompt].  When the whole reply parses to a number, a
    string, a boolean or an array, and the store accepts the document, the
    handler answers 200 and stores an Entry made of the defaults: the empty
    summary, the type [note], no tasks, and the sanitized input as
    content. *)
Theorem groq_stores_defaults_for_a_reply_without_fields :
  forall p req st c parsed,
    errors_empty req = true ->
    ObjectId_isValid p (id (prompt_user req)) = true ->
    head_reply st = Reply c ->
    Json.parse c = Some parsed ->
    nullish parsed = false ->
    is_object parsed = false ->
    (forall e, store_accepts p e = true) ->
    exists e st',
      Groq.handlePrompt p req st = (Ok (mkResponse 200 (Data e)), st')
      /\ docs st' = docs st ++ [e]
      /\ content e = JString (sanitizeHtml p (body_input req))
      /\ summary e = JString []
      /\ type e = JString (lit "note")
      /\ tasks e = JArray [].
Proof.
  intros p req st c parsed Hv Hid Hr Hp Hn Ho Hstore.
  rewrite (groq_handlePrompt_run p req st Hv Hid). cbv zeta.
  rewrite Hr, Hp, Hn, Hstore.
  eexists. eexists. split; [reflexivity|]. split; [reflexivity|].
  split; [reflexivity|].
  destruct parsed; try discriminate Ho; repeat split; reflexivity.
Qed.

Lemma groq_stores_defaults_for_a_reply_without_fields_witness :
  Json.parse (lit "[1, 2]") = Some (JArray [JNumber (lit "1"); JNumber (lit "2")])
  /\ exists e st',
      Groq.handlePrompt (sample_platform 0) (sample_prompt_request "Buy milk")
        (sample_state [Reply (lit "[1, 2]")] [])
      = (Ok (mkResponse 200 (Data e)), st')
      /\ docs st' = docs (sample_state [Reply (lit "[1, 2]")] []) ++ [e]
      /\ content e = JString (lit "Buy milk")
      /\ summary e = JString []
      /\ type e = JString (lit "note")
      /\ tasks e = JArray [].
Proof.
  assert (Hp : Json.parse (lit "[1, 2]") = Some (JArray [JNumber (lit "1"); JNumber (lit "2")]))
    by (vm_compute; reflexivity).
  split; [exact Hp|].
  exact (@groq_stores_defaults_for_a_reply_without_fields
           (sample_platform 0) (sample_prompt_request "Buy milk")
           (sample_state [Reply (lit "[1, 2]")] []) (lit "[1, 2]") _
           eq_refl eq_refl eq_refl Hp eq_refl eq_refl (fun _ => eq_refl)).
Defined.





(** X18.  What a classification costs.  On a valid request the Groq
    [handlePrompt] sends the provider its one classification prompt and
    uses up one reply, whatever the reply is.  The Gemini [handlePrompt]
    sends its classification prompt and, only when the extraction got a
    value out of the reply, the date prompt after it, using up one reply or
    two. *)
Theorem provider_calls_of_handlePrompt :
  forall p req st,
    errors_empty req = true ->
    ObjectId_isValid p (id (prompt_user req)) = true ->
    (sent (snd (Groq.handlePrompt p req st))
     = sent st ++ [Groq.classify_prompt (sanitizeHtml p (body_input req))]
     /\ backend (snd (Groq.handlePrompt p req st)) = tl (backend st))
    /\ (sent (snd (Gemini.handlePrompt p req st))
        = sent st
          ++ Gemini.classify_prompt (sanitizeHtml p (body_input req))
             :: (if gemini_classifies st
                 then [Gemini.date_prompt p (sanitizeHtml p (body_input req))]
                 else [])
        /\ backend (snd (Gemini.handlePrompt p req st))
           = if gemini_classifies st then tl (tl (backend st)) else tl (backend st)).
Proof.
  intros p req st Hv Hid. split.
  - rewrite (groq_handlePrompt_run p req st Hv Hid). cbv zeta.
    destruct (head_reply st) as [c|]; [|split; reflexivity].
    destruct (Json.parse c) as [parsed|]; [|split; reflexivity].
    destruct (nullish parsed); [split; reflexivity|].
    match goal with
    | |- context [store_accepts p ?d] => destruct (store_accepts p d)
    end; split; reflexivity.
  - rewrite (gemini_handlePrompt_run p req st Hv Hid). cbv zeta.
    unfold gemini_classifies.
    destruct (head_reply st) as [c|]; [|split; reflexivity].
    destruct (gemini_parsed c) as [parsed|]; [|split; reflexivity].
    destruct (head_reply (after_call _ st)) as [result|];
      match goal with
      | |- context [store_accepts p ?d] => destruct (store_accepts p d)
      end; cbn [snd sent backend after_store after_log after_call];
      rewrite <- ?app_assoc; split; reflexivity.
Qed.

Lemma provider_calls_of_handlePrompt_witness :
  errors_empty (sample_prompt_request "Buy milk") = true
  /\ backend (snd (Gemini.handlePrompt (sample_platform 0) (sample_prompt_request "Buy milk")
                     (sample_state [Reply reply_full; Reply (lit "null"); Unavailable] [])))
     = [Unavailable].
Proof.
  split; [reflexivity|].
  exact (proj2 (proj2 (@provider_calls_of_handlePrompt
                         (sample_platform 0) (sample_prompt_request "Buy milk")
                         (sample_state [Reply reply_full; Reply (lit "null"); Unavailable] [])
                         eq_refl eq_refl))).
Defined.
